(** * thought_to_table: recipe pipeline (recipe_cli.py, main.py,
    anthro_test.py)

    A shallow embedding of the recipe pipeline: the response cleaner of the
    model client, the orchestrators [process_recipe] (recipe_cli.py) and
    [RecipeAssistant.process_recipe_url] (main.py), the product matcher
    [search_walmart_product] with its validator [is_valid_product], and the
    command line entry point [main]; and the two-call script of
    anthro_test.py.

    Python text is modelled as a list of characters over the code points
    0..255; on these [isspace], [lower] and [isdigit] are Python's.  Python
    values that come out of [json.loads] are the type [json].  Exceptions are
    values of [exn]; effectful code runs in the monad [M], which threads the
    log of external calls and may raise. *)

From Stdlib Require Import List Ascii String ZArith Lia Bool.
From Stdlib Require DecimalString.
Import ListNotations.
Open Scope list_scope.

Set Warnings "-register-all,-abstract-large-number".

(** ** Python strings *)

Definition pystr := list ascii.

Definition str (s : string) : pystr := list_ascii_of_string s.

Definition code (c : ascii) : N := N_of_ascii c.

Definition chr (n : N) : ascii := ascii_of_N n.

Definition nl : ascii := chr 10.
Definition dq : ascii := chr 34.
Definition backtick : ascii := chr 96.

(** [str.isspace] on one character: TAB..CR, FS..US, space, NEL and NBSP. *)
Definition isspace (c : ascii) : bool :=
  let n := code c in
  ((9 <=? n) && (n <=? 13) || (28 <=? n) && (n <=? 32)
   || (n =? 133) || (n =? 160))%N.

(** The four characters [json] skips around a document. *)
Definition is_json_ws (c : ascii) : bool :=
  let n := code c in ((n =? 32) || (n =? 9) || (n =? 10) || (n =? 13))%N.

(** [str.lower] on one character: A..Z and the accented capitals
    0xC0..0xDE (except the multiplication sign 0xD7) move up by 32. *)
Definition lower_char (c : ascii) : ascii :=
  let n := code c in
  if ((65 <=? n) && (n <=? 90)
      || (192 <=? n) && (n <=? 222) && negb (n =? 215))%N
  then chr (n + 32) else c.

Definition lower (s : pystr) : pystr := map lower_char s.

(** [str.isdigit] on one character: 0..9 and the superscripts 2, 3 and 1. *)
Definition isdigit_char (c : ascii) : bool :=
  let n := code c in
  ((48 <=? n) && (n <=? 57) || (n =? 178) || (n =? 179) || (n =? 185))%N.

Definition is_ascii_digit (c : ascii) : bool :=
  let n := code c in ((48 <=? n) && (n <=? 57))%N.

(** The superscript digits of Latin-1: [isdigit] accepts them, [int] does
    not. *)
Definition is_superscript (c : ascii) : bool :=
  let n := code c in ((n =? 178) || (n =? 179) || (n =? 185))%N.

(** [s.isdigit()]: every character is a digit and there is at least one. *)
Definition isdigit (s : pystr) : bool :=
  match s with [] => false | _ => forallb isdigit_char s end.

Definition ascii_eqb (a b : ascii) : bool := Ascii.eqb a b.

Fixpoint pystr_eqb (a b : pystr) : bool :=
  match a, b with
  | [], [] => true
  | x :: a', y :: b' => ascii_eqb x y && pystr_eqb a' b'
  | _, _ => false
  end.

Fixpoint lstrip (s : pystr) : pystr :=
  match s with
  | c :: s' => if isspace c then lstrip s' else s
  | [] => []
  end.

Definition rstrip (s : pystr) : pystr := rev (lstrip (rev s)).

(** [s.strip()] *)
Definition strip (s : pystr) : pystr := rstrip (lstrip s).

(** [s.startswith(p)] *)
Fixpoint startswith (p s : pystr) : bool :=
  match p, s with
  | [], _ => true
  | a :: p', b :: s' => ascii_eqb a b && startswith p' s'
  | _ :: _, [] => false
  end.

(** [s.endswith(p)] *)
Definition endswith (p s : pystr) : bool := startswith (rev p) (rev s).

(** [p in s] *)
Fixpoint contains (p s : pystr) : bool :=
  startswith p s ||
  match s with
  | [] => false
  | _ :: s' => contains p s'
  end.

(** [s.split("\n")]: the pieces between newlines, always at least one. *)
Fixpoint split_nl (s : pystr) : list pystr :=
  match s with
  | [] => [[]]
  | c :: s' =>
      if ascii_eqb c nl then [] :: split_nl s'
      else match split_nl s' with
           | piece :: rest => (c :: piece) :: rest
           | [] => [[c]]
           end
  end.

(** ["\n".join(pieces)] *)
Fixpoint join_nl (pieces : list pystr) : pystr :=
  match pieces with
  | [] => []
  | [p] => p
  | p :: rest => p ++ nl :: join_nl rest
  end.

(** [s.split("\n", 1)]: one piece, or the text before and after the first
    newline. *)
Fixpoint split1_nl (s : pystr) : list pystr :=
  match s with
  | [] => [[]]
  | c :: s' =>
      if ascii_eqb c nl then [[]; s']
      else match split1_nl s' with
           | piece :: rest => (c :: piece) :: rest
           | [] => [[c]]
           end
  end.

(** [s.rsplit(sep, 1)[0]]: the text before the rightmost occurrence of
    [sep], or all of [s] when there is none. *)
Fixpoint rsplit1_head (sep s : pystr) : pystr :=
  match s with
  | [] => []
  | c :: s' =>
      if contains sep s' then c :: rsplit1_head sep s'
      else if startswith sep s then [] else s
  end.

(** [s[:-3]] *)
Definition drop_last3 (s : pystr) : pystr := firstn (List.length s - 3) s.

(** [s[:n]] *)
Definition take (n : nat) (s : pystr) : pystr := firstn n s.

(** ** Python values, exceptions and effects *)

(** The values [json.loads] produces.  A [dict] keeps its keys in insertion
    order; a float is kept as the text of its literal. *)
Inductive json : Type :=
| JNull
| JBool (b : bool)
| JInt (z : Z)
| JFloat (lexeme : pystr)
| JString (s : pystr)
| JArray (items : list json)
| JObject (fields : list (pystr * json)).

Inductive exn_kind : Type :=
| RequestException   (* requests.RequestException and its subclasses *)
| JSONDecodeError
| AttributeError
| TypeError
| IndexError
| KeyError
| ValueError
| APIError           (* raised by the anthropic client *)
| WebDriverException (* raised by selenium / undetected_chromedriver *)
| OSError
| OverflowError.

Record exn : Type := Exn { exn_kind_of : exn_kind; exn_msg : pystr }.

Inductive outcome (A : Type) : Type :=
| Ok (a : A)
| Raise (e : exn).

Arguments Ok {A} a.
Arguments Raise {A} e.

(** The calls that leave the process, in the order they are made. *)
Inductive event : Type :=
| HttpGet (url : pystr)
| ModelCall (prompt : pystr)
| BrowserLaunch
| Navigate (url : pystr)
| ReadFile (name : pystr).

(** Mutable state: the call log and [self.driver] (is a browser open). *)
Record state : Type := St { log : list event; driver : bool }.

Definition M (A : Type) : Type := state -> outcome A * state.

Definition ret {A} (a : A) : M A := fun st => (Ok a, st).

Definition raise {A} (e : exn) : M A := fun st => (Raise e, st).

Definition bind {A B} (m : M A) (k : A -> M B) : M B :=
  fun st =>
    match m st with
    | (Ok a, st') => k a st'
    | (Raise e, st') => (Raise e, st')
    end.

(** [try: m  except Exception as e: handler e] *)
Definition try_catch {A} (m : M A) (handler : exn -> M A) : M A :=
  fun st =>
    match m st with
    | (Ok a, st') => (Ok a, st')
    | (Raise e, st') => handler e st'
    end.

Definition lift {A} (o : outcome A) : M A := fun st => (o, st).

Definition emit (ev : event) : M unit :=
  fun st => (Ok tt, St (log st ++ [ev]) (driver st)).

Definition get_state : M state := fun st => (Ok st, st).

Definition set_driver (b : bool) : M unit :=
  fun st => (Ok tt, St (log st) b).

(** [m] leaves [self.driver] as it found it. *)
Definition keeps_driver {A} (m : M A) : Prop :=
  forall st o st', m st = (o, st') -> driver st' = driver st.

Notation "x <- m ;; k" := (bind m (fun x => k))
  (at level 61, m at next level, right associativity).
Notation "m ;;; k" := (bind m (fun _ => k))
  (at level 61, right associativity).

Definition is_model_call (ev : event) : bool :=
  match ev with ModelCall _ => true | _ => false end.

Definition is_navigate (ev : event) : bool :=
  match ev with Navigate _ => true | _ => false end.

Definition is_http_get (ev : event) : bool :=
  match ev with HttpGet _ => true | _ => false end.

Definition count_events (p : event -> bool) (l : list event) : nat :=
  List.length (filter p l).

(** *** Operations on Python values *)

Definition type_name (v : json) : pystr :=
  match v with
  | JNull => str "NoneType"
  | JBool _ => str "bool"
  | JInt _ => str "int"
  | JFloat _ => str "float"
  | JString _ => str "str"
  | JArray _ => str "list"
  | JObject _ => str "dict"
  end.

Definition no_attribute (v : json) (attr : string) : exn :=
  Exn AttributeError
      (str "'" ++ type_name v ++ str "' object has no attribute '"
           ++ str attr ++ str "'").

Fixpoint assoc (k : pystr) (fields : list (pystr * json)) : option json :=
  match fields with
  | [] => None
  | (k', v) :: rest => if pystr_eqb k k' then Some v else assoc k rest
  end.

(** [d[k] = v] on a dict: an existing key keeps its place. *)
Fixpoint dict_set (k : pystr) (v : json) (fields : list (pystr * json))
  : list (pystr * json) :=
  match fields with
  | [] => [(k, v)]
  | (k', v') :: rest =>
      if pystr_eqb k k' then (k', v) :: rest else (k', v') :: dict_set k v rest
  end.

Definition get_or (k : string) (default : json) (fields : list (pystr * json))
  : json :=
  match assoc (str k) fields with Some v => v | None => default end.

(** [v.get(k, default)]: only a dict has [get]. *)
Definition py_get (v : json) (k : string) (default : json) : outcome json :=
  match v with
  | JObject fields => Ok (get_or k default fields)
  | _ => Raise (no_attribute v "get")
  end.

(** [v[k]] with a string key. *)
Definition py_getitem (v : json) (k : string) : outcome json :=
  match v with
  | JObject fields =>
      match assoc (str k) fields with
      | Some x => Ok x
      | None => Raise (Exn KeyError (str "'" ++ str k ++ str "'"))
      end
  | JArray _ =>
      Raise (Exn TypeError (str "list indices must be integers or slices, not str"))
  | JString _ =>
      Raise (Exn TypeError (str "string indices must be integers, not 'str'"))
  | _ =>
      Raise (Exn TypeError
                 (str "'" ++ type_name v ++ str "' object is not subscriptable"))
  end.

(** [v.lower()]: only a str has [lower]. *)
Definition py_lower (v : json) : outcome pystr :=
  match v with
  | JString s => Ok (lower s)
  | _ => Raise (no_attribute v "lower")
  end.

(** [len(v)] *)
Definition py_len (v : json) : outcome nat :=
  match v with
  | JArray items => Ok (List.length items)
  | JObject fields => Ok (List.length fields)
  | JString s => Ok (List.length s)
  | _ =>
      Raise (Exn TypeError
                 (str "object of type '" ++ type_name v ++ str "' has no len()"))
  end.

(** [for x in v]: the items of a list, the keys of a dict, the characters
    of a str; anything else is not iterable. *)
Definition py_iter (v : json) : outcome (list json) :=
  match v with
  | JArray items => Ok items
  | JObject fields => Ok (map (fun kv => JString (fst kv)) fields)
  | JString s => Ok (map (fun c => JString [c]) s)
  | _ =>
      Raise (Exn TypeError
                 (str "'" ++ type_name v ++ str "' object is not iterable"))
  end.

(** [v.items()]: only a dict has [items]. *)
Definition py_items (v : json) : outcome (list (pystr * json)) :=
  match v with
  | JObject fields => Ok fields
  | _ => Raise (no_attribute v "items")
  end.

(** The number a string of the digits 0..9 writes. *)
Definition digits_value (s : pystr) : Z :=
  fold_left (fun acc c => (10 * acc + (Z.of_N (code c) - 48))%Z) s 0%Z.

(** A float lexeme at its exponent mark: the mantissa, and the text after
    the mark if there is one. *)
Fixpoint split_exponent (x : pystr) : pystr * option pystr :=
  match x with
  | [] => ([], None)
  | c :: rest =>
      if ascii_eqb c (chr 101) || ascii_eqb c (chr 69) then ([], Some rest)
      else let (m, e) := split_exponent rest in (c :: m, e)
  end.

(** The number of characters after the decimal point of a mantissa. *)
Fixpoint fraction_length (m : pystr) : nat :=
  match m with
  | [] => 0
  | c :: rest =>
      if ascii_eqb c (chr 46) then List.length rest else fraction_length rest
  end.

Definition signed_value (e : pystr) : Z :=
  match e with
  | c :: rest =>
      if ascii_eqb c (chr 45) then (- digits_value rest)%Z
      else if ascii_eqb c (chr 43) then digits_value rest
      else digits_value e
  | [] => 0%Z
  end.

(** The float a decimal lexeme is read as equals zero: its digits are all
    zero, or its magnitude is at most 2^-1075, half of the least positive
    double, and is rounded to zero.  [NaN] and [Infinity] are not zero. *)
Definition float_is_zero (x : pystr) : bool :=
  let (m, e) := split_exponent x in
  let decimal_mantissa :=
    forallb (fun c => is_ascii_digit c || ascii_eqb c (chr 46)
                      || ascii_eqb c (chr 45)) m
    && existsb is_ascii_digit m in
  let digits := digits_value (filter is_ascii_digit m) in
  let exponent :=
    ((match e with Some t => signed_value t | None => 0 end)
     - Z.of_nat (fraction_length m))%Z in
  decimal_mantissa
  && ((digits =? 0)%Z
      || ((exponent <? 0)%Z
          && (digits * 2 ^ 1075 <=? 10 ^ (- exponent))%Z)).

(** Truth value of a Python value ([if v], [v or default]). *)
Definition py_truthy (v : json) : bool :=
  match v with
  | JNull => false
  | JBool b => b
  | JInt z => negb (z =? 0)%Z
  | JFloat x => negb (float_is_zero x)
  | JString s => match s with [] => false | _ => true end
  | JArray items => match items with [] => false | _ => true end
  | JObject fields => match fields with [] => false | _ => true end
  end.

Definition is_dict (v : json) : bool :=
  match v with JObject _ => true | _ => false end.

Definition is_str (v : json) : bool :=
  match v with JString _ => true | _ => false end.

(** ** Libraries and the outside world *)

Record response : Type :=
  Response { status_code : Z; response_text : pystr }.

(** The pure library functions the program calls. *)
Class Runtime : Type := {
  (** [json.loads]; [None] stands for [json.JSONDecodeError] *)
  json_loads : pystr -> option json;
  (** the message of that error *)
  json_error_msg : pystr -> pystr;
  (** [json.dumps(v, indent=2)] *)
  json_dumps : json -> pystr;
  (** [str(v)], as an f-string formats a value *)
  py_str : json -> pystr;
  (** BeautifulSoup: drop script, style, nav, footer, header and aside, then
      [get_text(separator="\n", strip=True)] (recipe_cli.py) *)
  soup_text_stripped : pystr -> pystr;
  (** BeautifulSoup: drop script and style, then [get_text()] (main.py) *)
  soup_text : pystr -> pystr;
  (** [urllib.parse.quote] on a str *)
  url_quote : pystr -> pystr;
  (** the message of the [HTTPError] that [raise_for_status] raises *)
  http_error_msg : response -> pystr;
  (** [f"{v:.2f}"] on a number *)
  format_2f : json -> pystr;
  (** the pictographs of the chat message, outside the character model *)
  glyph_error : pystr;
  glyph_plate : pystr;
  glyph_chart : pystr;
  glyph_money : pystr;
  glyph_bullet : pystr
}.

(** What [product.find_element] and friends answer inside one result
    container of the search page. *)
Record container : Type := Container {
  (** [find_element(By.CSS_SELECTOR, sel).text] *)
  css_text : pystr -> outcome pystr;
  (** [find_element(By.CSS_SELECTOR, sel).get_attribute('href')] *)
  css_href : pystr -> outcome (option pystr);
  (** [find_elements(By.TAG_NAME, "a")] and [get_attribute('href')] of each *)
  anchors : outcome (list (outcome (option pystr)))
}.

Record search_page : Type := SearchPage {
  (** [driver.get(url)] *)
  navigate : outcome unit;
  (** [WebDriverWait(driver, 10).until(presence_of_element_located(...))] *)
  wait_container : outcome container
}.

(** Everything outside the process.  The model and the browser may answer
    differently each time, so they are indexed by the number of earlier
    calls. *)
Record World : Type := {
  (** [os.getenv('ANTHROPIC_API_KEY')] *)
  getenv_api_key : option pystr;
  (** [requests.get(url, ...)] *)
  requests_get : pystr -> outcome response;
  (** [client.messages.create(...)] followed by [.content[0].text] *)
  messages_create : nat -> pystr -> outcome pystr;
  (** [uc.Chrome()] *)
  chrome_launch : outcome unit;
  (** [driver.maximize_window()] *)
  maximize_window : outcome unit;
  (** the page the browser shows for the n-th navigation *)
  search_results : nat -> pystr -> search_page;
  (** [open(name).read()] *)
  read_file : pystr -> outcome pystr
}.

Section Externals.

Context {R : Runtime}.
Variable w : World.

(** *** External calls *)

Definition http_get (url : pystr) : M response :=
  emit (HttpGet url) ;;; lift (requests_get w url).

(** One model call: the reply text of the n-th call for this prompt. *)
Definition model_call (content : pystr) : M pystr :=
  st <- get_state ;;
  emit (ModelCall content) ;;;
  lift (messages_create w (count_events is_model_call (log st)) content).

(** [json.loads(text)] *)
Definition loads (text : pystr) : M json :=
  match json_loads text with
  | Some v => ret v
  | None => raise (Exn JSONDecodeError (json_error_msg text))
  end.

(** [response.raise_for_status()]: a 4xx or 5xx status raises [HTTPError],
    a [RequestException]. *)
Definition raise_for_status (r : response) : M unit :=
  if ((400 <=? status_code r) && (status_code r <? 600))%Z
  then raise (Exn RequestException (http_error_msg r))
  else ret tt.

Definition fence : pystr := [backtick; backtick; backtick].

(** [f"{v:.2f}"]: only numbers take the format, and an int is converted
    to a float first, which fails from 2^1024 - 2^970 on, the least
    magnitude that is rounded beyond the largest double. *)
Definition py_format_2f (v : json) : outcome pystr :=
  match v with
  | JInt z =>
      if (2 ^ 1024 - 2 ^ 970 <=? Z.abs z)%Z
      then Raise (Exn OverflowError
                      (str "int too large to convert to float"))
      else Ok (format_2f v)
  | JFloat _ | JBool _ => Ok (format_2f v)
  | JString _ =>
      Raise (Exn ValueError
                 (str "Unknown format code 'f' for object of type 'str'"))
  | _ =>
      Raise (Exn TypeError
                 (str "unsupported format string passed to "
                      ++ type_name v ++ str ".__format__"))
  end.

End Externals.

(** ** recipe_cli.py *)

Module RecipeCli.

Section Defs.

Context {R : Runtime}.
Variable w : World.

(** [extract_recipe_text(url)] *)
Definition extract_recipe_text (url : pystr) : M pystr :=
  r <- http_get w url ;;
  raise_for_status r ;;;
  ret (soup_text_stripped (response_text r)).

(** The cleaning steps of [call_claude] between the reply and [json.loads]. *)
Definition clean (reply : pystr) : pystr :=
  let text := strip reply in
  let text :=
    if startswith fence text then
      let text := join_nl (tl (split_nl text)) in
      if contains fence text then rsplit1_head fence text else text
    else text in
  strip text.

Definition json_suffix : pystr := str "

Respond with valid JSON only.".

(** [call_claude(client, prompt)] *)
Definition call_claude (prompt : pystr) : M json :=
  reply <- model_call w (prompt ++ json_suffix) ;;
  loads (clean reply).

Definition parse_prompt (recipe_text : pystr) : pystr :=
  str "Analyze this recipe and extract:
- recipe_name
- original_servings (number)
- ingredients: array of {name, amount, unit, category, notes}

Categories: produce, dairy, meat, seafood, pantry, spices, frozen, bakery

Recipe:
" ++ take 6000 recipe_text ++ str "

Return JSON only.".

Definition scale_prompt (original_servings : json) (servings : Z)
    (parsed : json) : pystr :=
  str "Scale this recipe from " ++ py_str original_servings ++ str " to "
    ++ py_str (JInt servings) ++ str " servings.

Recipe: " ++ json_dumps parsed ++ str "

Return JSON with:
- recipe_name
- scaled_servings: " ++ py_str (JInt servings) ++ str "
- shopping_list: array of {name, amount, unit, category, estimated_price}
- estimated_total_cost: number
- storage_tips: {ingredient: tip}

Round to practical amounts. Use common package sizes.".

Definition failure (msg : pystr) : json :=
  JObject [(str "success", JBool false); (str "error", JString msg)].

(** The body of the [try] block of [process_recipe]. *)
Definition pipeline (url : pystr) (servings : Z) : M json :=
  recipe_text <- extract_recipe_text url ;;
  parsed <- call_claude (parse_prompt recipe_text) ;;
  original <- lift (py_get parsed "original_servings" (JInt 4)) ;;
  scaled <- call_claude (scale_prompt original servings parsed) ;;
  parsed_name <- lift (py_get parsed "recipe_name" (JString (str "Recipe"))) ;;
  recipe_name <- lift (py_get scaled "recipe_name" parsed_name) ;;
  original_servings <- lift (py_get parsed "original_servings" (JInt 4)) ;;
  shopping_list <- lift (py_get scaled "shopping_list" (JArray [])) ;;
  estimated_cost <- lift (py_get scaled "estimated_total_cost" (JInt 0)) ;;
  storage_tips <- lift (py_get scaled "storage_tips" (JObject [])) ;;
  ret (JObject [
    (str "success", JBool true);
    (str "url", JString url);
    (str "recipe_name", recipe_name);
    (str "original_servings", original_servings);
    (str "scaled_servings", JInt servings);
    (str "shopping_list", shopping_list);
    (str "estimated_cost", estimated_cost);
    (str "storage_tips", storage_tips)]).

(** The dict [pipeline] returns, from the two decoded replies. *)
Definition success_result (url : pystr) (servings : Z)
    (parsed scaled : list (pystr * json)) : json :=
  JObject [
    (str "success", JBool true);
    (str "url", JString url);
    (str "recipe_name",
       get_or "recipe_name"
         (get_or "recipe_name" (JString (str "Recipe")) parsed) scaled);
    (str "original_servings", get_or "original_servings" (JInt 4) parsed);
    (str "scaled_servings", JInt servings);
    (str "shopping_list", get_or "shopping_list" (JArray []) scaled);
    (str "estimated_cost", get_or "estimated_total_cost" (JInt 0) scaled);
    (str "storage_tips", get_or "storage_tips" (JObject []) scaled)].

(** The [except] clauses of [process_recipe], in order. *)
Definition handler (e : exn) : M json :=
  match exn_kind_of e with
  | RequestException =>
      ret (failure (str "Failed to fetch recipe: " ++ exn_msg e))
  | JSONDecodeError =>
      ret (failure (str "Failed to parse Claude response: " ++ exn_msg e))
  | _ => ret (failure (exn_msg e))
  end.

(** [process_recipe(url, servings)] *)
Definition process_recipe (url : pystr) (servings : Z) : M json :=
  match getenv_api_key w with
  | None => ret (failure (str "ANTHROPIC_API_KEY not set"))
  | Some [] => ret (failure (str "ANTHROPIC_API_KEY not set"))
  | Some (_ :: _) => try_catch (pipeline url servings) handler
  end.

(** One bullet of the shopping list in [format_for_chat]. *)
Definition chat_item (item : json) : outcome pystr :=
  match item with
  | JObject f =>
      let name := get_or "name" (JString (str "Unknown")) f in
      let amount := get_or "amount" (JString []) f in
      let unit := get_or "unit" (JString []) f in
      let price := get_or "estimated_price" (JInt 0) f in
      let line price_str :=
        glyph_bullet ++ str " " ++ py_str name ++ str ": " ++ py_str amount
                     ++ str " " ++ py_str unit ++ price_str in
      if py_truthy price then
        match py_format_2f price with
        | Ok p => Ok (line (str " ~$" ++ p))
        | Raise e => Raise e
        end
      else Ok (line [])
  | _ => Raise (no_attribute item "get")
  end.

Fixpoint chat_items (items : list json) : outcome (list pystr) :=
  match items with
  | [] => Ok []
  | item :: rest =>
      match chat_item item with
      | Raise e => Raise e
      | Ok line =>
          match chat_items rest with
          | Raise e => Raise e
          | Ok lines => Ok (line :: lines)
          end
      end
  end.

Definition chat_tip (kv : pystr * json) : pystr :=
  glyph_bullet ++ str " " ++ fst kv ++ str ": " ++ py_str (snd kv).

(** [format_for_chat(result)], for a result that is a dict. *)
Definition format_for_chat (result : list (pystr * json)) : outcome pystr :=
  if negb (py_truthy (get_or "success" JNull result)) then
    Ok (glyph_error ++ str " Error: "
          ++ py_str (get_or "error" (JString (str "Unknown error")) result))
  else
    match py_getitem (JObject result) "recipe_name" with
    | Raise e => Raise e
    | Ok recipe_name =>
    match py_getitem (JObject result) "scaled_servings" with
    | Raise e => Raise e
    | Ok scaled_servings =>
    match py_iter (get_or "shopping_list" (JArray []) result) with
    | Raise e => Raise e
    | Ok items =>
    match chat_items items with
    | Raise e => Raise e
    | Ok bullets =>
    match py_format_2f (get_or "estimated_cost" (JInt 0) result) with
    | Raise e => Raise e
    | Ok total =>
        let head :=
          [glyph_plate ++ str " **" ++ py_str recipe_name ++ str "**";
           glyph_chart ++ str " Scaled for " ++ py_str scaled_servings
                       ++ str " servings";
           [];
           str "**Shopping List:**"] in
        let cost :=
          [[]; glyph_money ++ str " **Estimated Total:** $" ++ total] in
        if py_truthy (get_or "storage_tips" JNull result) then
          match py_getitem (JObject result) "storage_tips" with
          | Raise e => Raise e
          | Ok tips =>
              match py_items tips with
              | Raise e => Raise e
              | Ok kvs =>
                  Ok (join_nl (head ++ bullets ++ cost
                                 ++ [[]; str "**Storage Tips:**"]
                                 ++ map chat_tip (firstn 5 kvs)))
              end
          end
        else Ok (join_nl (head ++ bullets ++ cost))
    end end end end end.

(** The value of a string of the digits 0..9. *)
Definition decimal_value (s : pystr) : Z :=
  fold_left (fun acc c => (10 * acc + (Z.of_N (code c) - 48))%Z) s 0%Z.

(** The digits 0..9 a string starts with. *)
Fixpoint leading_digits (s : pystr) : pystr :=
  match s with
  | c :: rest => if is_ascii_digit c then c :: leading_digits rest else []
  | [] => []
  end.

(** A natural number in decimal. *)
Definition nat_text (n : nat) : pystr :=
  str (DecimalString.NilEmpty.string_of_uint (Nat.to_uint n)).

(** [int(s)] for a string on which [isdigit] holds, so one without sign,
    space or underscore.  More than 4300 digits at the start are refused
    first; then a character that is no decimal digit, here a superscript,
    is an invalid literal, reported with the first 200 characters of
    [repr(s)]. *)
Definition py_int (s : pystr) : outcome Z :=
  let digits := List.length (leading_digits s) in
  if (4300 <? digits)%nat then
    Raise (Exn ValueError
             (str "Exceeds the limit (4300 digits) for integer string conversion: value has "
                ++ nat_text digits
                ++ str " digits; use sys.set_int_max_str_digits() to increase the limit"))
  else if negb (forallb is_ascii_digit s) then
    Raise (Exn ValueError
             (str "invalid literal for int() with base 10: "
                ++ take 200 (str "'" ++ s ++ str "'")))
  else Ok (decimal_value s).

Definition arg_in (a : string) (argv : list pystr) : bool :=
  existsb (pystr_eqb (str a)) argv.

(** [main()], returning the status passed to [sys.exit], or 0 when it runs
    to its end. *)
Definition main (argv : list pystr) : M Z :=
  if (List.length argv <? 2)%nat
     || arg_in "-h" [nth 1 argv []] || arg_in "--help" [nth 1 argv []]
  then ret (if arg_in "--help" argv then 0 else 1)%Z
  else
    let url := nth 1 argv [] in
    servings <- (if (2 <? List.length argv)%nat && isdigit (nth 2 argv [])
                 then lift (py_int (nth 2 argv [])) else ret 7%Z) ;;
    let chat := arg_in "--chat" argv in
    result <- process_recipe url servings ;;
    if chat then
      match result with
      | JObject fields => _ <- lift (format_for_chat fields) ;; ret 0%Z
      | _ => raise (no_attribute result "get")
      end
    else ret 0%Z.

(** The exit status of the process: an uncaught exception ends it with 1. *)
Definition exit_status (argv : list pystr) (st : state) : Z :=
  match main argv st with
  | (Ok c, _) => c
  | (Raise _, _) => 1%Z
  end.

(** The serving count [main] passes on is readable: no third argument, one
    that [isdigit] rejects, or at most 4300 of the digits 0..9. *)
Definition servings_arg_ok (argv : list pystr) : Prop :=
  (List.length argv <= 2)%nat
  \/ isdigit (nth 2 argv []) = false
  \/ (forallb is_ascii_digit (nth 2 argv []) = true
       /\ (List.length (nth 2 argv []) <= 4300)%nat).

End Defs.

End RecipeCli.

(** The error string [process_recipe] reports for an exception of its
    [try] block: the text of the matching [except] clause. *)
Definition error_text (e : exn) : pystr :=
  match exn_kind_of e with
  | RequestException => str "Failed to fetch recipe: " ++ exn_msg e
  | JSONDecodeError => str "Failed to parse Claude response: " ++ exn_msg e
  | _ => exn_msg e
  end.

(** ** main.py *)

Module Main.

(** The fields of [RecipeAssistant] that never change after [__init__];
    [self.driver] lives in the state. *)
Record RecipeAssistant : Type := {
  servings_needed : Z;
  debug_walmart_search : bool
}.

Section Defs.

Context {R : Runtime}.
Variable w : World.
Variable self : RecipeAssistant.

(** [_ensure_browser()] *)
Definition _ensure_browser : M unit :=
  st <- get_state ;;
  if driver st then ret tt
  else
    emit BrowserLaunch ;;;
    lift (chrome_launch w) ;;;
    set_driver true ;;;
    lift (maximize_window w).

(** A browser is open, or one can be started. *)
Definition browser_available (st : state) : Prop :=
  driver st = true \/ (chrome_launch w = Ok tt /\ maximize_window w = Ok tt).

(** [product] is a result container some search page showed. *)
Definition shown (product : container) : Prop :=
  exists n url, wait_container (search_results w n url) = Ok product.

(** The three product fields of a match: each is a sentinel or a non-empty
    text read from a shown container. *)
Definition name_ok (name : pystr) : Prop :=
  name = str "Name not found" \/ name = str "Search failed"
  \/ (name <> [] /\
      exists product selector,
        shown product /\ css_text product selector = Ok name).

Definition url_ok (url : pystr) : Prop :=
  url = str "URL not found"
  \/ (url <> [] /\
      exists product,
        shown product /\
        (css_href product (str "a[href*='/ip/']") = Ok (Some url)
         \/ exists links,
             anchors product = Ok links /\ In (Ok (Some url)) links)).

Definition price_ok (price : pystr) : Prop :=
  price = str "Price not found"
  \/ (price <> [] /\
      exists product selector,
        shown product /\ css_text product selector = Ok price).

(** [pm] is a product match for [ingredient]. *)
Definition match_of (ingredient pm : json) : Prop :=
  exists name url price qty,
    pm = JObject [
      (str "ingredient", ingredient);
      (str "product", JObject [
         (str "name", JString name);
         (str "url", JString url);
         (str "price", JString price);
         (str "quantity_needed", JString qty)])]
    /\ name_ok name /\ url_ok url /\ price_ok price.

(** [extract_recipe_text(recipe_url)] *)
Definition extract_recipe_text (recipe_url : pystr) : M pystr :=
  r <- http_get w recipe_url ;;
  ret (soup_text (response_text r)).

(** [text.split("\n", 1)[1]] *)
Definition after_first_line (text : pystr) : outcome pystr :=
  match split1_nl text with
  | _ :: rest :: _ => Ok rest
  | _ => Raise (Exn IndexError (str "list index out of range"))
  end.

(** The cleaning steps of [_call_claude] between the reply and
    [json.loads]. *)
Definition clean (reply : pystr) : outcome pystr :=
  if startswith fence reply then
    match after_first_line reply with
    | Raise e => Raise e
    | Ok text =>
        if endswith fence text then Ok (strip (drop_last3 text))
        else if contains fence text then Ok (strip (rsplit1_head fence text))
        else Ok (strip text)
    end
  else Ok (strip reply).

(** [_call_claude(prompt)] *)
Definition _call_claude (prompt : pystr) : M json :=
  reply <- model_call w (prompt ++ str "

Respond with valid JSON only, no markdown formatting.") ;;
  text <- lift (clean reply) ;;
  loads text.

Definition quoted (s : string) : pystr := dq :: str s ++ [dq].

Definition parse_prompt (recipe_text : pystr) : pystr :=
  str "Analyze this recipe and convert ingredients into Walmart-optimized shopping format.

For each ingredient provide:
- name: Use standard grocery shopping terms. Format specifically for Walmart grocery search (e.g., "
  ++ quoted "garlic cloves" ++ str " instead of "
  ++ quoted "whole fresh garlic bulb" ++ str ", " ++ quoted "sour cream"
  ++ str " instead of just " ++ quoted "dairy sour cream" ++ str ")
- amount: numerical quantity
- unit: Use common retail units:
    - For produce: " ++ quoted "whole" ++ str ", " ++ quoted "bunch"
  ++ str ", " ++ quoted "head" ++ str ", " ++ quoted "lb" ++ str "
    - For dairy/liquid: " ++ quoted "oz" ++ str ", " ++ quoted "fl oz"
  ++ str ", " ++ quoted "gallon" ++ str "
    - For packaged goods: " ++ quoted "oz" ++ str ", " ++ quoted "lb"
  ++ str ", " ++ quoted "count" ++ str "
- category: Specify one of: " ++ quoted "produce" ++ str ", "
  ++ quoted "dairy" ++ str ", " ++ quoted "meat" ++ str ", "
  ++ quoted "pantry" ++ str ", " ++ quoted "spices" ++ str "
- notes: Include any specifics that do not fit in the other details

Consider common Walmart packaging and product names. Format ingredient names as you would find them on Walmart.com.

Format response as JSON with:
- ingredients: array of ingredient objects
- servings: number
- meal_type: string
- portion_size: string  
- calories_per_serving: number

Recipe text:
" ++ recipe_text.

(** [parse_recipe_with_claude(recipe_text)] *)
Definition parse_recipe_with_claude (recipe_text : pystr) : M json :=
  try_catch (_call_claude (parse_prompt recipe_text))
    (fun _ =>
       ret (JObject [(str "ingredients", JArray []); (str "servings", JInt 0)])).

Definition scale_prompt (recipe_data : json) : pystr :=
  str "Scale this recipe to make " ++ py_str (JInt (servings_needed self))
    ++ str " meals.

Current recipe data:
" ++ json_dumps recipe_data ++ str "

Calculate the new quantities needed and provide:
1. Scaled ingredients list with adjusted amounts
2. Shopping list optimized for bulk buying
3. Storage recommendations for bulk ingredients
4. Estimated total cost

Format as JSON with these keys:
- scaled_ingredients: array of adjusted ingredients (each with: name, amount, unit, category, notes)
- shopping_list: array of optimized items to buy (each with: name, amount, units, notes)
- storage_tips: object with storage advice (ingredient name -> tip)
- estimated_cost: number

Consider:
- Rounding to practical purchase amounts
- Bulk packaging sizes
- Common store quantities
- Ingredient shelf life".

(** [scale_recipe(recipe_data)] *)
Definition scale_recipe (recipe_data : json) : M json :=
  _call_claude (scale_prompt recipe_data).

(** [invalid_keywords], looked up with [category in invalid_keywords]. *)
Definition invalid_keywords (category : pystr) : option (list pystr) :=
  if pystr_eqb category (str "produce") then
    Some [str "seeds"; str "plant"; str "garden"; str "growing"]
  else if pystr_eqb category (str "dairy") then
    Some [str "chips"; str "snacks"; str "artificial"]
  else if pystr_eqb category (str "meat") then
    Some [str "pet"; str "dog"; str "cat"; str "toy"]
  else None.

(** The keywords that rule a product out for a category. *)
Definition denylist (category : pystr) : list pystr :=
  match invalid_keywords (lower category) with
  | Some kws => kws
  | None => []
  end.

(** [is_valid_product(product_name, ingredient)] *)
Definition is_valid_product (product_name : pystr) (ingredient : json)
  : outcome bool :=
  match py_get ingredient "category" (JString []) with
  | Raise e => Raise e
  | Ok c =>
  match py_lower c with
  | Raise e => Raise e
  | Ok category =>
  match py_get ingredient "name" (JString []) with
  | Raise e => Raise e
  | Ok n =>
  match py_lower n with
  | Raise e => Raise e
  | Ok name =>
      let denied :=
        match invalid_keywords category with
        | Some kws => existsb (fun kw => contains kw (lower product_name)) kws
        | None => false
        end in
      if denied then Ok false
      else
        match name with
        | [] => Ok true
        | _ :: _ => if negb (contains name (lower product_name))
                    then Ok false else Ok true
        end
  end end end end.

(** [quote(search_query)]: only a str (or bytes) can be quoted. *)
Definition py_quote (v : json) : outcome pystr :=
  match v with
  | JString s => Ok (url_quote s)
  | _ => Raise (Exn TypeError (str "quote_from_bytes() expected bytes"))
  end.

(** The query of [search_walmart_product], by category. *)
Definition search_query (category : pystr) (name : json) : json :=
  if pystr_eqb category (str "produce") then
    JString (str "fresh " ++ py_str name)
  else if pystr_eqb category (str "dairy") then
    JString (str "dairy " ++ py_str name)
  else if pystr_eqb category (str "meat") then
    JString (str "fresh " ++ py_str name)
  else if pystr_eqb category (str "spices") then
    JString (py_str name ++ str " spice")
  else name.

(** [self.driver.get(url)]: the page of this navigation. *)
Definition driver_get (url : pystr) : M search_page :=
  st <- get_state ;;
  let page := search_results w (count_events is_navigate (log st)) url in
  emit (Navigate url) ;;;
  lift (navigate page) ;;;
  ret page.

Definition name_selectors : list pystr :=
  [str "span[data-automation-id='product-title']";
   str "span.normal";
   str "span.f6"].

Definition price_selectors : list pystr :=
  [str "[data-automation-id='product-price']";
   str "div.price-main";
   str "span.price"].

(** The loop over [name_selectors]; [cur] is [product_name] so far. *)
Fixpoint extract_name (product : container) (ingredient : json)
    (selectors : list pystr) (cur : option pystr) : option pystr :=
  match selectors with
  | [] => cur
  | selector :: rest =>
      match css_text product selector with
      | Raise _ => extract_name product ingredient rest cur
      | Ok text =>
          match is_valid_product text ingredient with
          | Ok true => Some text
          | Ok false => extract_name product ingredient rest (Some text)
          | Raise _ => extract_name product ingredient rest (Some text)
          end
      end
  end.

(** The loop over all anchors; an exception ends it with nothing found. *)
Fixpoint scan_links (links : list (outcome (option pystr))) : option pystr :=
  match links with
  | [] => None
  | Raise _ :: _ => None
  | Ok href :: rest =>
      match href with
      | Some (c :: h) =>
          if contains (str "/ip/") (c :: h) then Some (c :: h)
          else scan_links rest
      | _ => scan_links rest
      end
  end.

Definition extract_url (product : container) : option pystr :=
  match css_href product (str "a[href*='/ip/']") with
  | Ok href => href
  | Raise _ =>
      match anchors product with
      | Ok links => scan_links links
      | Raise _ => None
      end
  end.

(** The loop over [price_selectors]; [cur] is [price] so far. *)
Fixpoint extract_price (product : container) (selectors : list pystr)
    (cur : option pystr) : option pystr :=
  match selectors with
  | [] => cur
  | selector :: rest =>
      match css_text product selector with
      | Raise _ => extract_price product rest cur
      | Ok [] => extract_price product rest (Some [])
      | Ok (c :: text) => Some (c :: text)
      end
  end.

(** [value or sentinel] *)
Definition or_sentinel (value : option pystr) (sentinel : string) : pystr :=
  match value with
  | Some (c :: s) => c :: s
  | _ => str sentinel
  end.

Definition quantity_needed (ingredient : json) : outcome pystr :=
  match py_get ingredient "amount" (JString []) with
  | Raise e => Raise e
  | Ok amount =>
      match py_get ingredient "unit" (JString []) with
      | Raise e => Raise e
      | Ok unit => Ok (py_str amount ++ str " " ++ py_str unit)
      end
  end.

Definition product_match (ingredient : json) (name url price qty : pystr)
  : json :=
  JObject [
    (str "ingredient", ingredient);
    (str "product", JObject [
       (str "name", JString name);
       (str "url", JString url);
       (str "price", JString price);
       (str "quantity_needed", JString qty)])].

(** The body of the [try] block of [search_walmart_product]. *)
Definition search_body (ingredient : json) : M json :=
  c <- lift (py_get ingredient "category" (JString [])) ;;
  category <- lift (py_lower c) ;;
  name <- lift (py_get ingredient "name" (JString [])) ;;
  notes <- lift (py_get ingredient "notes" (JString [])) ;;
  encoded_query <- lift (py_quote (search_query category name)) ;;
  let url := str "https://www.walmart.com/search?q=" ++ encoded_query in
  page <- driver_get url ;;
  product <- lift (wait_container page) ;;
  let product_name := extract_name product ingredient name_selectors None in
  let product_url := extract_url product in
  let price := extract_price product price_selectors None in
  _ <- lift (py_get ingredient "name" (JString (str "Unknown"))) ;;
  qty <- lift (quantity_needed ingredient) ;;
  ret (product_match ingredient
         (or_sentinel product_name "Name not found")
         (or_sentinel product_url "URL not found")
         (or_sentinel price "Price not found")
         qty).

(** The [except] block of [search_walmart_product]. *)
Definition search_failed (ingredient : json) (e : exn) : M json :=
  _ <- lift (py_get ingredient "name" (JString (str "Unknown"))) ;;
  qty <- lift (quantity_needed ingredient) ;;
  ret (product_match ingredient (str "Search failed") (str "URL not found")
         (str "Price not found") qty).

(** [search_walmart_product(ingredient)] *)
Definition search_walmart_product (ingredient : json) : M json :=
  _ensure_browser ;;;
  try_catch (search_body ingredient) (search_failed ingredient).

(** The first part of [process_recipe_url]: the recipe text and the scaled
    recipe, read back from the file in debug mode. *)
Definition prepare (recipe_url : pystr) : M (json * json) :=
  if debug_walmart_search self then
    emit (ReadFile (str "shopping_list.json")) ;;;
    content <- lift (read_file w (str "shopping_list.json")) ;;
    data <- loads content ;;
    scaled_data <- lift (py_getitem data "scaled_recipe") ;;
    recipe_text <- lift (py_getitem data "original_recipe") ;;
    ret (recipe_text, scaled_data)
  else
    recipe_text <- extract_recipe_text recipe_url ;;
    ingredients <- parse_recipe_with_claude recipe_text ;;
    found <- lift (py_get ingredients "ingredients" (JArray [])) ;;
    _ <- lift (py_len found) ;;
    scaled_data <- scale_recipe ingredients ;;
    shopping_list <- lift (py_get scaled_data "shopping_list" (JArray [])) ;;
    _ <- lift (py_iter shopping_list) ;;
    storage_tips <- lift (py_get scaled_data "storage_tips" (JObject [])) ;;
    _ <- lift (py_items storage_tips) ;;
    cost <- lift (py_get scaled_data "estimated_cost" (JInt 0)) ;;
    _ <- lift (py_format_2f cost) ;;
    ret (JString recipe_text, scaled_data).

(** The loop of the matching phase over the scaled ingredients. *)
Fixpoint match_loop (ingredients : list json) : M (list json) :=
  match ingredients with
  | [] => ret []
  | ingredient :: rest =>
      _ <- lift (py_get ingredient "name" (JString (str "Unknown"))) ;;
      search_result <- search_walmart_product ingredient ;;
      results <- match_loop rest ;;
      ret (search_result :: results)
  end.

(** The matching phase: [if search_walmart: ...]. *)
Definition match_phase (scaled_data : json) : M (list json) :=
  _ensure_browser ;;;
  scaled_ingredients <-
    lift (py_get scaled_data "scaled_ingredients" (JArray [])) ;;
  ingredients <- lift (py_iter scaled_ingredients) ;;
  match_loop ingredients.

(** [process_recipe_url(recipe_url, search_walmart)] *)
Definition process_recipe_url (recipe_url : pystr) (search_walmart : bool)
  : M json :=
  p <- prepare recipe_url ;;
  walmart_products <-
    (if search_walmart then match_phase (snd p) else ret []) ;;
  ret (JObject [
    (str "recipe_url", JString recipe_url);
    (str "original_recipe", fst p);
    (str "scaled_recipe", snd p);
    (str "walmart_products", JArray walmart_products)]).

End Defs.

End Main.

(** ** The validator's keywords, as specified *)

(** The denylist of the specification: the keywords that rule a product
    out, per category.  Categories not listed have none. *)
Definition keyword_table : list (pystr * list pystr) :=
  [(str "produce", [str "seeds"; str "plant"; str "garden"; str "growing"]);
   (str "dairy", [str "chips"; str "snacks"; str "artificial"]);
   (str "meat", [str "pet"; str "dog"; str "cat"; str "toy"])].

Definition category_keywords (category : pystr) : list pystr :=
  match find (fun row => pystr_eqb (lower category) (fst row)) keyword_table
  with
  | Some row => snd row
  | None => []
  end.

(** ** The matching phase, call by call *)

(** [products] are what [search_walmart_product] returned for [items]: one
    call per item, in order, the first in state [st], each later one in
    the state the call before it left, the last one leaving [st']. *)
Fixpoint searched {R : Runtime} (w : World) (items products : list json)
    (st st' : state) : Prop :=
  match items, products with
  | [], [] => st' = st
  | item :: items', pm :: products' =>
      exists st1,
        Main.search_walmart_product w item st = (Ok pm, st1)
        /\ searched w items' products' st1 st'
  | _, _ => False
  end.

(** ** Fenced replies *)

(** A reply that opens with a fence line, with or without a language tag. *)
Definition fenced_open (tag payload : pystr) : pystr :=
  fence ++ tag ++ nl :: payload.

(** A reply with an opening fence line and a closing fence on a line of
    its own. *)
Definition fenced (tag payload : pystr) : pystr :=
  fence ++ tag ++ nl :: payload ++ nl :: fence.

Definition one_line (s : pystr) : bool :=
  forallb (fun c => negb (ascii_eqb c nl)) s.

(** What [json.loads] is assumed to do: surrounding whitespace does not
    change the value of a document, and no document starts with a
    backtick. *)
Class JsonLaws (R : Runtime) : Prop := {
  loads_strip : forall s v, json_loads s = Some v -> json_loads (strip s) = Some v;
  loads_unfenced : forall s v, json_loads s = Some v -> startswith fence s = false
}.

(** Both cleaners turn [reply] into a text that decodes to [v]. *)
Definition cleans_to {R : Runtime} (reply : pystr) (v : json) : Prop :=
  json_loads (RecipeCli.clean reply) = Some v
  /\ exists text, Main.clean reply = Ok text /\ json_loads text = Some v.

(** ** A reference runtime

    A decoder for JSON documents over the character model (escapes above
    0xFF are refused) with a step budget, and simple formatters.  It
    instantiates [Runtime] for the examples. *)

Module RefJson.

Fixpoint skip_ws (s : pystr) : pystr :=
  match s with
  | c :: s' => if is_json_ws c then skip_ws s' else s
  | [] => []
  end.

Definition is_char (n : N) (c : ascii) : bool := (code c =? n)%N.

(** The character a one-letter escape stands for. *)
Definition escape (c : ascii) : option ascii :=
  let n := code c in
  if (n =? 34)%N then Some (chr 34)        (* quote *)
  else if (n =? 92)%N then Some (chr 92)   (* backslash *)
  else if (n =? 47)%N then Some (chr 47)   (* slash *)
  else if (n =? 98)%N then Some (chr 8)    (* b *)
  else if (n =? 102)%N then Some (chr 12)  (* f *)
  else if (n =? 110)%N then Some (chr 10)  (* n *)
  else if (n =? 114)%N then Some (chr 13)  (* r *)
  else if (n =? 116)%N then Some (chr 9)   (* t *)
  else None.

Definition hex_digit (c : ascii) : option N :=
  let n := code c in
  if ((48 <=? n) && (n <=? 57))%N then Some (n - 48)%N
  else if ((65 <=? n) && (n <=? 70))%N then Some (n - 55)%N
  else if ((97 <=? n) && (n <=? 102))%N then Some (n - 87)%N
  else None.

Inductive scan_state : Type :=
| Plain
| Escaped
| Hex (seen : nat) (value : N).

(** The body of a string literal, after its opening quote: the decoded
    text and what follows the closing quote. *)
Fixpoint scan_str (st : scan_state) (s : pystr) (acc : pystr)
  : option (pystr * pystr) :=
  match s with
  | [] => None
  | c :: r =>
      match st with
      | Plain =>
          if is_char 34 c then Some (rev acc, r)
          else if is_char 92 c then scan_str Escaped r acc
          else if (code c <? 32)%N then None
          else scan_str Plain r (c :: acc)
      | Escaped =>
          match escape c with
          | Some e => scan_str Plain r (e :: acc)
          | None => if is_char 117 c then scan_str (Hex 0 0) r acc else None
          end
      | Hex seen value =>
          match hex_digit c with
          | None => None
          | Some d =>
              let value' := (16 * value + d)%N in
              if (seen =? 3)%nat then
                if (value' <? 256)%N
                then scan_str Plain r (chr value' :: acc)
                else None
              else scan_str (Hex (S seen) value') r acc
          end
      end
  end.

(** The longest run of decimal digits at the front. *)
Fixpoint scan_digits (s : pystr) : pystr * pystr :=
  match s with
  | c :: r =>
      if is_ascii_digit c
      then let (ds, rest) := scan_digits r in (c :: ds, rest)
      else ([], s)
  | [] => ([], [])
  end.

(** The integer part: a single 0, or digits that do not start with 0. *)
Definition scan_int (s : pystr) : option (pystr * pystr) :=
  match s with
  | c :: r =>
      if is_char 48 c then Some ([c], r)
      else if is_ascii_digit c then Some (scan_digits s)
      else None
  | [] => None
  end.

(** An optional fraction: a dot and at least one digit. *)
Definition scan_frac (s : pystr) : pystr * pystr :=
  match s with
  | c :: r =>
      if is_char 46 c then
        match scan_digits r with
        | (d :: ds, rest) => (c :: d :: ds, rest)
        | ([], _) => ([], s)
        end
      else ([], s)
  | [] => ([], [])
  end.

(** An optional exponent: e or E, an optional sign, at least one digit. *)
Definition scan_exp (s : pystr) : pystr * pystr :=
  match s with
  | c :: r =>
      if is_char 101 c || is_char 69 c then
        match r with
        | sg :: r' =>
            if is_char 43 sg || is_char 45 sg then
              match scan_digits r' with
              | (d :: ds, rest) => (c :: sg :: d :: ds, rest)
              | ([], _) => ([], s)
              end
            else
              match scan_digits r with
              | (d :: ds, rest) => (c :: d :: ds, rest)
              | ([], _) => ([], s)
              end
        | [] => ([], s)
        end
      else ([], s)
  | [] => ([], [])
  end.

Definition unsigned_number (negative : bool) (s : pystr)
  : option (json * pystr) :=
  match scan_int s with
  | None => None
  | Some (int_part, r1) =>
      let (frac, r2) := scan_frac r1 in
      let (exp, r3) := scan_exp r2 in
      match frac, exp with
      | [], [] =>
          let z := RecipeCli.decimal_value int_part in
          Some (JInt (if negative then (- z)%Z else z), r3)
      | _, _ =>
          Some (JFloat ((if negative then [chr 45] else [])
                          ++ int_part ++ frac ++ exp), r3)
      end
  end.

Definition parse_number (s : pystr) : option (json * pystr) :=
  match s with
  | c :: r => if is_char 45 c then unsigned_number true r
              else unsigned_number false s
  | [] => None
  end.

Definition literals : list (string * json) :=
  [("null", JNull); ("true", JBool true); ("false", JBool false);
   ("NaN", JFloat (str "NaN")); ("Infinity", JFloat (str "Infinity"));
   ("-Infinity", JFloat (str "-Infinity"))]%string.

Fixpoint parse_literal (table : list (string * json)) (s : pystr)
  : option (json * pystr) :=
  match table with
  | [] => None
  | (word, v) :: rest =>
      if startswith (str word) s
      then Some (v, skipn (List.length (str word)) s)
      else parse_literal rest s
  end.

Fixpoint parse_value (fuel : nat) (s : pystr) : option (json * pystr) :=
  match fuel with
  | O => None
  | S f =>
      match s with
      | [] => None
      | c :: r =>
          if is_char 34 c then
            match scan_str Plain r [] with
            | Some (x, r') => Some (JString x, r')
            | None => None
            end
          else if is_char 91 c then
            match skip_ws r with
            | d :: r' =>
                if is_char 93 d then Some (JArray [], r')
                else parse_elems f (d :: r') []
            | [] => None
            end
          else if is_char 123 c then
            match skip_ws r with
            | d :: r' =>
                if is_char 125 d then Some (JObject [], r')
                else parse_members f (d :: r') []
            | [] => None
            end
          else
            match parse_literal literals s with
            | Some res => Some res
            | None => parse_number s
            end
      end
  end

with parse_elems (fuel : nat) (s : pystr) (acc : list json)
  : option (json * pystr) :=
  match fuel with
  | O => None
  | S f =>
      match parse_value f s with
      | None => None
      | Some (v, r) =>
          match skip_ws r with
          | d :: r' =>
              if is_char 44 d then parse_elems f (skip_ws r') (acc ++ [v])
              else if is_char 93 d then Some (JArray (acc ++ [v]), r')
              else None
          | [] => None
          end
      end
  end

with parse_members (fuel : nat) (s : pystr) (acc : list (pystr * json))
  : option (json * pystr) :=
  match fuel with
  | O => None
  | S f =>
      match s with
      | [] => None
      | c :: r =>
          if is_char 34 c then
            match scan_str Plain r [] with
            | None => None
            | Some (k, r1) =>
                match skip_ws r1 with
                | d :: r2 =>
                    if is_char 58 d then
                      match parse_value f (skip_ws r2) with
                      | None => None
                      | Some (v, r3) =>
                          match skip_ws r3 with
                          | e :: r4 =>
                              if is_char 44 e then
                                parse_members f (skip_ws r4) (dict_set k v acc)
                              else if is_char 125 e then
                                Some (JObject (dict_set k v acc), r4)
                              else None
                          | [] => None
                          end
                      end
                    else None
                | [] => None
                end
            end
          else None
      end
  end.

(** [json.loads] with a budget of [fuel] steps. *)
Definition loads (fuel : nat) (s : pystr) : option json :=
  match parse_value fuel (skip_ws s) with
  | Some (v, r) => match skip_ws r with [] => Some v | _ :: _ => None end
  | None => None
  end.

(** The text is empty or starts with a character that [p] rejects. *)
Definition head_not (p : ascii -> bool) (r : pystr) : bool :=
  match r with
  | [] => true
  | d :: _ => negb (p d)
  end.

Definition is_exp_mark (c : ascii) : bool := is_char 101 c || is_char 69 c.

(** A remainder that cannot continue a number: it is empty or starts with
    something other than a digit, a dot or an exponent mark. *)
Definition delimited (r : pystr) : bool :=
  match r with
  | [] => true
  | d :: _ =>
      negb (is_ascii_digit d || is_char 46 d || is_char 101 d || is_char 69 d)
  end.

(** A text whose last character is no whitespace. *)
Definition ends_nonspace (c : pystr) : Prop :=
  exists c0 d, c = c0 ++ [d] /\ isspace d = false.

(** A parser result [(v, rest)] on [t] consumed a prefix [c] of [t] that
    ends in a non-blank character, and gives the same value for [c]
    followed by any remainder accepted by [ok]. *)
Definition local (parse : pystr -> option (json * pystr))
    (ok : pystr -> bool) (t : pystr) (v : json) (rest : pystr) : Prop :=
  exists c,
    t = c ++ rest /\ ends_nonspace c /\
    forall r', ok r' = true -> parse (c ++ r') = Some (v, r').

Definition value_local (fuel : nat) : Prop :=
  forall t v rest,
    parse_value fuel t = Some (v, rest) ->
    local (parse_value fuel) delimited t v rest.

Definition elems_local (fuel : nat) : Prop :=
  forall t acc v rest,
    parse_elems fuel t acc = Some (v, rest) ->
    local (fun x => parse_elems fuel x acc) (fun _ => true) t v rest.

Definition members_local (fuel : nat) : Prop :=
  forall t acc v rest,
    parse_members fuel t acc = Some (v, rest) ->
    local (fun x => parse_members fuel x acc) (fun _ => true) t v rest.

End RefJson.

Module RefRuntime.

Definition decimal (z : Z) : pystr :=
  str (DecimalString.NilZero.string_of_int (Z.to_int z)).

Definition hex_char (n : N) : ascii :=
  if (n <? 10)%N then chr (48 + n) else chr (87 + n).

(** One character inside a JSON string, as [json.dumps] writes it. *)
Definition dump_char (c : ascii) : pystr :=
  let n := code c in
  if (n =? 34)%N then [chr 92; chr 34]
  else if (n =? 92)%N then [chr 92; chr 92]
  else if (n =? 10)%N then [chr 92; chr 110]
  else if (n =? 13)%N then [chr 92; chr 114]
  else if (n =? 9)%N then [chr 92; chr 116]
  else if (n =? 8)%N then [chr 92; chr 98]
  else if (n =? 12)%N then [chr 92; chr 102]
  else if ((n <? 32) || (127 <? n))%N then
    [chr 92; chr 117; chr 48; chr 48; hex_char (n / 16); hex_char (n mod 16)]
  else [c].

Definition dump_string (s : pystr) : pystr :=
  dq :: flat_map dump_char s ++ [dq].

Definition indent (depth : nat) : pystr := repeat (chr 32) (2 * depth).

Fixpoint join (sep : pystr) (pieces : list pystr) : pystr :=
  match pieces with
  | [] => []
  | [p] => p
  | p :: rest => p ++ sep ++ join sep rest
  end.

(** [json.dumps(v, indent=2)] at nesting depth [depth]. *)
Fixpoint dumps (depth : nat) (v : json) : pystr :=
  let block (opening closing : ascii) (pieces : list pystr) : pystr :=
    match pieces with
    | [] => [opening; closing]
    | _ :: _ =>
        opening :: nl :: indent (S depth)
          ++ join (chr 44 :: nl :: indent (S depth)) pieces
          ++ nl :: indent depth ++ [closing]
    end in
  match v with
  | JNull => str "null"
  | JBool true => str "true"
  | JBool false => str "false"
  | JInt z => decimal z
  | JFloat lexeme => lexeme
  | JString s => dump_string s
  | JArray items => block (chr 91) (chr 93) (map (dumps (S depth)) items)
  | JObject fields =>
      block (chr 123) (chr 125)
        (map (fun kv : pystr * json =>
                let (k, x) := kv in
                dump_string k ++ str ": " ++ dumps (S depth) x) fields)
  end.

(** [str(v)]: text as it is, numbers in decimal, containers as their JSON
    text. *)
Definition to_str (v : json) : pystr :=
  match v with
  | JNull => str "None"
  | JBool true => str "True"
  | JBool false => str "False"
  | JString s => s
  | _ => dumps 0 v
  end.

Definition is_unreserved (c : ascii) : bool :=
  let n := code c in
  ((48 <=? n) && (n <=? 57) || (65 <=? n) && (n <=? 90)
   || (97 <=? n) && (n <=? 122)
   || (n =? 95) || (n =? 46) || (n =? 45) || (n =? 126) || (n =? 47))%N.

Definition upper_hex (n : N) : ascii :=
  if (n <? 10)%N then chr (48 + n) else chr (55 + n).

Definition percent_byte (n : N) : pystr :=
  [chr 37; upper_hex (n / 16); upper_hex (n mod 16)].

(** [urllib.parse.quote]: unreserved characters and the slash stay, the
    rest is percent-encoded from its UTF-8 bytes. *)
Definition quote_char (c : ascii) : pystr :=
  let n := code c in
  if is_unreserved c then [c]
  else if (n <? 128)%N then percent_byte n
  else percent_byte (192 + n / 64) ++ percent_byte (128 + n mod 64).

Definition quote (s : pystr) : pystr := flat_map quote_char s.

Definition two_decimals (v : json) : pystr :=
  match v with
  | JInt z => decimal z ++ str ".00"
  | JBool true => str "1.00"
  | JBool false => str "0.00"
  | JFloat lexeme => lexeme
  | _ => []
  end.

Definition status_line (r : response) : pystr :=
  decimal (status_code r)
    ++ (if (status_code r <? 500)%Z then str " Client Error" else
          str " Server Error").

Definition runtime : Runtime := {|
  json_loads := RefJson.loads 1000;
  json_error_msg := fun _ => str "Expecting value";
  json_dumps := dumps 0;
  py_str := to_str;
  soup_text_stripped := strip;
  soup_text := fun page => page;
  url_quote := quote;
  http_error_msg := status_line;
  format_2f := two_decimals;
  glyph_error := str "[x]";
  glyph_plate := str "[recipe]";
  glyph_chart := str "[servings]";
  glyph_money := str "[total]";
  glyph_bullet := str "*"
|}.

End RefRuntime.

(** ** Example worlds *)

Module Examples.

(** JSON text written with an apostrophe where the document has a double
    quote. *)
Definition js (s : string) : pystr :=
  map (fun c => if ascii_eqb c (chr 39) then dq else c) (str s).

Definition soup_page : pystr :=
  str "Chicken soup. Serves four. 2 lb chicken breast, 1 onion.".

Definition parsed_reply : pystr :=
  js "{'recipe_name': 'Chicken soup', 'original_servings': 4,
 'ingredients': [{'name': 'chicken breast', 'amount': 2, 'unit': 'lb',
                  'category': 'meat', 'notes': ''}]}".

(** A scaling reply inside a fenced block that echoes a wrong serving
    count. *)
Definition scaled_reply : pystr :=
  fence ++ js "json
{'recipe_name': 'Chicken soup', 'scaled_servings': 99,
 'shopping_list': [{'name': 'chicken breast', 'amount': 4, 'unit': 'lb',
                    'category': 'meat', 'estimated_price': 12}],
 'estimated_total_cost': 12, 'storage_tips': {}}
" ++ fence.

Definition nth_reply (replies : list (outcome pystr)) (n : nat)
  : outcome pystr :=
  nth n replies (Raise (Exn APIError (str "no more replies"))).

Definition no_page : search_page :=
  {| navigate := Raise (Exn WebDriverException (str "timeout"));
     wait_container := Raise (Exn WebDriverException (str "timeout")) |}.

(** A world given by the key, the HTTP answer, the replies of the model in
    order, whether the browser starts, and the search pages. *)
Definition world (key : option pystr) (http : outcome response)
    (replies : list (outcome pystr)) (launch : outcome unit)
    (pages : nat -> pystr -> search_page) : World :=
  {| getenv_api_key := key;
     requests_get := fun _ => http;
     messages_create := fun n _ => nth_reply replies n;
     chrome_launch := launch;
     maximize_window := Ok tt;
     search_results := pages;
     read_file := fun _ => Raise (Exn OSError (str "No such file")) |}.

Definition key : option pystr := Some (str "sk-test").

Definition page_200 : outcome response := Ok (Response 200 soup_page).

Definition st0 : state := St [] false.

Definition happy : World :=
  world key page_200 [Ok parsed_reply; Ok scaled_reply] (Ok tt)
    (fun _ _ => no_page).

Definition url : pystr := str "https://example.com/soup".

Definition no_key : World :=
  world None page_200 [Ok parsed_reply; Ok scaled_reply] (Ok tt)
    (fun _ _ => no_page).

Definition not_found : World :=
  world key (Ok (Response 404 (str "Not Found")))
    [Ok parsed_reply; Ok scaled_reply] (Ok tt) (fun _ _ => no_page).

Definition not_modified : World :=
  world key (Ok (Response 304 soup_page))
    [Ok parsed_reply; Ok scaled_reply] (Ok tt) (fun _ _ => no_page).

(** The model reports zero servings and no ingredients. *)
Definition zero_servings : World :=
  world key page_200
    [Ok (js "{'recipe_name': 'Soup', 'original_servings': 0}");
     Ok scaled_reply]
    (Ok tt) (fun _ _ => no_page).

Definition garlic : json :=
  JObject [(str "name", JString (str "garlic")); (str "amount", JInt 3);
           (str "unit", JString (str "whole"));
           (str "category", JString (str "produce"))].

Definition good_container : container :=
  {| css_text := fun selector =>
       if pystr_eqb selector (str "span[data-automation-id='product-title']")
       then Ok (str "Fresh Garlic Cloves 3ct")
       else if pystr_eqb selector (str "[data-automation-id='product-price']")
       then Ok (str "$1.98")
       else Raise (Exn WebDriverException (str "no such element"));
     css_href := fun _ => Ok (Some (str "https://www.walmart.com/ip/123"));
     anchors := Ok [] |}.

Definition good_page : search_page :=
  {| navigate := Ok tt; wait_container := Ok good_container |}.

(** The first search shows a product, every later one times out. *)
Definition first_page_only (n : nat) (url : pystr) : search_page :=
  match n with O => good_page | S _ => no_page end.

Definition assistant : Main.RecipeAssistant :=
  {| Main.servings_needed := 7; Main.debug_walmart_search := false |}.

Definition main_parsed_reply : pystr :=
  js "{'ingredients': [{'name': 'garlic', 'amount': 1, 'unit': 'whole',
                  'category': 'produce', 'notes': ''}], 'servings': 2}".

(** A scaled recipe with two scaled ingredients and one shopping item. *)
Definition main_scaled_reply : pystr :=
  js "{'scaled_ingredients': [
  {'name': 'garlic', 'amount': 3, 'unit': 'whole', 'category': 'produce'},
  {'name': 'butter', 'amount': 8, 'unit': 'oz', 'category': 'dairy'}],
 'shopping_list': [{'name': 'garlic', 'amount': 1, 'units': 'bag'}],
 'storage_tips': {}, 'estimated_cost': 9}".

(** A scaled recipe that has a shopping list but no scaled ingredients. *)
Definition shopping_only_reply : pystr :=
  js "{'shopping_list': [{'name': 'garlic', 'amount': 1, 'units': 'bag'},
                   {'name': 'butter', 'amount': 1, 'units': 'lb'}],
 'storage_tips': {}, 'estimated_cost': 9}".

Definition kitchen : World :=
  world key page_200 [Ok main_parsed_reply; Ok main_scaled_reply] (Ok tt)
    first_page_only.

Definition shopping_only : World :=
  world key page_200 [Ok main_parsed_reply; Ok shopping_only_reply] (Ok tt)
    first_page_only.

(** The scaling reply is no JSON at all. *)
Definition babble : World :=
  world key page_200 [Ok main_parsed_reply; Ok (str "not json at all")]
    (Ok tt) first_page_only.

(** No browser can be started. *)
Definition no_chrome : World :=
  world key page_200 [Ok main_parsed_reply; Ok main_scaled_reply]
    (Raise (Exn WebDriverException (str "cannot find Chrome binary")))
    first_page_only.

Definition run_main (w : World) : outcome json * state :=
  Main.process_recipe_url (R := RefRuntime.runtime) w assistant url true st0.

(** What the first part of [process_recipe_url] yields in [kitchen]. *)
Definition kitchen_prepared : outcome (json * json) * state :=
  Eval vm_compute in
    Main.prepare (R := RefRuntime.runtime) kitchen assistant url st0.

Definition kitchen_scaled : list (pystr * json) :=
  Eval vm_compute in
    match fst kitchen_prepared with
    | Ok (_, JObject fields) => fields
    | _ => []
    end.

Definition kitchen_ingredients : list json :=
  Eval vm_compute in
    match get_or "scaled_ingredients" (JArray []) kitchen_scaled with
    | JArray items => items
    | _ => []
    end.

(** The value of [parsed_reply]. *)
Definition parsed_value : json :=
  Eval vm_compute in
    match RefJson.loads 1000 parsed_reply with
    | Some v => v
    | None => JNull
    end.

(** The JSON document that is a string of three backticks. *)
Definition backticks_doc : pystr := dq :: fence ++ [dq].

Definition prog : pystr := str "recipe_cli.py".

Definition cli_status (argv : list pystr) : Z :=
  RecipeCli.exit_status (R := RefRuntime.runtime) no_key argv st0.

Definition run_cli (w : World) : outcome json * state :=
  RecipeCli.process_recipe (R := RefRuntime.runtime) w url 7 st0.

End Examples.

(** ** Notions for the further properties *)

(** [m] leaves the whole state as it found it. *)
Definition stateless {A} (m : M A) : Prop := forall st, snd (m st) = st.

(** The events [process_recipe] may add to the log: nothing, the GET, the
    GET and one model call, or the GET and two model calls. *)
Definition cli_calls (url : pystr) (evs : list event) : Prop :=
  evs = []
  \/ evs = [HttpGet url]
  \/ (exists p1, evs = [HttpGet url; ModelCall p1])
  \/ (exists p1 p2, evs = [HttpGet url; ModelCall p1; ModelCall p2]).

(** [m] adds at most [n] events to the log, all of which satisfy [p], and
    leaves [self.driver] alone. *)
Definition adds_at_most {A} (n : nat) (p : event -> bool) (m : M A) : Prop :=
  forall st o st',
    m st = (o, st') ->
    exists evs,
      log st' = log st ++ evs /\ forallb p evs = true
      /\ (List.length evs <= n)%nat /\ driver st' = driver st.

Definition is_launch (ev : event) : bool :=
  match ev with BrowserLaunch => true | _ => false end.

Definition is_browser_event (ev : event) : bool :=
  is_launch ev || is_navigate ev.

Definition not_browser (ev : event) : bool := negb (is_browser_event ev).

(** The serving count [main] hands to [process_recipe]. *)
Definition servings_of (argv : list pystr) : Z :=
  if (2 <? List.length argv)%nat && isdigit (nth 2 argv [])
  then RecipeCli.decimal_value (nth 2 argv [])
  else 7%Z.

(** The instruction main.py appends to every prompt. *)
Definition main_json_suffix : pystr := str "

Respond with valid JSON only, no markdown formatting.".

(** The recipe [parse_recipe_with_claude] falls back to. *)
Definition parse_fallback : json :=
  JObject [(str "ingredients", JArray []); (str "servings", JInt 0)].

(** The reply to a prompt of main.py, cleaned and decoded. *)
Definition main_decoded {R : Runtime} (reply : outcome pystr)
  : outcome json :=
  match reply with
  | Raise e => Raise e
  | Ok text =>
      match Main.clean text with
      | Raise e => Raise e
      | Ok cleaned =>
          match json_loads cleaned with
          | Some v => Ok v
          | None => Raise (Exn JSONDecodeError (json_error_msg cleaned))
          end
      end
  end.

Definition search_base : pystr := str "https://www.walmart.com/search?q=".

(** ** anthro_test.py *)

Module AnthroTest.

Section Defs.

Context {R : Runtime}.
Variable w : World.

(** [_call_claude(prompt)]: the same steps as in main.py. *)
Definition _call_claude (prompt : pystr) : M json :=
  reply <- model_call w (prompt ++ main_json_suffix) ;;
  text <- lift (Main.clean reply) ;;
  loads text.

Definition analyze_prompt (recipe_text : pystr) : pystr :=
  str "Analyze this recipe and provide the following information in JSON format:
1. List of ingredients with:
   - name
   - amount
   - unit
   - notes (e.g., " ++ Main.quoted "organic" ++ str ", "
  ++ Main.quoted "fresh" ++ str ", " ++ Main.quoted "canned" ++ str ")
2. Number of servings this recipe makes
3. Type of meal (breakfast, lunch, dinner)
4. Portion size per serving
5. Estimated calories per serving

Format your response as a JSON object with these keys:
- ingredients: array of ingredient objects
- servings: number
- meal_type: string
- portion_size: string
- calories_per_serving: number

Recipe text:
" ++ recipe_text.

(** [analyze_recipe(recipe_text)] *)
Definition analyze_recipe (recipe_text : pystr) : M json :=
  _call_claude (analyze_prompt recipe_text).

Definition scale_prompt (recipe_data : json) (target_meals : Z) : pystr :=
  str "Scale this recipe to make " ++ py_str (JInt target_meals)
    ++ str " meals.

Current recipe data:
" ++ json_dumps recipe_data ++ str "

Calculate the new quantities needed and provide:
1. Scaled ingredients list with adjusted amounts
2. Shopping list optimized for bulk buying
3. Storage recommendations for bulk ingredients
4. Estimated total cost

Format as JSON with these keys:
- scaled_ingredients: array of adjusted ingredients
- shopping_list: array of optimized items to buy (each with: name, amount, units, notes)
- storage_tips: object with storage advice
- estimated_cost: number

Consider:
- Rounding to practical purchase amounts
- Bulk packaging sizes
- Common store quantities
- Ingredient shelf life".

(** [scale_recipe(recipe_data, target_meals)] *)
Definition scale_recipe (recipe_data : json) (target_meals : Z) : M json :=
  _call_claude (scale_prompt recipe_data target_meals).

(** [process_recipe(recipe_text, meals_per_week)] *)
Definition process_recipe (recipe_text : pystr) (meals_per_week : Z)
  : M json :=
  recipe_data <- analyze_recipe recipe_text ;;
  _ <- lift (py_get recipe_data "servings" (JString (str "Unknown"))) ;;
  _ <- lift (py_get recipe_data "meal_type" (JString (str "Unknown"))) ;;
  _ <- lift (py_get recipe_data "calories_per_serving"
               (JString (str "Unknown"))) ;;
  let servings_needed := meals_per_week in
  scaled_data <- scale_recipe recipe_data servings_needed ;;
  shopping_list <- lift (py_get scaled_data "shopping_list" (JArray [])) ;;
  _ <- lift (py_iter shopping_list) ;;
  storage_tips <- lift (py_get scaled_data "storage_tips" (JObject [])) ;;
  _ <- lift (py_items storage_tips) ;;
  cost <- lift (py_get scaled_data "estimated_cost" (JInt 0)) ;;
  _ <- lift (py_format_2f cost) ;;
  ret (JObject [
    (str "original_recipe", recipe_data);
    (str "scaled_recipe", scaled_data)]).

End Defs.

End AnthroTest.

(** ** Further examples *)

Module MoreExamples.

(** The first reply of the model is no JSON at all. *)
Definition garbled : World :=
  Examples.world Examples.key Examples.page_200
    [Ok (str "Sorry, I cannot read this page.")] (Ok tt)
    (fun _ _ => Examples.no_page).

(** The first reply of the model is a JSON list. *)
Definition listed : World :=
  Examples.world Examples.key Examples.page_200
    [Ok (Examples.js "[1, 2]")] (Ok tt) (fun _ _ => Examples.no_page).

(** The parse reply of main.py is no JSON, the scaling reply is. *)
Definition failed_parse : World :=
  Examples.world Examples.key Examples.page_200
    [Ok (str "Sorry, I cannot read this page.");
     Ok Examples.main_scaled_reply] (Ok tt) Examples.first_page_only.

Definition browser_open : state := St [] true.

(** An ingredient whose category is a number. *)
Definition numbered : list (pystr * json) :=
  [(str "name", JString (str "garlic")); (str "amount", JInt 3);
   (str "unit", JString (str "whole")); (str "category", JInt 3)].

Definition garlic_fields : list (pystr * json) :=
  [(str "name", JString (str "garlic")); (str "amount", JInt 3);
   (str "unit", JString (str "whole"));
   (str "category", JString (str "produce"))].

Definition no_element : exn :=
  Exn WebDriverException (str "no such element").

(** A container without a product link of its own: the link is found among
    its anchors, after one to the cart and one without [href]. *)
Definition anchors_only : container :=
  {| css_text := fun _ => Raise no_element;
     css_href := fun _ => Raise no_element;
     anchors := Ok [Ok (Some (str "https://www.walmart.com/cart"));
                    Ok None;
                    Ok (Some (str "https://www.walmart.com/ip/77"))] |}.

(** The title names garlic seeds, the second selector a fresh product. *)
Definition seeds_first : container :=
  {| css_text := fun selector =>
       if pystr_eqb selector (str "span[data-automation-id='product-title']")
       then Ok (str "Garlic Seeds for Planting")
       else if pystr_eqb selector (str "span.normal")
       then Ok (str "Fresh Garlic Bulb")
       else Raise no_element;
     css_href := fun _ => Raise no_element;
     anchors := Ok [] |}.

(** A result whose only item has a price written as text. *)
Definition text_price : list (pystr * json) :=
  [(str "success", JBool true);
   (str "recipe_name", JString (str "Soup"));
   (str "scaled_servings", JInt 7);
   (str "shopping_list",
    JArray [JObject [(str "name", JString (str "garlic"));
                     (str "estimated_price", JString (str "$3"))]])].

Definition tips (n : nat) : list (pystr * json) :=
  map (fun k => (str "item" ++ [chr (48 + N.of_nat k)],
                 JString (str "keep cool")))
    (seq 1 n).

Definition with_tips (n : nat) : list (pystr * json) :=
  [(str "storage_tips", JObject (tips n));
   (str "success", JBool true);
   (str "recipe_name", JString (str "Soup"));
   (str "scaled_servings", JInt 7)].


Definition anthro_run (w : World) : outcome json * state :=
  AnthroTest.process_recipe (R := RefRuntime.runtime) w
    Examples.soup_page 7 Examples.st0.

End MoreExamples.

(** * Properties *)

(** ** The monad *)

Lemma bind_ok_inv {A B} (m : M A) (k : A -> M B) st b st' :
  bind m k st = (Ok b, st') ->
  exists a st1, m st = (Ok a, st1) /\ k a st1 = (Ok b, st').
Proof.
  unfold bind. destruct (m st) as [[a | e] st1]; intro H.
  - exists a, st1. split; [reflexivity | exact H].
  - discriminate H.
Qed.

Lemma bind_ok {A B} (m : M A) (k : A -> M B) st a st1 :
  m st = (Ok a, st1) -> bind m k st = k a st1.
Proof. unfold bind. intros ->. reflexivity. Qed.

Lemma bind_raise {A B} (m : M A) (k : A -> M B) st e st1 :
  m st = (Raise e, st1) -> bind m k st = (Raise e, st1).
Proof. unfold bind. intros ->. reflexivity. Qed.

Lemma lift_ok_inv {A} (o : outcome A) st a st' :
  lift o st = (Ok a, st') -> o = Ok a /\ st' = st.
Proof. unfold lift. intro H. inversion H. split; reflexivity. Qed.

Lemma ret_ok_inv {A} (x : A) st a st' :
  ret x st = (Ok a, st') -> a = x /\ st' = st.
Proof. unfold ret. intro H. inversion H. split; reflexivity. Qed.

Lemma count_events_app p l l' :
  count_events p (l ++ l') = count_events p l + count_events p l'.
Proof. unfold count_events. rewrite filter_app, length_app. reflexivity. Qed.

Lemma count_events_snoc p l ev :
  count_events p (l ++ [ev]) =
  if p ev then S (count_events p l) else count_events p l.
Proof.
  rewrite count_events_app. unfold count_events at 2. simpl.
  destruct (p ev); simpl; lia.
Qed.

Lemma py_get_ok_inv v k d x :
  py_get v k d = Ok x -> exists fields, v = JObject fields /\ x = get_or k d fields.
Proof.
  destruct v; simpl; intro H; try discriminate H.
  inversion H. eexists; split; reflexivity.
Qed.

Ltac inv_bind H :=
  let a := fresh "a" in
  let st := fresh "st" in
  let H1 := fresh "H" in
  apply bind_ok_inv in H; destruct H as (a & st & H1 & H).

(** ** recipe_cli.py: the orchestrator *)

Section RecipeCliFacts.

Context {R : Runtime}.
Variable w : World.

Lemma http_get_run url st :
  http_get w url st = (requests_get w url, St (log st ++ [HttpGet url]) (driver st)).
Proof. reflexivity. Qed.

Lemma model_call_run content st :
  model_call w content st =
  (messages_create w (count_events is_model_call (log st)) content,
   St (log st ++ [ModelCall content]) (driver st)).
Proof. reflexivity. Qed.

Lemma extract_ok_inv url st text st' :
  RecipeCli.extract_recipe_text w url st = (Ok text, st') ->
  exists resp,
    requests_get w url = Ok resp /\
    ((400 <=? status_code resp) && (status_code resp <? 600))%Z = false /\
    text = soup_text_stripped (response_text resp) /\
    st' = St (log st ++ [HttpGet url]) (driver st).
Proof.
  unfold RecipeCli.extract_recipe_text. intro H.
  inv_bind H. rewrite http_get_run in H0. inversion H0; subst; clear H0.
  inv_bind H. unfold raise_for_status in H0.
  destruct ((400 <=? status_code a) && (status_code a <? 600))%Z eqn:E.
  - discriminate H0.
  - apply ret_ok_inv in H0. destruct H0 as [_ ->].
    apply ret_ok_inv in H. destruct H as [-> ->].
    exists a. repeat split; congruence.
Qed.

Lemma call_claude_ok_inv prompt st v st' :
  RecipeCli.call_claude w prompt st = (Ok v, st') ->
  exists reply,
    messages_create w (count_events is_model_call (log st))
      (prompt ++ RecipeCli.json_suffix) = Ok reply /\
    json_loads (RecipeCli.clean reply) = Some v /\
    st' = St (log st ++ [ModelCall (prompt ++ RecipeCli.json_suffix)]) (driver st).
Proof.
  unfold RecipeCli.call_claude. intro H.
  inv_bind H. rewrite model_call_run in H0. inversion H0; subst; clear H0.
  unfold loads in H.
  destruct (json_loads (RecipeCli.clean a)) eqn:E.
  - apply ret_ok_inv in H. destruct H as [-> ->].
    exists a. repeat split; congruence.
  - discriminate H.
Qed.

(** What a run of the [try] block that reaches its [return] has done. *)
Lemma pipeline_ok_inv url servings st r st' :
  RecipeCli.pipeline w url servings st = (Ok r, st') ->
  exists resp reply1 parsed reply2 scaled,
    let n := count_events is_model_call (log st) in
    let prompt1 :=
      RecipeCli.parse_prompt (soup_text_stripped (response_text resp))
        ++ RecipeCli.json_suffix in
    let prompt2 :=
      RecipeCli.scale_prompt (get_or "original_servings" (JInt 4) parsed)
        servings (JObject parsed) ++ RecipeCli.json_suffix in
    requests_get w url = Ok resp /\
    messages_create w n prompt1 = Ok reply1 /\
    json_loads (RecipeCli.clean reply1) = Some (JObject parsed) /\
    messages_create w (S n) prompt2 = Ok reply2 /\
    json_loads (RecipeCli.clean reply2) = Some (JObject scaled) /\
    r = RecipeCli.success_result url servings parsed scaled /\
    st' = St (log st ++ [HttpGet url; ModelCall prompt1; ModelCall prompt2])
             (driver st).
Proof.
  unfold RecipeCli.pipeline. intro H.
  inv_bind H. apply extract_ok_inv in H0.
  destruct H0 as (resp & Hget & _ & -> & ->).
  inv_bind H. apply call_claude_ok_inv in H0.
  destruct H0 as (reply1 & Hm1 & Hl1 & ->). cbn [log driver] in *.
  inv_bind H. apply lift_ok_inv in H0. destruct H0 as [Hp ->].
  apply py_get_ok_inv in Hp. destruct Hp as (parsed & -> & ->).
  inv_bind H. apply call_claude_ok_inv in H0.
  destruct H0 as (reply2 & Hm2 & Hl2 & ->). cbn [log driver] in *.
  inv_bind H. apply lift_ok_inv in H0. destruct H0 as [Hn ->].
  inv_bind H. apply lift_ok_inv in H0. destruct H0 as [Hs ->].
  apply py_get_ok_inv in Hs. destruct Hs as (scaled & -> & ->).
  inv_bind H. apply lift_ok_inv in H0. destruct H0 as [Ho ->].
  inv_bind H. apply lift_ok_inv in H0. destruct H0 as [Hsl ->].
  inv_bind H. apply lift_ok_inv in H0. destruct H0 as [Hc ->].
  inv_bind H. apply lift_ok_inv in H0. destruct H0 as [Ht ->].
  apply ret_ok_inv in H. destruct H as [-> ->].
  unfold py_get in Hn, Ho, Hsl, Hc, Ht.
  inversion Hn; inversion Ho; inversion Hsl; inversion Hc; inversion Ht. subst.
  rewrite !count_events_snoc in Hm2. rewrite count_events_snoc in Hm1.
  cbn [is_model_call] in Hm1, Hm2.
  exists resp, reply1, parsed, reply2, scaled. cbv zeta.
  repeat split; try assumption.
  rewrite <- !app_assoc. reflexivity.
Qed.

Lemma failure_not_success msg :
  py_get (RecipeCli.failure msg) "success" JNull <> Ok (JBool true).
Proof. cbv. discriminate. Qed.

Lemma handler_fails e st :
  exists msg, RecipeCli.handler e st = (Ok (RecipeCli.failure msg), st).
Proof.
  unfold RecipeCli.handler. destruct (exn_kind_of e); eexists; reflexivity.
Qed.

(** A run of [process_recipe] ends in one of two ways: the [try] block
    returned, or a failure dict was built. *)
Lemma process_recipe_cases url servings st :
  (exists r st',
      RecipeCli.pipeline w url servings st = (Ok r, st') /\
      RecipeCli.process_recipe w url servings st = (Ok r, st'))
  \/ (exists msg st',
      RecipeCli.process_recipe w url servings st =
      (Ok (RecipeCli.failure msg), st')).
Proof.
  unfold RecipeCli.process_recipe.
  destruct (getenv_api_key w) as [[| c k] |].
  - right. eexists _, _. reflexivity.
  - unfold try_catch.
    destruct (RecipeCli.pipeline w url servings st) as [[r | e] st1] eqn:E.
    + left. exists r, st1. split; reflexivity.
    + right. destruct (handler_fails e st1) as [msg Hm].
      exists msg, st1. exact Hm.
  - right. eexists _, _. reflexivity.
Qed.

Lemma process_recipe_success_inv url servings st r st' :
  RecipeCli.process_recipe w url servings st = (Ok r, st') ->
  py_get r "success" JNull = Ok (JBool true) ->
  RecipeCli.pipeline w url servings st = (Ok r, st').
Proof.
  intros Hrun Hs.
  destruct (process_recipe_cases url servings st)
    as [(r1 & st1 & Hp & Hr) | (msg & st1 & Hr)];
    rewrite Hr in Hrun; inversion Hrun; subst.
  - exact Hp.
  - exfalso. exact (failure_not_success msg Hs).
Qed.

(** C10: with [ANTHROPIC_API_KEY] unset, [process_recipe] returns the
    failure dict with the error "ANTHROPIC_API_KEY not set" at once: the
    state, and with it the log of HTTP and model calls, is unchanged. *)
Theorem process_recipe_without_key url servings st :
  getenv_api_key w = None ->
  RecipeCli.process_recipe w url servings st =
  (Ok (RecipeCli.failure (str "ANTHROPIC_API_KEY not set")), st).
Proof. unfold RecipeCli.process_recipe. intros ->. reflexivity. Qed.

(** An empty key is treated like an unset one. *)
Lemma process_recipe_empty_key url servings st :
  getenv_api_key w = Some [] ->
  RecipeCli.process_recipe w url servings st =
  (Ok (RecipeCli.failure (str "ANTHROPIC_API_KEY not set")), st).
Proof. unfold RecipeCli.process_recipe. intros ->. reflexivity. Qed.

(** C1: whatever the two replies of the model contain, a successful result
    of [process_recipe] is built from them with [scaled_servings] set to
    the requested serving count. *)
Theorem scaled_servings_is_requested url servings st r st' :
  RecipeCli.process_recipe w url servings st = (Ok r, st') ->
  py_get r "success" JNull = Ok (JBool true) ->
  (exists parsed scaled,
      r = RecipeCli.success_result url servings parsed scaled) /\
  py_get r "scaled_servings" JNull = Ok (JInt servings).
Proof.
  intros Hrun Hs.
  apply process_recipe_success_inv in Hrun; [| exact Hs].
  apply pipeline_ok_inv in Hrun.
  destruct Hrun as (resp & reply1 & parsed & reply2 & scaled & H).
  cbv zeta in H. destruct H as (_ & _ & _ & _ & _ & -> & _).
  split; [exists parsed, scaled; reflexivity | reflexivity].
Qed.

Lemma fetch_prefix msg :
  contains (str "Failed to fetch") (str "Failed to fetch recipe: " ++ msg)
  = true.
Proof. reflexivity. Qed.

(** C7: with the key set, a fetch that answers with a 4xx or 5xx status
    makes [process_recipe] return the failure dict whose error starts with
    "Failed to fetch recipe: "; the only call made is the HTTP GET, so the
    model is never called. *)
Theorem fetch_error_short_circuits url servings st c k resp :
  getenv_api_key w = Some (c :: k) ->
  requests_get w url = Ok resp ->
  (400 <= status_code resp < 600)%Z ->
  let error := str "Failed to fetch recipe: " ++ http_error_msg resp in
  RecipeCli.process_recipe w url servings st =
  (Ok (RecipeCli.failure error), St (log st ++ [HttpGet url]) (driver st))
  /\ contains (str "Failed to fetch") error = true.
Proof.
  intros Hk Hget Hst error. split; [| apply fetch_prefix].
  unfold RecipeCli.process_recipe. rewrite Hk.
  unfold try_catch, RecipeCli.pipeline.
  assert (He : RecipeCli.extract_recipe_text w url st =
               (Raise (Exn RequestException (http_error_msg resp)),
                St (log st ++ [HttpGet url]) (driver st))).
  { unfold RecipeCli.extract_recipe_text.
    erewrite bind_ok by (rewrite http_get_run, Hget; reflexivity).
    apply bind_raise. unfold raise_for_status.
    replace ((400 <=? status_code resp) && (status_code resp <? 600))%Z
      with true by (symmetry; apply andb_true_iff; lia).
    reflexivity. }
  erewrite bind_raise by exact He. reflexivity.
Qed.

(** A network error of the GET ends the run the same way. *)
Lemma network_error_short_circuits url servings st c k msg :
  getenv_api_key w = Some (c :: k) ->
  requests_get w url = Raise (Exn RequestException msg) ->
  RecipeCli.process_recipe w url servings st =
  (Ok (RecipeCli.failure (str "Failed to fetch recipe: " ++ msg)),
   St (log st ++ [HttpGet url]) (driver st)).
Proof.
  intros Hk Hget.
  unfold RecipeCli.process_recipe. rewrite Hk.
  unfold try_catch, RecipeCli.pipeline.
  assert (He : RecipeCli.extract_recipe_text w url st =
               (Raise (Exn RequestException msg),
                St (log st ++ [HttpGet url]) (driver st))).
  { apply bind_raise. rewrite http_get_run, Hget. reflexivity. }
  erewrite bind_raise by exact He. reflexivity.
Qed.

(** C8: the [original_servings] of a successful result is the value the
    model gave for that key in its first reply, whatever it is, and 4 when
    the key is missing; the decoded reply is handed to the scaling prompt
    as it is. *)
Theorem original_servings_from_model url servings st r st' :
  RecipeCli.process_recipe w url servings st = (Ok r, st') ->
  py_get r "success" JNull = Ok (JBool true) ->
  exists resp reply1 parsed,
    requests_get w url = Ok resp /\
    messages_create w (count_events is_model_call (log st))
      (RecipeCli.parse_prompt (soup_text_stripped (response_text resp))
         ++ RecipeCli.json_suffix) = Ok reply1 /\
    json_loads (RecipeCli.clean reply1) = Some (JObject parsed) /\
    py_get r "original_servings" JNull =
      Ok (match assoc (str "original_servings") parsed with
          | Some v => v
          | None => JInt 4
          end) /\
    In (ModelCall
          (RecipeCli.scale_prompt
             (get_or "original_servings" (JInt 4) parsed) servings
             (JObject parsed) ++ RecipeCli.json_suffix))
       (log st').
Proof.
  intros Hrun Hs.
  apply process_recipe_success_inv in Hrun; [| exact Hs].
  apply pipeline_ok_inv in Hrun.
  destruct Hrun as (resp & reply1 & parsed & reply2 & scaled & H).
  cbv zeta in H. destruct H as (Hg & Hm1 & Hl1 & _ & _ & -> & ->).
  exists resp, reply1, parsed. repeat split; try assumption.
  cbn [log]. apply in_or_app. right. right. right. left. reflexivity.
Qed.


Lemma leading_digits_all s :
  forallb is_ascii_digit s = true -> RecipeCli.leading_digits s = s.
Proof.
  induction s as [| c s IH]; [reflexivity |].
  cbn [forallb RecipeCli.leading_digits]. intro H.
  apply andb_true_iff in H. destruct H as [Hc Hs].
  rewrite Hc, (IH Hs). reflexivity.
Qed.

Lemma py_int_digits s :
  forallb is_ascii_digit s = true -> (List.length s <= 4300)%nat ->
  RecipeCli.py_int s = Ok (RecipeCli.decimal_value s).
Proof.
  intros Hd Hl. unfold RecipeCli.py_int.
  rewrite (leading_digits_all s Hd), Hd. cbn [negb].
  replace (4300 <? List.length s)%nat with false
    by (symmetry; apply Nat.ltb_ge; exact Hl).
  reflexivity.
Qed.

Lemma process_recipe_returns url servings st :
  exists r st', RecipeCli.process_recipe w url servings st = (Ok r, st').
Proof.
  destruct (process_recipe_cases url servings st)
    as [(r & st1 & _ & Hr) | (msg & st1 & Hr)]; eexists _, _; exact Hr.
Qed.

Lemma main_runs_pipeline (argv : list pystr) st :
  (2 <= List.length argv)%nat ->
  RecipeCli.arg_in "-h" [nth 1 argv []] = false ->
  RecipeCli.arg_in "--help" [nth 1 argv []] = false ->
  RecipeCli.arg_in "--chat" argv = false ->
  RecipeCli.servings_arg_ok argv ->
  exists st', RecipeCli.main w argv st = (Ok 0%Z, st').
Proof.
  intros Hlen Hh Hhelp Hchat Hserv. unfold RecipeCli.main.
  replace (List.length argv <? 2)%nat with false
    by (symmetry; apply Nat.ltb_ge; exact Hlen).
  rewrite Hh, Hhelp, Hchat. cbn [orb].
  assert (Hs : exists servings,
             (if (2 <? List.length argv)%nat && isdigit (nth 2 argv [])
              then lift (RecipeCli.py_int (nth 2 argv [])) else ret 7%Z) st
             = (Ok servings, st)).
  { destruct ((2 <? List.length argv)%nat && isdigit (nth 2 argv [])) eqn:E.
    - apply andb_true_iff in E. destruct E as [E1 E2].
      apply Nat.ltb_lt in E1.
      destruct Hserv as [Hs | [Hs | [Hs1 Hs2]]]; [lia | congruence |].
      unfold lift. rewrite (py_int_digits _ Hs1 Hs2).
      eexists. reflexivity.
    - exists 7%Z. reflexivity. }
  destruct Hs as [servings Hs].
  erewrite bind_ok by exact Hs.
  destruct (process_recipe_returns (nth 1 argv []) servings st)
    as (r & st' & Hr).
  erewrite bind_ok by exact Hr.
  exists st'. reflexivity.
Qed.

(** C9: the exit status of the command line tool.  Without arguments (and
    no "--help" in argv) it is 1; with "--help" as first argument it is 0;
    and whenever the pipeline is started in JSON mode with a readable
    serving count it is 0, whatever the arguments are worth and whatever
    the result says. *)
Theorem cli_exit_status (argv : list pystr) st :
  ((List.length argv < 2)%nat -> RecipeCli.arg_in "--help" argv = false ->
   RecipeCli.exit_status w argv st = 1%Z)
  /\ ((2 <= List.length argv)%nat -> nth 1 argv [] = str "--help" ->
      RecipeCli.exit_status w argv st = 0%Z)
  /\ ((2 <= List.length argv)%nat ->
      RecipeCli.arg_in "-h" [nth 1 argv []] = false ->
      RecipeCli.arg_in "--help" [nth 1 argv []] = false ->
      RecipeCli.arg_in "--chat" argv = false ->
      RecipeCli.servings_arg_ok argv ->
      RecipeCli.exit_status w argv st = 0%Z).
Proof.
  repeat split.
  - intros Hlen Hno. unfold RecipeCli.exit_status, RecipeCli.main.
    replace (List.length argv <? 2)%nat with true
      by (symmetry; apply Nat.ltb_lt; exact Hlen).
    cbn [orb]. rewrite Hno. reflexivity.
  - intros Hlen Hfirst. unfold RecipeCli.exit_status, RecipeCli.main.
    assert (Hin : RecipeCli.arg_in "--help" argv = true).
    { destruct argv as [| a0 [| a1 rest]]; cbn [List.length] in Hlen; try lia.
      cbn [nth] in Hfirst. subst a1. unfold RecipeCli.arg_in.
      cbn [existsb]. replace (pystr_eqb (str "--help") (str "--help")) with true
        by reflexivity.
      apply orb_true_r. }
    rewrite Hfirst, Hin.
    replace (RecipeCli.arg_in "--help" [str "--help"]) with true by reflexivity.
    rewrite orb_true_r. reflexivity.
  - intros Hlen Hh Hhelp Hchat Hserv. unfold RecipeCli.exit_status.
    destruct (main_runs_pipeline argv st Hlen Hh Hhelp Hchat Hserv)
      as [st' ->].
    reflexivity.
Qed.

End RecipeCliFacts.

Lemma process_recipe_without_key_witness :
  getenv_api_key Examples.no_key = None /\
  Examples.run_cli Examples.no_key =
  (Ok (RecipeCli.failure (str "ANTHROPIC_API_KEY not set")), Examples.st0).
Proof.
  split; [reflexivity |].
  apply (process_recipe_without_key (R := RefRuntime.runtime) Examples.no_key).
  reflexivity.
Defined.

Lemma scaled_servings_is_requested_witness :
  exists r st',
    Examples.run_cli Examples.happy = (Ok r, st') /\
    py_get r "success" JNull = Ok (JBool true) /\
    py_get r "scaled_servings" JNull = Ok (JInt 7).
Proof.
  eexists. eexists.
  assert (Hrun : Examples.run_cli Examples.happy = (Ok _, _))
    by (vm_compute; reflexivity).
  split; [exact Hrun |]. split; [reflexivity |].
  apply (scaled_servings_is_requested (R := RefRuntime.runtime)
           Examples.happy Examples.url 7 Examples.st0 _ _ Hrun).
  reflexivity.
Defined.

Lemma fetch_error_short_circuits_witness :
  let error := str "Failed to fetch recipe: 404 Client Error" in
  Examples.run_cli Examples.not_found =
  (Ok (RecipeCli.failure error), St [HttpGet Examples.url] false)
  /\ contains (str "Failed to fetch") error = true.
Proof.
  apply (fetch_error_short_circuits (R := RefRuntime.runtime)
           Examples.not_found Examples.url 7 Examples.st0
           "s"%char (str "k-test") (Response 404 (str "Not Found"))).
  - reflexivity.
  - reflexivity.
  - simpl. lia.
Defined.

(** A 304 answer is not a 2xx answer, yet [raise_for_status] lets it pass:
    the run goes on to both model calls and succeeds. *)
Lemma not_modified_reaches_the_model :
  requests_get Examples.not_modified Examples.url
    = Ok (Response 304 Examples.soup_page) /\
  exists r st',
    Examples.run_cli Examples.not_modified = (Ok r, st') /\
    py_get r "success" JNull = Ok (JBool true) /\
    count_events is_model_call (log st') = 2.
Proof.
  split; [reflexivity |].
  eexists. eexists. split; [vm_compute; reflexivity |].
  split; reflexivity.
Qed.

Lemma original_servings_from_model_witness :
  exists r st' resp reply1 parsed,
    Examples.run_cli Examples.happy = (Ok r, st') /\
    py_get r "success" JNull = Ok (JBool true) /\
    requests_get Examples.happy Examples.url = Ok resp /\
    messages_create Examples.happy 0
      (RecipeCli.parse_prompt (strip (response_text resp))
         ++ RecipeCli.json_suffix)
      = Ok reply1 /\
    json_loads (Runtime := RefRuntime.runtime) (RecipeCli.clean reply1)
      = Some (JObject parsed) /\
    py_get r "original_servings" JNull = Ok (JInt 4).
Proof.
  assert (Hrun : exists r st', Examples.run_cli Examples.happy = (Ok r, st'))
    by (eexists; eexists; vm_compute; reflexivity).
  destruct Hrun as (r & st' & Hrun).
  assert (Hs : py_get r "success" JNull = Ok (JBool true)).
  { vm_compute in Hrun. inversion Hrun. reflexivity. }
  destruct (original_servings_from_model (R := RefRuntime.runtime)
              Examples.happy Examples.url 7 Examples.st0 r st' Hrun Hs)
    as (resp & reply1 & parsed & Hg & Hm & Hl & Ho & _).
  exists r, st', resp, reply1, parsed.
  split; [exact Hrun |]. split; [exact Hs |]. split; [exact Hg |].
  split; [exact Hm |]. split; [exact Hl |].
  vm_compute in Hrun. inversion Hrun. reflexivity.
Defined.

(** The model may report zero servings: the value reaches the result. *)
Lemma zero_servings_reach_the_result :
  exists r st',
    Examples.run_cli Examples.zero_servings = (Ok r, st') /\
    py_get r "success" JNull = Ok (JBool true) /\
    py_get r "original_servings" JNull = Ok (JInt 0) /\
    py_get r "ingredients" JNull = Ok JNull.
Proof.
  eexists. eexists. split; [vm_compute; reflexivity |].
  repeat split.
Qed.

Lemma cli_exit_status_witness :
  Examples.cli_status [Examples.prog] = 1%Z
  /\ Examples.cli_status [Examples.prog; str "--help"] = 0%Z
  /\ Examples.cli_status [Examples.prog; Examples.url; str "12"] = 0%Z.
Proof.
  split; [| split].
  - apply (proj1 (cli_exit_status (R := RefRuntime.runtime) Examples.no_key
                    [Examples.prog] Examples.st0)).
    + simpl. lia.
    + reflexivity.
  - apply (proj1 (proj2 (cli_exit_status (R := RefRuntime.runtime)
                           Examples.no_key [Examples.prog; str "--help"]
                           Examples.st0))).
    + simpl. lia.
    + reflexivity.
  - apply (proj2 (proj2 (cli_exit_status (R := RefRuntime.runtime)
                           Examples.no_key
                           [Examples.prog; Examples.url; str "12"]
                           Examples.st0))).
    + simpl. lia.
    + reflexivity.
    + reflexivity.
    + reflexivity.
    + right. right. split; [reflexivity | simpl; lia].
Defined.

(** Arguments that are no URL and no number are not refused: the serving
    count falls back to 7, the failure is printed, and the status is 0. *)
Lemma invalid_arguments_exit_0 :
  Examples.cli_status [Examples.prog; str "not a url"; str "abc"] = 0%Z.
Proof. vm_compute. reflexivity. Qed.

(** The short help flag prints the usage and exits with 1. *)
Lemma short_help_flag_exits_1 :
  Examples.cli_status [Examples.prog; str "-h"] = 1%Z.
Proof. vm_compute. reflexivity. Qed.

(** ** main.py: the validator *)

Lemma ascii_eqb_eq a b : ascii_eqb a b = true <-> a = b.
Proof. unfold ascii_eqb. apply Ascii.eqb_eq. Qed.

Lemma ascii_eqb_refl a : ascii_eqb a a = true.
Proof. apply ascii_eqb_eq. reflexivity. Qed.

Lemma startswith_lower p : forall s,
  startswith p s = true -> startswith (lower p) (lower s) = true.
Proof.
  induction p as [| a p IH]; intros [| b s] H; simpl in *;
    try reflexivity; try discriminate.
  apply andb_true_iff in H. destruct H as [Hab Hps].
  apply ascii_eqb_eq in Hab. subst b.
  rewrite ascii_eqb_refl. simpl. apply IH. exact Hps.
Qed.

Lemma contains_lower p : forall s,
  contains p s = true -> contains (lower p) (lower s) = true.
Proof.
  induction s as [| c s IH]; simpl; intro H.
  - rewrite orb_false_r in *. apply (startswith_lower p []). exact H.
  - apply orb_true_iff in H. apply orb_true_iff. destruct H as [H | H].
    + left. apply (startswith_lower p (c :: s)). exact H.
    + right. apply IH. exact H.
Qed.

Lemma is_valid_product_run product_name fields category name :
  get_or "category" (JString []) fields = JString category ->
  get_or "name" (JString []) fields = JString name ->
  Main.is_valid_product product_name (JObject fields) =
  Ok (forallb (fun kw => negb (contains kw (lower product_name)))
        (Main.denylist category)
      && match name with
         | [] => true
         | _ :: _ => contains (lower name) (lower product_name)
         end).
Proof.
  intros Hc Hn. unfold Main.is_valid_product, py_get.
  rewrite Hc, Hn. cbn [py_lower]. unfold Main.denylist.
  destruct (Main.invalid_keywords (lower category)) as [kws |].
  - assert (Hex : existsb (fun kw => contains kw (lower product_name)) kws
                  = negb (forallb (fun kw => negb (contains kw (lower product_name))) kws)).
    { induction kws as [| kw kws IH]; simpl; [reflexivity |].
      rewrite IH, negb_andb, negb_involutive. reflexivity. }
    rewrite Hex.
    destruct (forallb _ kws); simpl; [| reflexivity].
    destruct name as [| c n]; simpl; [reflexivity |].
    destruct (contains _ _); reflexivity.
  - simpl. destruct name as [| c n]; simpl; [reflexivity |].
    destruct (contains _ _); reflexivity.
Qed.

Lemma garlic_passes_every_denylist category :
  forallb (fun kw => negb (contains kw (lower (str "Fresh Garlic Cloves 3ct"))))
    (Main.denylist category) = true.
Proof.
  unfold Main.denylist, Main.invalid_keywords.
  destruct (pystr_eqb (lower category) (str "produce")); [reflexivity |].
  destruct (pystr_eqb (lower category) (str "dairy")); [reflexivity |].
  destruct (pystr_eqb (lower category) (str "meat")); reflexivity.
Qed.

Lemma denylist_is_specified category :
  Main.denylist category = category_keywords category.
Proof.
  unfold Main.denylist, Main.invalid_keywords, category_keywords,
    keyword_table. cbn [find fst snd].
  destruct (pystr_eqb (lower category) (str "produce")); [reflexivity |].
  destruct (pystr_eqb (lower category) (str "dairy")); [reflexivity |].
  destruct (pystr_eqb (lower category) (str "meat")); reflexivity.
Qed.

Lemma none_occurs kws text :
  forallb (fun kw => negb (contains kw text)) kws = true <->
  (forall kw, In kw kws -> contains kw text = false).
Proof.
  rewrite forallb_forall. split; intros H kw Hin.
  - apply negb_true_iff. exact (H kw Hin).
  - apply negb_true_iff. exact (H kw Hin).
Qed.

Lemma is_valid_product_category product_name fields :
  is_str (get_or "category" (JString []) fields) = false ->
  Main.is_valid_product product_name (JObject fields) =
  Raise (no_attribute (get_or "category" (JString []) fields) "lower").
Proof.
  intro H. unfold Main.is_valid_product. cbn [py_get].
  destruct (get_or "category" (JString []) fields);
    try discriminate H; reflexivity.
Qed.

Lemma is_valid_product_name product_name fields category :
  get_or "category" (JString []) fields = JString category ->
  is_str (get_or "name" (JString []) fields) = false ->
  Main.is_valid_product product_name (JObject fields) =
  Raise (no_attribute (get_or "name" (JString []) fields) "lower").
Proof.
  intros Hc H. unfold Main.is_valid_product. cbn [py_get].
  rewrite Hc. cbn [py_lower].
  destruct (get_or "name" (JString []) fields);
    try discriminate H; reflexivity.
Qed.

(** C6: [is_valid_product] on any candidate name and any ingredient dict.
    When the category and the name of the ingredient are strings (or
    absent, which reads as the empty string) it returns, and returns true
    exactly when no keyword the table lists for the lowercased category
    (produce: seeds, plant, garden, growing; dairy: chips, snacks,
    artificial; meat: pet, dog, cat, toy; others: none) occurs in the
    lowercased candidate name and the ingredient's name is empty or its
    lowercase form occurs in the lowercased candidate name.  For category
    produce a candidate name containing "seeds", in any letter case, is
    rejected whatever the ingredient's name; the name
    "garlic" accepts "Fresh Garlic Cloves 3ct" in every category.  When
    the category, or else the name, is not a string, the call raises
    [AttributeError] for its [lower]. *)
Theorem is_valid_product_spec product_name fields :
  match get_or "category" (JString []) fields,
        get_or "name" (JString []) fields with
  | JString category, JString name =>
      (exists b,
          Main.is_valid_product product_name (JObject fields) = Ok b /\
          (b = true <->
           (forall kw, In kw (category_keywords category) ->
                       contains kw (lower product_name) = false)
           /\ (name = [] \/
               contains (lower name) (lower product_name) = true)))
      /\ (lower category = str "produce" ->
          contains (str "seeds") (lower product_name) = true ->
          Main.is_valid_product product_name (JObject fields) = Ok false)
      /\ (name = str "garlic" ->
          Main.is_valid_product (str "Fresh Garlic Cloves 3ct")
            (JObject fields) = Ok true)
  | JString _, v | v, _ =>
      Main.is_valid_product product_name (JObject fields) =
      Raise (no_attribute v "lower")
  end.
Proof.
  destruct (get_or "category" (JString []) fields) as [| | | | category | |]
    eqn:Hc;
    destruct (get_or "name" (JString []) fields) as [| | | | name | |] eqn:Hn;
    try (rewrite is_valid_product_category by (rewrite Hc; reflexivity);
         rewrite Hc; reflexivity);
    try (rewrite (is_valid_product_name _ _ _ Hc) by (rewrite Hn; reflexivity);
         rewrite Hn; reflexivity).
  split; [| split].
  - eexists. split; [apply (is_valid_product_run _ _ _ _ Hc Hn) |].
    rewrite andb_true_iff, denylist_is_specified, none_occurs. split.
    + intros [H1 H2]. split; [exact H1 |].
      destruct name; [left; reflexivity | right; exact H2].
    + intros [H1 [H2 | H2]]; split; try exact H1.
      * subst name. reflexivity.
      * destruct name; [reflexivity | exact H2].
  - intros Hp Hseeds. rewrite (is_valid_product_run _ _ _ _ Hc Hn).
    rewrite denylist_is_specified.
    assert (Hk : category_keywords category
                 = [str "seeds"; str "plant"; str "garden"; str "growing"])
      by (unfold category_keywords; rewrite Hp; reflexivity).
    rewrite Hk. cbn [forallb]. rewrite Hseeds. reflexivity.
  - intros ->. rewrite (is_valid_product_run _ _ _ _ Hc Hn).
    rewrite garlic_passes_every_denylist. reflexivity.
Qed.

Lemma is_valid_product_spec_witness :
  let fields := [(str "name", JString (str "garlic"));
                 (str "category", JString (str "Produce"))] in
  (exists b,
      Main.is_valid_product (str "Garlic Seeds Pack") (JObject fields) = Ok b /\
      (b = true <->
       (forall kw, In kw (category_keywords (str "Produce")) ->
                   contains kw (lower (str "Garlic Seeds Pack")) = false)
       /\ (str "garlic" = [] \/
           contains (lower (str "garlic")) (lower (str "Garlic Seeds Pack"))
           = true)))
  /\ Main.is_valid_product (str "Garlic Seeds Pack") (JObject fields)
     = Ok false
  /\ Main.is_valid_product (str "Fresh Garlic Cloves 3ct") (JObject fields)
     = Ok true.
Proof.
  intro fields.
  destruct (is_valid_product_spec (str "Garlic Seeds Pack") fields)
    as (H1 & H2 & _).
  destruct (is_valid_product_spec (str "Fresh Garlic Cloves 3ct") fields)
    as (_ & _ & H3).
  split; [exact H1 |].
  split; [exact (H2 eq_refl eq_refl) | exact (H3 eq_refl)].
Defined.

(** An ingredient whose category is null: the validator raises. *)
Lemma null_category_raises :
  Main.is_valid_product (str "Fresh Garlic Cloves 3ct")
    (JObject [(str "name", JString (str "garlic")); (str "category", JNull)])
  = Raise (Exn AttributeError
             (str "'NoneType' object has no attribute 'lower'")).
Proof. vm_compute. reflexivity. Qed.

(** ** main.py: the product matcher *)

Section MainFacts.

Context {R : Runtime}.
Variable w : World.
Variable self : Main.RecipeAssistant.

Lemma ensure_browser_ok st :
  Main.browser_available w st ->
  exists st1, Main._ensure_browser w st = (Ok tt, st1) /\ driver st1 = true.
Proof.
  unfold Main._ensure_browser, bind, get_state. intros [Hd | [Hl Hm]].
  - rewrite Hd. exists st. split; [reflexivity | exact Hd].
  - destruct (driver st) eqn:Hd.
    + exists st. split; [reflexivity | exact Hd].
    + unfold emit, lift, set_driver. cbn [log driver]. rewrite Hl, Hm.
      eexists. split; reflexivity.
Qed.

Lemma extract_name_from product ingredient : forall selectors cur text,
  Main.extract_name product ingredient selectors cur = Some text ->
  cur = Some text \/
  exists selector, In selector selectors /\ css_text product selector = Ok text.
Proof.
  induction selectors as [| sel rest IH]; simpl; intros cur text H.
  - left. exact H.
  - destruct (css_text product sel) as [t | e] eqn:E.
    + destruct (Main.is_valid_product t ingredient) as [[|] | e'].
      * inversion H; subst. right. exists sel. split; [left; reflexivity | exact E].
      * destruct (IH _ _ H) as [Hc | (s & Hin & Hs)].
        -- inversion Hc; subst. right. exists sel. split; [left; reflexivity | exact E].
        -- right. exists s. split; [right; exact Hin | exact Hs].
      * destruct (IH _ _ H) as [Hc | (s & Hin & Hs)].
        -- inversion Hc; subst. right. exists sel. split; [left; reflexivity | exact E].
        -- right. exists s. split; [right; exact Hin | exact Hs].
    + destruct (IH _ _ H) as [Hc | (s & Hin & Hs)].
      * left. exact Hc.
      * right. exists s. split; [right; exact Hin | exact Hs].
Qed.

Lemma extract_price_from product : forall selectors cur text,
  Main.extract_price product selectors cur = Some text ->
  cur = Some text \/
  exists selector, In selector selectors /\ css_text product selector = Ok text.
Proof.
  induction selectors as [| sel rest IH]; simpl; intros cur text H.
  - left. exact H.
  - destruct (css_text product sel) as [[| c t] | e] eqn:E.
    + destruct (IH _ _ H) as [Hc | (s & Hin & Hs)].
      * inversion Hc; subst. right. exists sel. split; [left; reflexivity | exact E].
      * right. exists s. split; [right; exact Hin | exact Hs].
    + inversion H; subst. right. exists sel. split; [left; reflexivity | exact E].
    + destruct (IH _ _ H) as [Hc | (s & Hin & Hs)].
      * left. exact Hc.
      * right. exists s. split; [right; exact Hin | exact Hs].
Qed.

Lemma scan_links_from : forall links href,
  Main.scan_links links = Some href -> In (Ok (Some href)) links.
Proof.
  induction links as [| link rest IH]; intros href H; [discriminate H |].
  cbn [Main.scan_links] in H.
  destruct link as [[[| c h] |] | e];
    try discriminate H; try (right; apply IH; exact H).
  destruct (contains (str "/ip/") (c :: h)).
  - inversion H; subst. left. reflexivity.
  - right. apply IH. exact H.
Qed.

Lemma extract_url_from product href :
  Main.extract_url product = Some href ->
  css_href product (str "a[href*='/ip/']") = Ok (Some href)
  \/ exists links, anchors product = Ok links /\ In (Ok (Some href)) links.
Proof.
  unfold Main.extract_url.
  destruct (css_href product _) as [h | e].
  - intros ->. left. reflexivity.
  - destruct (anchors product) as [links | e']; [| discriminate].
    intro H. right. exists links. split; [reflexivity |].
    apply scan_links_from. exact H.
Qed.

Lemma or_sentinel_cases value sentinel :
  Main.or_sentinel value sentinel = str sentinel
  \/ (value = Some (Main.or_sentinel value sentinel)
      /\ Main.or_sentinel value sentinel <> []).
Proof.
  destruct value as [[| c s] |]; simpl; try (left; reflexivity).
  right. split; [reflexivity | discriminate].
Qed.

Lemma driver_get_ok_inv url st page st' :
  Main.driver_get w url st = (Ok page, st') ->
  page = search_results w (count_events is_navigate (log st)) url /\
  driver st' = driver st.
Proof.
  unfold Main.driver_get, bind, get_state, emit, lift, ret. cbn [log driver].
  destruct (navigate (search_results w (count_events is_navigate (log st)) url));
    intro H; inversion H; subst. split; reflexivity.
Qed.

Lemma search_failed_run fields e st :
  Main.search_failed (JObject fields) e st =
  (Ok (Main.product_match (JObject fields) (str "Search failed")
         (str "URL not found") (str "Price not found")
         (py_str (get_or "amount" (JString []) fields) ++ str " "
            ++ py_str (get_or "unit" (JString []) fields))), st).
Proof. reflexivity. Qed.

Lemma search_body_ok_inv fields st r st' :
  Main.search_body w (JObject fields) st = (Ok r, st') ->
  exists n url product qty,
    wait_container (search_results w n url) = Ok product /\
    driver st' = driver st /\
    r = Main.product_match (JObject fields)
          (Main.or_sentinel
             (Main.extract_name product (JObject fields) Main.name_selectors None)
             "Name not found")
          (Main.or_sentinel (Main.extract_url product) "URL not found")
          (Main.or_sentinel
             (Main.extract_price product Main.price_selectors None)
             "Price not found")
          qty.
Proof.
  unfold Main.search_body. intro H.
  inv_bind H. apply lift_ok_inv in H0. destruct H0 as [_ ->].
  inv_bind H. apply lift_ok_inv in H0. destruct H0 as [_ ->].
  inv_bind H. apply lift_ok_inv in H0. destruct H0 as [_ ->].
  inv_bind H. apply lift_ok_inv in H0. destruct H0 as [_ ->].
  inv_bind H. apply lift_ok_inv in H0. destruct H0 as [_ ->].
  inv_bind H. apply driver_get_ok_inv in H0. destruct H0 as [-> Hd].
  inv_bind H. apply lift_ok_inv in H0. destruct H0 as [Hw ->].
  inv_bind H. apply lift_ok_inv in H0. destruct H0 as [_ ->].
  inv_bind H. apply lift_ok_inv in H0. destruct H0 as [_ ->].
  apply ret_ok_inv in H. destruct H as [-> ->].
  eexists _, _, a4, a6. split; [exact Hw |]. split; [exact Hd | reflexivity].
Qed.

Lemma bind_keeps_driver {A B} (m : M A) (k : A -> M B) :
  keeps_driver m -> (forall a, keeps_driver (k a)) -> keeps_driver (bind m k).
Proof.
  unfold keeps_driver, bind. intros Hm Hk st o st'.
  destruct (m st) as [[a | e] st1] eqn:E; intro H.
  - rewrite (Hk _ _ _ _ H). exact (Hm _ _ _ E).
  - inversion H; subst. exact (Hm _ _ _ E).
Qed.

Lemma lift_keeps_driver {A} (o : outcome A) : keeps_driver (lift o).
Proof. intros st o' st' H. inversion H. reflexivity. Qed.

Lemma ret_keeps_driver {A} (a : A) : keeps_driver (ret a).
Proof. intros st o' st' H. inversion H. reflexivity. Qed.

Lemma emit_keeps_driver ev : keeps_driver (emit ev).
Proof. intros st o' st' H. inversion H. reflexivity. Qed.

Lemma get_state_keeps_driver : keeps_driver get_state.
Proof. intros st o' st' H. inversion H. reflexivity. Qed.

Lemma driver_get_keeps_driver url : keeps_driver (Main.driver_get w url).
Proof.
  unfold Main.driver_get.
  apply bind_keeps_driver; [apply get_state_keeps_driver | intro st0].
  apply bind_keeps_driver; [apply emit_keeps_driver | intros _].
  apply bind_keeps_driver; [apply lift_keeps_driver | intros _].
  apply ret_keeps_driver.
Qed.

(** The body of the [try] block does not touch [self.driver]. *)
Lemma search_body_driver ingredient : keeps_driver (Main.search_body w ingredient).
Proof.
  unfold Main.search_body.
  repeat (apply bind_keeps_driver;
          [first [apply lift_keeps_driver | apply driver_get_keeps_driver]
          | intro]).
  apply ret_keeps_driver.
Qed.

Lemma search_walmart_product_ok fields st :
  Main.browser_available w st ->
  exists name url price qty st',
    Main.search_walmart_product w (JObject fields) st =
    (Ok (Main.product_match (JObject fields) name url price qty), st') /\
    driver st' = true /\
    Main.name_ok w name /\ Main.url_ok w url /\ Main.price_ok w price.
Proof.
  intro Hb. destruct (ensure_browser_ok st Hb) as (st1 & He & Hd).
  unfold Main.search_walmart_product.
  erewrite bind_ok by exact He. unfold try_catch.
  destruct (Main.search_body w (JObject fields) st1) as [[r | e] st2] eqn:E.
  - apply search_body_ok_inv in E.
    destruct E as (n & u & product & qty & Hw & Hd2 & ->).
    assert (Hshown : Main.shown w product) by (exists n, u; exact Hw).
    eexists _, _, _, qty, st2. split; [reflexivity |].
    split; [congruence |]. split; [| split].
    + destruct (or_sentinel_cases
                  (Main.extract_name product (JObject fields)
                     Main.name_selectors None) "Name not found")
        as [Hs | [Hv Hne]].
      * left. exact Hs.
      * right. right. split; [exact Hne |].
        apply extract_name_from in Hv.
        destruct Hv as [Hv | (sel & _ & Hsel)]; [discriminate |].
        exists product, sel. split; assumption.
    + destruct (or_sentinel_cases (Main.extract_url product) "URL not found")
        as [Hs | [Hv Hne]].
      * left. exact Hs.
      * right. split; [exact Hne |].
        apply extract_url_from in Hv.
        exists product. split; assumption.
    + destruct (or_sentinel_cases
                  (Main.extract_price product Main.price_selectors None)
                  "Price not found")
        as [Hs | [Hv Hne]].
      * left. exact Hs.
      * right. split; [exact Hne |].
        apply extract_price_from in Hv.
        destruct Hv as [Hv | (sel & _ & Hsel)]; [discriminate |].
        exists product, sel. split; assumption.
  - apply search_body_driver in E.
    rewrite search_failed_run.
    eexists _, _, _, _, st2. split; [reflexivity |].
    split; [congruence |]. split; [| split].
    + right. left. reflexivity.
    + left. reflexivity.
    + left. reflexivity.
Qed.

Lemma name_ok_nonempty name : Main.name_ok w name -> name <> [].
Proof. intros [-> | [-> | [H _]]]; [discriminate | discriminate | exact H]. Qed.

Lemma url_ok_nonempty url : Main.url_ok w url -> url <> [].
Proof. intros [-> | [H _]]; [discriminate | exact H]. Qed.

Lemma price_ok_nonempty price : Main.price_ok w price -> price <> [].
Proof. intros [-> | [H _]]; [discriminate | exact H]. Qed.

(** C2: once a browser is open or can be started, [search_walmart_product]
    returns for every ingredient dict, whatever the pages answer: the
    result is a product match whose name, url and price are non-empty
    strings, each a sentinel or a text read from a shown result
    container. *)
Theorem search_walmart_product_returns fields st :
  Main.browser_available w st ->
  exists name url price qty st',
    Main.search_walmart_product w (JObject fields) st =
    (Ok (Main.product_match (JObject fields) name url price qty), st') /\
    (Main.name_ok w name /\ name <> []) /\
    (Main.url_ok w url /\ url <> []) /\
    (Main.price_ok w price /\ price <> []).
Proof.
  intro Hb.
  destruct (search_walmart_product_ok fields st Hb)
    as (name & url & price & qty & st' & Hrun & _ & Hn & Hu & Hp).
  exists name, url, price, qty, st'. split; [exact Hrun |].
  split; [split; [exact Hn | exact (name_ok_nonempty _ Hn)] |].
  split; [split; [exact Hu | exact (url_ok_nonempty _ Hu)] |].
  split; [exact Hp | exact (price_ok_nonempty _ Hp)].
Qed.

(** ** main.py: the matching phase *)

Lemma match_loop_ok : forall items st,
  Forall (fun v => is_dict v = true) items ->
  driver st = true ->
  exists products st',
    Main.match_loop w items st = (Ok products, st') /\
    driver st' = true /\
    Forall2 (Main.match_of w) items products.
Proof.
  induction items as [| item rest IH]; intros st Hdict Hd.
  - exists [], st. split; [reflexivity |]. split; [exact Hd | constructor].
  - inversion Hdict as [| x l Hitem Hrest]; subst.
    destruct item as [| | | | | | fields]; try discriminate Hitem.
    destruct (search_walmart_product_ok fields st (or_introl Hd))
      as (name & url & price & qty & st1 & Hrun & Hd1 & Hn & Hu & Hp).
    destruct (IH st1 Hrest Hd1) as (products & st2 & Hloop & Hd2 & Hall).
    eexists _, st2. cbn [Main.match_loop].
    erewrite bind_ok by reflexivity.
    erewrite bind_ok by exact Hrun.
    erewrite bind_ok by exact Hloop.
    split; [reflexivity |]. split; [exact Hd2 |].
    constructor; [| exact Hall].
    exists name, url, price, qty. repeat split; assumption.
Qed.

Lemma match_phase_ok fields items st :
  Main.browser_available w st ->
  get_or "scaled_ingredients" (JArray []) fields = JArray items ->
  Forall (fun v => is_dict v = true) items ->
  exists products st',
    Main.match_phase w (JObject fields) st = (Ok products, st') /\
    Forall2 (Main.match_of w) items products.
Proof.
  intros Hb Hget Hdict.
  destruct (ensure_browser_ok st Hb) as (st1 & He & Hd).
  destruct (match_loop_ok items st1 Hdict Hd)
    as (products & st2 & Hloop & _ & Hall).
  exists products, st2. split; [| exact Hall].
  unfold Main.match_phase.
  erewrite bind_ok by exact He.
  erewrite bind_ok by (unfold lift, py_get; rewrite Hget; reflexivity).
  erewrite bind_ok by reflexivity.
  exact Hloop.
Qed.

(** What the loop of the matching phase returns are the results of the
    matcher, called once per item. *)
Lemma match_loop_searched : forall items st products st',
  Main.match_loop w items st = (Ok products, st') ->
  searched w items products st st'.
Proof.
  induction items as [| item rest IH]; intros st products st' H.
  - cbn [Main.match_loop] in H. apply ret_ok_inv in H.
    destruct H as [Hp Hs]. subst. reflexivity.
  - cbn [Main.match_loop] in H.
    inv_bind H. apply lift_ok_inv in H0. destruct H0 as [_ ->].
    inv_bind H. inv_bind H. apply ret_ok_inv in H.
    destruct H as [Hp Hs]. subst. cbn [searched].
    eexists. split; [eassumption |]. apply IH. assumption.
Qed.

(** C4: when the first part of [process_recipe_url] has produced a scaled
    recipe whose [scaled_ingredients] is a list of dicts, and a browser is
    open or can be started, the matching phase returns: after the browser
    is ensured, [search_walmart_product] is called once per scaled
    ingredient, in order, and [walmart_products] holds the results of
    these calls, one product match per scaled ingredient, each for its
    ingredient and possibly filled with sentinels, so both lists have the
    same length. *)
Theorem matching_phase_keeps_cardinality recipe_url st text fields st1 items :
  Main.prepare w self recipe_url st = (Ok (text, JObject fields), st1) ->
  Main.browser_available w st1 ->
  get_or "scaled_ingredients" (JArray []) fields = JArray items ->
  Forall (fun v => is_dict v = true) items ->
  exists products st',
    Main.process_recipe_url w self recipe_url true st =
    (Ok (JObject [
       (str "recipe_url", JString recipe_url);
       (str "original_recipe", text);
       (str "scaled_recipe", JObject fields);
       (str "walmart_products", JArray products)]), st') /\
    List.length products = List.length items /\
    Forall2 (Main.match_of w) items products /\
    exists st2,
      Main._ensure_browser w st1 = (Ok tt, st2) /\
      searched w items products st2 st'.
Proof.
  intros Hprep Hb Hget Hdict.
  destruct (ensure_browser_ok st1 Hb) as (st2 & He & Hd).
  destruct (match_loop_ok items st2 Hdict Hd)
    as (products & st3 & Hloop & _ & Hall).
  exists products, st3. split; [| split; [| split; [exact Hall |]]].
  - unfold Main.process_recipe_url.
    erewrite bind_ok by exact Hprep. cbn [fst snd].
    erewrite bind_ok; [reflexivity |].
    unfold Main.match_phase.
    erewrite bind_ok by exact He.
    erewrite bind_ok by (unfold lift, py_get; rewrite Hget; reflexivity).
    erewrite bind_ok by reflexivity.
    exact Hloop.
  - symmetry. exact (Forall2_length Hall).
  - exists st2. split; [exact He |].
    apply match_loop_searched. exact Hloop.
Qed.

End MainFacts.

Lemma search_walmart_product_returns_witness :
  Main.browser_available Examples.kitchen Examples.st0 /\
  exists name url price qty st',
    Main.search_walmart_product (R := RefRuntime.runtime) Examples.kitchen
      Examples.garlic Examples.st0 =
    (Ok (Main.product_match Examples.garlic name url price qty), st') /\
    (Main.name_ok Examples.kitchen name /\ name <> []) /\
    (Main.url_ok Examples.kitchen url /\ url <> []) /\
    (Main.price_ok Examples.kitchen price /\ price <> []).
Proof.
  assert (Hb : Main.browser_available Examples.kitchen Examples.st0)
    by (right; split; reflexivity).
  split; [exact Hb |].
  exact (search_walmart_product_returns (R := RefRuntime.runtime)
           Examples.kitchen _ Examples.st0 Hb).
Defined.

(** When no browser can be started the matcher raises: the launch is made
    before the [try] block is entered. *)
Lemma matcher_raises_without_browser :
  Main.search_walmart_product (R := RefRuntime.runtime) Examples.no_chrome
    Examples.garlic Examples.st0 =
  (Raise (Exn WebDriverException (str "cannot find Chrome binary")),
   St [BrowserLaunch] false).
Proof. vm_compute. reflexivity. Qed.

Lemma matching_phase_keeps_cardinality_witness :
  exists products st',
    Examples.run_main Examples.kitchen =
    (Ok (JObject [
       (str "recipe_url", JString Examples.url);
       (str "original_recipe", JString Examples.soup_page);
       (str "scaled_recipe", JObject Examples.kitchen_scaled);
       (str "walmart_products", JArray products)]), st') /\
    List.length products = List.length Examples.kitchen_ingredients /\
    Forall2 (Main.match_of Examples.kitchen)
      Examples.kitchen_ingredients products /\
    exists st2,
      Main._ensure_browser Examples.kitchen (snd Examples.kitchen_prepared)
        = (Ok tt, st2) /\
      searched (R := RefRuntime.runtime) Examples.kitchen
        Examples.kitchen_ingredients products st2 st'.
Proof.
  apply (matching_phase_keeps_cardinality (R := RefRuntime.runtime)
           Examples.kitchen Examples.assistant Examples.url Examples.st0
           (JString Examples.soup_page) Examples.kitchen_scaled
           (snd Examples.kitchen_prepared) Examples.kitchen_ingredients).
  - vm_compute. reflexivity.
  - right. split; reflexivity.
  - reflexivity.
  - repeat constructor.
Defined.

(** A scaled recipe with two shopping-list items and no scaled
    ingredients gets no product match at all. *)
Lemma shopping_list_is_not_matched :
  exists r scaled shopping st',
    Examples.run_main Examples.shopping_only = (Ok r, st') /\
    py_getitem r "scaled_recipe" = Ok scaled /\
    py_getitem scaled "shopping_list" = Ok (JArray shopping) /\
    List.length shopping = 2 /\
    py_getitem r "walmart_products" = Ok (JArray []).
Proof.
  eexists _, _, _, _.
  split; [vm_compute; reflexivity |].
  split; [reflexivity |]. split; [reflexivity |]. split; reflexivity.
Qed.

(** A scaling reply that is no JSON makes [process_recipe_url] raise. *)
Lemma process_recipe_url_raises :
  exists msg st',
    Examples.run_main Examples.babble =
    (Raise (Exn JSONDecodeError msg), st').
Proof. eexists _, _. vm_compute. reflexivity. Qed.

(** ** Python string facts *)

Lemma lstrip_app s b :
  lstrip (s ++ b) = match lstrip s with [] => lstrip b | _ :: _ => lstrip s ++ b end.
Proof.
  induction s as [| c s IH]; [reflexivity |].
  cbn [app lstrip]. destruct (isspace c); [exact IH | reflexivity].
Qed.

Lemma lstrip_nil_iff s : lstrip s = [] <-> forallb isspace s = true.
Proof.
  induction s as [| c s IH]; cbn [lstrip forallb]; [tauto |].
  destruct (isspace c); cbn [andb]; [exact IH |].
  split; discriminate.
Qed.

Lemma rstrip_nil_iff s : rstrip s = [] <-> forallb isspace s = true.
Proof.
  unfold rstrip. split; intro H.
  - assert (H' : lstrip (rev s) = []).
    { rewrite <- (rev_involutive (lstrip (rev s))). rewrite H. reflexivity. }
    apply lstrip_nil_iff in H'. rewrite forallb_forall in *.
    intros x Hx. apply H'. apply in_rev in Hx. exact Hx.
  - assert (H' : lstrip (rev s) = []).
    { apply lstrip_nil_iff. rewrite forallb_forall in *.
      intros x Hx. apply H. apply in_rev. exact Hx. }
    rewrite H'. reflexivity.
Qed.

Lemma rstrip_app x s :
  rstrip (x ++ s) = match rstrip s with [] => rstrip x | _ :: _ => x ++ rstrip s end.
Proof.
  unfold rstrip. rewrite rev_app_distr, lstrip_app.
  destruct (lstrip (rev s)) as [| c t] eqn:E; [reflexivity |].
  rewrite rev_app_distr, rev_involutive.
  destruct (rev (c :: t)) eqn:E2; [| reflexivity].
  apply (f_equal (@rev ascii)) in E2. rewrite rev_involutive in E2.
  discriminate E2.
Qed.

Lemma rstrip_app_space m b :
  forallb isspace b = true -> rstrip (m ++ b) = rstrip m.
Proof.
  intro Hb. rewrite rstrip_app.
  apply rstrip_nil_iff in Hb. rewrite Hb. reflexivity.
Qed.

Lemma rstrip_snoc x c : isspace c = false -> rstrip (x ++ [c]) = x ++ [c].
Proof.
  intro Hc. rewrite rstrip_app.
  assert (H : rstrip [c] = [c])
    by (unfold rstrip; cbn [rev app lstrip]; rewrite Hc; reflexivity).
  rewrite H. reflexivity.
Qed.

(** [s] is its right-stripped part followed by whitespace. *)
Lemma rstrip_decomp s :
  exists b, s = rstrip s ++ b /\ forallb isspace b = true.
Proof.
  induction s as [| c s IH] using rev_ind.
  - exists []. split; reflexivity.
  - destruct (isspace c) eqn:Hc.
    + destruct IH as (b & Hs & Hb). exists (b ++ [c]).
      rewrite (rstrip_app_space s [c]) by (cbn; rewrite Hc; reflexivity).
      split.
      * rewrite app_assoc, <- Hs. reflexivity.
      * rewrite forallb_app, Hb. cbn. rewrite Hc. reflexivity.
    + exists []. rewrite (rstrip_snoc s c Hc), app_nil_r.
      split; reflexivity.
Qed.

Lemma strip_app_space s b :
  forallb isspace b = true -> strip (s ++ b) = strip s.
Proof.
  intro Hb. unfold strip. rewrite lstrip_app.
  destruct (lstrip s) as [| c t] eqn:E.
  - apply lstrip_nil_iff in Hb. rewrite Hb. reflexivity.
  - apply rstrip_app_space. exact Hb.
Qed.

Lemma startswith_app p s : startswith p (p ++ s) = true.
Proof.
  induction p as [| a p IH]; [reflexivity |].
  cbn [app startswith]. rewrite ascii_eqb_refl. exact IH.
Qed.

Lemma startswith_app_inv p : forall s,
  startswith p s = true -> exists y, s = p ++ y.
Proof.
  induction p as [| a p IH]; intros s H.
  - exists s. reflexivity.
  - destruct s as [| b s]; [discriminate H |].
    cbn [startswith] in H. apply andb_true_iff in H. destruct H as [Hab Hp].
    apply ascii_eqb_eq in Hab. subst b.
    destruct (IH s Hp) as [y ->]. exists y. reflexivity.
Qed.

Lemma startswith_app_l p : forall x y,
  startswith p x = true -> startswith p (x ++ y) = true.
Proof.
  intros x y H. destruct (startswith_app_inv p x H) as [z ->].
  rewrite <- app_assoc. apply startswith_app.
Qed.

Lemma contains_startswith p s : startswith p s = true -> contains p s = true.
Proof. intro H. destruct s; cbn [contains]; rewrite H; reflexivity. Qed.

Lemma contains_app_r p x s : contains p s = true -> contains p (x ++ s) = true.
Proof.
  intro H. induction x as [| c x IH]; [exact H |].
  cbn [app contains]. rewrite IH. apply orb_true_r.
Qed.

Lemma contains_app_l p : forall x y,
  contains p x = true -> contains p (x ++ y) = true.
Proof.
  induction x as [| c x IH]; intros y H.
  - cbn [contains] in H. rewrite orb_false_r in H.
    apply contains_startswith. apply (startswith_app_l p [] y H).
  - cbn [contains] in H. apply orb_true_iff in H.
    cbn [app contains]. apply orb_true_iff. destruct H as [H | H].
    + left. apply (startswith_app_l p (c :: x) y H).
    + right. apply IH. exact H.
Qed.

Lemma endswith_app p x : endswith p (x ++ p) = true.
Proof. unfold endswith. rewrite rev_app_distr. apply startswith_app. Qed.

Lemma endswith_contains p s : endswith p s = true -> contains p s = true.
Proof.
  unfold endswith. intro H.
  destruct (startswith_app_inv _ _ H) as [y Hy].
  apply (f_equal (@rev ascii)) in Hy.
  rewrite rev_involutive, rev_app_distr, rev_involutive in Hy. subst s.
  apply contains_app_r. apply contains_startswith.
  rewrite <- (app_nil_r p) at 2. apply startswith_app.
Qed.

Lemma split_nl_nonempty s : split_nl s <> [].
Proof.
  destruct s as [| c s]; cbn [split_nl]; [discriminate |].
  destruct (ascii_eqb c nl); [discriminate |].
  destruct (split_nl s); discriminate.
Qed.

Lemma split_nl_one_line s : one_line s = true -> split_nl s = [s].
Proof.
  unfold one_line. induction s as [| c s IH]; [reflexivity |].
  cbn [forallb split_nl]. intro H. apply andb_true_iff in H.
  destruct H as [Hc Hs]. apply negb_true_iff in Hc. rewrite Hc.
  rewrite (IH Hs). reflexivity.
Qed.

Lemma split_nl_first_line pre rest :
  one_line pre = true -> split_nl (pre ++ nl :: rest) = pre :: split_nl rest.
Proof.
  unfold one_line. induction pre as [| c pre IH]; intro H.
  - cbn [app split_nl]. rewrite ascii_eqb_refl. reflexivity.
  - cbn [forallb] in H. apply andb_true_iff in H. destruct H as [Hc Hs].
    apply negb_true_iff in Hc. cbn [app split_nl]. rewrite Hc.
    rewrite (IH Hs). reflexivity.
Qed.

Lemma join_split_nl s : join_nl (split_nl s) = s.
Proof.
  induction s as [| c s IH]; [reflexivity |].
  cbn [split_nl]. destruct (ascii_eqb c nl) eqn:E.
  - apply ascii_eqb_eq in E. subst c.
    destruct (split_nl s) as [| p ps] eqn:Es.
    + exfalso. exact (split_nl_nonempty s Es).
    + cbn [join_nl app]. cbn [join_nl] in IH. rewrite IH. reflexivity.
  - destruct (split_nl s) as [| p ps] eqn:Es.
    + exfalso. exact (split_nl_nonempty s Es).
    + destruct ps as [| q qs].
      * cbn [join_nl] in *. rewrite IH. reflexivity.
      * cbn [join_nl] in *. cbn [app]. rewrite IH. reflexivity.
Qed.

(** Dropping the first line: what follows the first newline. *)
Lemma drop_first_line pre rest :
  one_line pre = true ->
  join_nl (tl (split_nl (pre ++ nl :: rest))) = rest.
Proof.
  intro H. rewrite (split_nl_first_line pre rest H). cbn [tl].
  apply join_split_nl.
Qed.

Lemma split1_nl_first_line pre rest :
  one_line pre = true -> split1_nl (pre ++ nl :: rest) = [pre; rest].
Proof.
  unfold one_line. induction pre as [| c pre IH]; intro H.
  - cbn [app split1_nl]. rewrite ascii_eqb_refl. reflexivity.
  - cbn [forallb] in H. apply andb_true_iff in H. destruct H as [Hc Hs].
    apply negb_true_iff in Hc. cbn [app split1_nl]. rewrite Hc.
    rewrite (IH Hs). reflexivity.
Qed.

Lemma one_line_app a b : one_line (a ++ b) = one_line a && one_line b.
Proof. unfold one_line. apply forallb_app. Qed.

Lemma one_line_rstrip s : one_line s = true -> one_line (rstrip s) = true.
Proof.
  intro H. destruct (rstrip_decomp s) as (b & Hs & _).
  rewrite Hs, one_line_app in H. apply andb_true_iff in H. tauto.
Qed.

(** The rightmost fence of a text that ends with a fence is that last
    one. *)
Lemma rsplit1_head_end x : rsplit1_head fence (x ++ fence) = x.
Proof.
  induction x as [| c x IH]; [reflexivity |].
  cbn [app rsplit1_head].
  assert (H : contains fence (x ++ fence) = true).
  { apply contains_app_r. reflexivity. }
  rewrite H, IH. reflexivity.
Qed.

Lemma strip_fenced x :
  strip (fence ++ x ++ fence) = fence ++ x ++ fence.
Proof.
  unfold strip.
  assert (E : lstrip (fence ++ x ++ fence) = fence ++ x ++ fence)
    by reflexivity.
  rewrite E.
  change (fence ++ x ++ fence)
    with (fence ++ x ++ [backtick; backtick] ++ [backtick]).
  rewrite !app_assoc. apply rstrip_snoc. reflexivity.
Qed.

(** ** The response cleaners *)

Lemma fenced_shape tag s :
  fenced tag s = fence ++ (tag ++ nl :: s ++ [nl]) ++ fence.
Proof.
  unfold fenced. f_equal. rewrite <- app_assoc. f_equal. cbn [app].
  f_equal. rewrite <- app_assoc. reflexivity.
Qed.

Lemma fenced_lines tag s :
  fenced tag s = (fence ++ tag) ++ nl :: (s ++ [nl]) ++ fence.
Proof.
  unfold fenced. rewrite <- !app_assoc. reflexivity.
Qed.

Lemma one_line_fence_tag tag : one_line tag = true -> one_line (fence ++ tag) = true.
Proof. intro H. rewrite one_line_app, H. reflexivity. Qed.

Lemma cli_clean_plain s :
  startswith fence (strip s) = false -> RecipeCli.clean s = strip (strip s).
Proof. unfold RecipeCli.clean. intros ->. reflexivity. Qed.

Lemma cli_clean_fenced tag s :
  one_line tag = true -> RecipeCli.clean (fenced tag s) = strip s.
Proof.
  intro Htag. unfold RecipeCli.clean.
  rewrite (fenced_shape tag s), strip_fenced, <- (fenced_shape tag s).
  assert (Hst : startswith fence (fenced tag s) = true)
    by (unfold fenced; apply startswith_app).
  rewrite Hst. rewrite (fenced_lines tag s).
  rewrite (drop_first_line _ _ (one_line_fence_tag tag Htag)).
  assert (Hc : contains fence ((s ++ [nl]) ++ fence) = true)
    by (apply contains_app_r; reflexivity).
  rewrite Hc, rsplit1_head_end.
  apply strip_app_space. reflexivity.
Qed.

Lemma contains_nil_fence : contains fence [] = false.
Proof. reflexivity. Qed.

Lemma strip_fenced_open tag s :
  strip (fenced_open tag s) =
  match rstrip s with
  | [] => fence ++ rstrip tag
  | _ :: _ => (fence ++ tag) ++ nl :: rstrip s
  end.
Proof.
  unfold strip.
  change (lstrip (fenced_open tag s)) with (fenced_open tag s).
  assert (E : fenced_open tag s = ((fence ++ tag) ++ [nl]) ++ s)
    by (unfold fenced_open; rewrite <- !app_assoc; reflexivity).
  rewrite E, rstrip_app.
  destruct (rstrip s) as [| c t].
  - rewrite rstrip_app_space by reflexivity.
    rewrite rstrip_app. destruct (rstrip tag); reflexivity.
  - rewrite <- !app_assoc. reflexivity.
Qed.

Lemma cli_clean_fenced_open tag s :
  one_line tag = true -> contains fence s = false ->
  RecipeCli.clean (fenced_open tag s) = strip s.
Proof.
  intros Htag Hs. unfold RecipeCli.clean.
  rewrite strip_fenced_open.
  destruct (rstrip_decomp s) as (b & Hdec & Hb).
  destruct (rstrip s) as [| c t] eqn:E.
  - (* the payload is blank: the fence line is all there is *)
    rewrite startswith_app.
    rewrite split_nl_one_line
      by (apply one_line_fence_tag; apply one_line_rstrip; exact Htag).
    cbn [tl join_nl]. rewrite contains_nil_fence.
    assert (Hall : forallb isspace s = true) by (apply rstrip_nil_iff; exact E).
    apply lstrip_nil_iff in Hall. unfold strip at 2. rewrite Hall.
    reflexivity.
  - (* the payload has text: it is the second line onwards *)
    assert (Hst : startswith fence ((fence ++ tag) ++ nl :: c :: t) = true)
      by (rewrite <- app_assoc; apply startswith_app).
    rewrite Hst.
    rewrite (drop_first_line _ _ (one_line_fence_tag tag Htag)).
    assert (Hc : contains fence (c :: t) = false).
    { destruct (contains fence (c :: t)) eqn:Ec; [| reflexivity].
      rewrite Hdec in Hs. rewrite (contains_app_l fence _ b Ec) in Hs.
      discriminate Hs. }
    rewrite Hc. rewrite Hdec. symmetry. apply strip_app_space. exact Hb.
Qed.

Lemma main_clean_plain s :
  startswith fence s = false -> Main.clean s = Ok (strip s).
Proof. unfold Main.clean. intros ->. reflexivity. Qed.

Lemma main_clean_fenced tag s :
  one_line tag = true -> Main.clean (fenced tag s) = Ok (strip s).
Proof.
  intro Htag. unfold Main.clean.
  assert (Hst : startswith fence (fenced tag s) = true)
    by (unfold fenced; apply startswith_app).
  rewrite Hst. unfold Main.after_first_line.
  rewrite (fenced_lines tag s).
  rewrite (split1_nl_first_line _ _ (one_line_fence_tag tag Htag)).
  rewrite endswith_app. unfold drop_last3.
  rewrite length_app.
  replace (List.length (s ++ [nl]) + List.length fence - 3)
    with (List.length (s ++ [nl]) + 0) by (cbn [List.length fence]; lia).
  rewrite firstn_app_2. cbn [firstn]. rewrite app_nil_r.
  f_equal. apply strip_app_space. reflexivity.
Qed.

Lemma main_clean_fenced_open tag s :
  one_line tag = true -> contains fence s = false ->
  Main.clean (fenced_open tag s) = Ok (strip s).
Proof.
  intros Htag Hs. unfold Main.clean.
  assert (Hst : startswith fence (fenced_open tag s) = true)
    by (unfold fenced_open; apply startswith_app).
  rewrite Hst. unfold Main.after_first_line.
  replace (fenced_open tag s) with ((fence ++ tag) ++ nl :: s)
    by (unfold fenced_open; rewrite <- app_assoc; reflexivity).
  rewrite (split1_nl_first_line _ _ (one_line_fence_tag tag Htag)).
  assert (He : endswith fence s = false).
  { destruct (endswith fence s) eqn:E; [| reflexivity].
    rewrite (endswith_contains _ _ E) in Hs. discriminate Hs. }
  rewrite He, Hs. reflexivity.
Qed.

Section CleanerLaws.

Context {R : Runtime} {L : JsonLaws R}.

(** C3: for a text [s] that decodes to [v], both cleaners hand
    [json.loads] a text that decodes to [v] when the reply is [s] itself,
    and when it is [s] between an opening fence line (with any one-line
    tag) and a closing fence; when only the opening fence line is there,
    they do so provided [s] holds no fence marker. *)
Theorem cleaner_round_trip s v tag :
  json_loads s = Some v ->
  one_line tag = true ->
  cleans_to s v
  /\ cleans_to (fenced tag s) v
  /\ (contains fence s = false -> cleans_to (fenced_open tag s) v).
Proof.
  intros Hs Htag.
  pose proof (loads_strip s v Hs) as Hstrip.
  split; [| split].
  - split.
    + rewrite cli_clean_plain by exact (loads_unfenced _ _ Hstrip).
      apply loads_strip. exact Hstrip.
    + exists (strip s). split; [| exact Hstrip].
      apply main_clean_plain. exact (loads_unfenced _ _ Hs).
  - split.
    + rewrite (cli_clean_fenced tag s Htag). exact Hstrip.
    + exists (strip s). split; [| exact Hstrip].
      exact (main_clean_fenced tag s Htag).
  - intro Hno. split.
    + rewrite (cli_clean_fenced_open tag s Htag Hno). exact Hstrip.
    + exists (strip s). split; [| exact Hstrip].
      exact (main_clean_fenced_open tag s Htag Hno).
Qed.

End CleanerLaws.

(** A JSON string of three backticks behind an opening fence line alone:
    the cleaners cut the document at its own backticks and what is left
    does not decode. *)
Lemma backticks_payload_is_cut :
  let reply := fenced_open (str "json") Examples.backticks_doc in
  RefJson.loads 1000 Examples.backticks_doc = Some (JString fence)
  /\ RecipeCli.clean reply = [dq]
  /\ Main.clean reply = Ok [dq]
  /\ RefJson.loads 1000 [dq] = None.
Proof. vm_compute. repeat split. Qed.

(** ** The reference decoder obeys the laws *)

Lemma json_ws_isspace c : is_json_ws c = true -> isspace c = true.
Proof.
  unfold is_json_ws, isspace. intro H.
  repeat (apply orb_true_iff in H; destruct H as [H | H]);
    apply N.eqb_eq in H; rewrite H; reflexivity.
Qed.

Lemma skip_ws_decomp s :
  exists ws, s = ws ++ RefJson.skip_ws s /\ forallb is_json_ws ws = true.
Proof.
  induction s as [| c s IH].
  - exists []. split; reflexivity.
  - cbn [RefJson.skip_ws]. destruct (is_json_ws c) eqn:E.
    + destruct IH as (ws & Hs & Hws). exists (c :: ws). split.
      * cbn [app]. rewrite <- Hs. reflexivity.
      * cbn [forallb]. rewrite E, Hws. reflexivity.
    + exists []. split; reflexivity.
Qed.

Lemma skip_ws_app ws x :
  forallb is_json_ws ws = true ->
  RefJson.skip_ws (ws ++ x) = RefJson.skip_ws x.
Proof.
  induction ws as [| c ws IH]; intro H; [reflexivity |].
  cbn [forallb] in H. apply andb_true_iff in H. destruct H as [Hc Hws].
  cbn [app RefJson.skip_ws]. rewrite Hc. apply IH. exact Hws.
Qed.

Lemma skip_ws_head s d y :
  RefJson.skip_ws s = d :: y -> is_json_ws d = false.
Proof.
  induction s as [| c s IH]; cbn [RefJson.skip_ws]; [discriminate |].
  destruct (is_json_ws c) eqn:E; [exact IH |].
  intro H. inversion H; subst. exact E.
Qed.

Lemma skip_ws_nonws d y : is_json_ws d = false -> RefJson.skip_ws (d :: y) = d :: y.
Proof. intro H. cbn [RefJson.skip_ws]. rewrite H. reflexivity. Qed.

Lemma skip_ws_nil_all s : RefJson.skip_ws s = [] -> forallb is_json_ws s = true.
Proof.
  induction s as [| c s IH]; [reflexivity |].
  cbn [RefJson.skip_ws forallb]. destruct (is_json_ws c); [exact IH |].
  discriminate.
Qed.

Lemma json_ws_all_space ws :
  forallb is_json_ws ws = true -> forallb isspace ws = true.
Proof.
  rewrite !forallb_forall. intros H x Hx.
  apply json_ws_isspace. apply H. exact Hx.
Qed.

Lemma ends_nonspace_snoc c d : isspace d = false -> RefJson.ends_nonspace (c ++ [d]).
Proof. intro H. exists c, d. split; [reflexivity | exact H]. Qed.

Lemma ends_nonspace_app x c : RefJson.ends_nonspace c -> RefJson.ends_nonspace (x ++ c).
Proof.
  intros (c0 & d & -> & H). exists (x ++ c0), d.
  split; [apply app_assoc | exact H].
Qed.

Lemma ends_nonspace_nonempty c : RefJson.ends_nonspace c -> c <> [].
Proof. intros (c0 & d & -> & _). destruct c0; discriminate. Qed.

Lemma is_char_eq n c : RefJson.is_char n c = true -> code c = n.
Proof. unfold RefJson.is_char. apply N.eqb_eq. Qed.

Lemma quote_not_space a : RefJson.is_char 34 a = true -> isspace a = false.
Proof.
  intro H. apply is_char_eq in H. unfold isspace. rewrite H. reflexivity.
Qed.

Ltac scan_rec IH H a :=
  let c := fresh "c" in
  let Ht := fresh "Ht" in
  let He := fresh "He" in
  let Hc := fresh "Hc" in
  apply IH in H; destruct H as (c & Ht & He & Hc);
  exists (a :: c);
  split; [cbn [app]; rewrite <- Ht; reflexivity |];
  split; [apply (ends_nonspace_app [a]); exact He |].

(** A string literal ends at its closing quote, whatever follows. *)
Lemma scan_str_local : forall t st acc x rest,
  RefJson.scan_str st t acc = Some (x, rest) ->
  exists c,
    t = c ++ rest /\ RefJson.ends_nonspace c /\
    forall r', RefJson.scan_str st (c ++ r') acc = Some (x, r').
Proof.
  induction t as [| a t IH]; intros st acc x rest H; [discriminate H |].
  cbn [RefJson.scan_str] in H. destruct st as [| | seen value].
  - destruct (RefJson.is_char 34 a) eqn:E1.
    + inversion H; subst. exists [a].
      split; [reflexivity |].
      split; [apply (ends_nonspace_snoc [] a); apply quote_not_space; exact E1 |].
      intro r'. cbn [app RefJson.scan_str]. rewrite E1. reflexivity.
    + destruct (RefJson.is_char 92 a) eqn:E2.
      * scan_rec IH H a. intro r'. cbn [app RefJson.scan_str].
        rewrite E1, E2. apply Hc.
      * destruct (code a <? 32)%N eqn:E3; [discriminate H |].
        scan_rec IH H a. intro r'. cbn [app RefJson.scan_str].
        rewrite E1, E2, E3. apply Hc.
  - destruct (RefJson.escape a) as [e |] eqn:E1.
    + scan_rec IH H a. intro r'. cbn [app RefJson.scan_str].
      rewrite E1. apply Hc.
    + destruct (RefJson.is_char 117 a) eqn:E2; [| discriminate H].
      scan_rec IH H a. intro r'. cbn [app RefJson.scan_str].
      rewrite E1, E2. apply Hc.
  - destruct (RefJson.hex_digit a) as [d |] eqn:E1; [| discriminate H].
    destruct (seen =? 3)%nat eqn:E2.
    + destruct (16 * value + d <? 256)%N eqn:E3; [| discriminate H].
      scan_rec IH H a. intro r'. cbn [app RefJson.scan_str].
      rewrite E1, E2, E3. apply Hc.
    + scan_rec IH H a. intro r'. cbn [app RefJson.scan_str].
      rewrite E1, E2. apply Hc.
Qed.

(** *** Numbers *)

Lemma digit_not_space d : is_ascii_digit d = true -> isspace d = false.
Proof.
  destruct d as [[] [] [] [] [] [] [] []]; vm_compute; congruence.
Qed.

Lemma zero_is_digit d : RefJson.is_char 48 d = true -> is_ascii_digit d = true.
Proof.
  intro H. apply is_char_eq in H. unfold is_ascii_digit. rewrite H. reflexivity.
Qed.

Lemma scan_digits_split t :
  t = fst (RefJson.scan_digits t) ++ snd (RefJson.scan_digits t)
  /\ forallb is_ascii_digit (fst (RefJson.scan_digits t)) = true
  /\ RefJson.head_not is_ascii_digit (snd (RefJson.scan_digits t)) = true.
Proof.
  induction t as [| a t IH]; [repeat split |].
  cbn [RefJson.scan_digits]. destruct (is_ascii_digit a) eqn:E.
  - destruct (RefJson.scan_digits t) as [ds rest]. cbn [fst snd] in *.
    destruct IH as (Ht & Hds & Hrest). repeat split.
    + cbn [app]. rewrite <- Ht. reflexivity.
    + cbn [forallb]. rewrite E, Hds. reflexivity.
    + exact Hrest.
  - cbn [fst snd app forallb RefJson.head_not]. rewrite E. repeat split.
Qed.

Lemma scan_digits_app ds r :
  forallb is_ascii_digit ds = true ->
  RefJson.head_not is_ascii_digit r = true ->
  RefJson.scan_digits (ds ++ r) = (ds, r).
Proof.
  intros Hds Hr. induction ds as [| d ds IH].
  - destruct r as [| a r]; [reflexivity |].
    cbn [app RefJson.scan_digits]. cbn [RefJson.head_not] in Hr.
    apply negb_true_iff in Hr. rewrite Hr. reflexivity.
  - cbn [forallb] in Hds. apply andb_true_iff in Hds. destruct Hds as [Hd Hds].
    cbn [app RefJson.scan_digits]. rewrite Hd, (IH Hds). reflexivity.
Qed.

Lemma head_not_app p x y :
  x <> [] -> RefJson.head_not p (x ++ y) = RefJson.head_not p x.
Proof. destruct x; [congruence | reflexivity]. Qed.

Lemma digits_end_nonspace ds :
  ds <> [] -> forallb is_ascii_digit ds = true -> RefJson.ends_nonspace ds.
Proof.
  intros Hne Hds. destruct (exists_last Hne) as (c0 & d & ->).
  rewrite forallb_app in Hds. apply andb_true_iff in Hds.
  destruct Hds as [_ Hd]. cbn [forallb] in Hd. rewrite andb_true_r in Hd.
  apply ends_nonspace_snoc. apply digit_not_space. exact Hd.
Qed.

Lemma scan_int_local t ip r1 :
  RefJson.scan_int t = Some (ip, r1) ->
  t = ip ++ r1 /\ ip <> [] /\ forallb is_ascii_digit ip = true /\
  forall r', RefJson.head_not is_ascii_digit r' = true ->
             RefJson.scan_int (ip ++ r') = Some (ip, r').
Proof.
  destruct t as [| a t]; [discriminate |]. cbn [RefJson.scan_int].
  destruct (RefJson.is_char 48 a) eqn:E0.
  - intro H. inversion H; subst. split; [reflexivity |].
    split; [discriminate |]. split.
    + cbn [forallb]. rewrite (zero_is_digit a E0). reflexivity.
    + intros r' _. cbn [app RefJson.scan_int]. rewrite E0. reflexivity.
  - destruct (is_ascii_digit a) eqn:Ed; [| discriminate].
    intro H. inversion H as [H1]. clear H.
    cbn [RefJson.scan_digits] in H1. rewrite Ed in H1.
    pose proof (scan_digits_split t) as Hsplit.
    destruct (RefJson.scan_digits t) as [ds rest]. cbn [fst snd] in Hsplit.
    destruct Hsplit as (Ht & Hds & _). inversion H1; subst ip r1.
    split; [cbn [app]; rewrite <- Ht; reflexivity |].
    split; [discriminate |].
    assert (Hall : forallb is_ascii_digit (a :: ds) = true)
      by (cbn [forallb]; rewrite Ed, Hds; reflexivity).
    split; [exact Hall |].
    intros r' Hr'. cbn [app RefJson.scan_int]. rewrite E0, Ed.
    change (a :: ds ++ r') with ((a :: ds) ++ r').
    rewrite (scan_digits_app _ _ Hall Hr'). reflexivity.
Qed.

Lemma dot_not_digit a : RefJson.is_char 46 a = true -> is_ascii_digit a = false.
Proof.
  intro H. apply is_char_eq in H. unfold is_ascii_digit. rewrite H. reflexivity.
Qed.

Lemma scan_frac_none r' :
  RefJson.head_not (RefJson.is_char 46) r' = true ->
  RefJson.scan_frac r' = ([], r').
Proof.
  destruct r' as [| d r]; [reflexivity |].
  cbn [RefJson.head_not RefJson.scan_frac]. intro H.
  apply negb_true_iff in H. rewrite H. reflexivity.
Qed.

Lemma scan_frac_local r1 frac r2 :
  RefJson.scan_frac r1 = (frac, r2) ->
  r1 = frac ++ r2 /\
  (frac = [] \/
   (RefJson.head_not is_ascii_digit frac = true /\ RefJson.ends_nonspace frac)) /\
  forall r', RefJson.head_not is_ascii_digit r' = true ->
             (frac = [] -> RefJson.head_not (RefJson.is_char 46) r' = true) ->
             RefJson.scan_frac (frac ++ r') = (frac, r').
Proof.
  destruct r1 as [| a r]; cbn [RefJson.scan_frac].
  - intro H. inversion H; subst. split; [reflexivity |].
    split; [left; reflexivity |]. intros r' _ Hdot.
    apply scan_frac_none. apply Hdot. reflexivity.
  - destruct (RefJson.is_char 46 a) eqn:E.
    + pose proof (scan_digits_split r) as Hsplit.
      destruct (RefJson.scan_digits r) as [[| d ds] rest];
        cbn [fst snd] in Hsplit; destruct Hsplit as (Hr & Hds & _);
        intro H; inversion H; subst frac r2.
      * split; [reflexivity |]. split; [left; reflexivity |].
        intros r' _ Hdot. apply scan_frac_none. apply Hdot. reflexivity.
      * split; [cbn [app]; rewrite Hr at 1; reflexivity |].
        split.
        -- right. split.
           ++ cbn [RefJson.head_not]. rewrite (dot_not_digit a E). reflexivity.
           ++ apply (ends_nonspace_app [a] (d :: ds)).
              apply digits_end_nonspace; [discriminate | exact Hds].
        -- intros r' Hr' _. cbn [app RefJson.scan_frac]. rewrite E.
           change (d :: ds ++ r') with ((d :: ds) ++ r').
           rewrite (scan_digits_app _ _ Hds Hr'). reflexivity.
    + intro H. inversion H; subst. split; [reflexivity |].
      split; [left; reflexivity |]. intros r' _ Hdot.
      apply scan_frac_none. apply Hdot. reflexivity.
Qed.

Lemma exp_mark_not_digit a :
  RefJson.is_char 101 a || RefJson.is_char 69 a = true ->
  is_ascii_digit a = false.
Proof.
  intro H. apply orb_true_iff in H.
  destruct H as [H | H]; apply is_char_eq in H;
    unfold is_ascii_digit; rewrite H; reflexivity.
Qed.

Lemma scan_exp_none r' :
  RefJson.head_not RefJson.is_exp_mark r' = true ->
  RefJson.scan_exp r' = ([], r').
Proof.
  destruct r' as [| d r]; [reflexivity |].
  cbn [RefJson.head_not RefJson.scan_exp]. unfold RefJson.is_exp_mark.
  intro H. apply negb_true_iff in H. rewrite H. reflexivity.
Qed.

Lemma scan_exp_local r2 exp r3 :
  RefJson.scan_exp r2 = (exp, r3) ->
  r2 = exp ++ r3 /\
  (exp = [] \/
   (RefJson.head_not is_ascii_digit exp = true /\
    RefJson.head_not (RefJson.is_char 46) exp = true /\
    RefJson.ends_nonspace exp)) /\
  forall r', RefJson.head_not is_ascii_digit r' = true ->
             (exp = [] -> RefJson.head_not RefJson.is_exp_mark r' = true) ->
             RefJson.scan_exp (exp ++ r') = (exp, r').
Proof.
  assert (Hnil : forall x : pystr,
             x = [] ++ x /\
             (([] : pystr) = [] \/
              (RefJson.head_not is_ascii_digit [] = true /\
               RefJson.head_not (RefJson.is_char 46) [] = true /\
               RefJson.ends_nonspace [])) /\
             forall r', RefJson.head_not is_ascii_digit r' = true ->
                        (([] : pystr) = [] ->
                         RefJson.head_not RefJson.is_exp_mark r' = true) ->
                        RefJson.scan_exp ([] ++ r') = ([], r')).
  { intro x. split; [reflexivity |]. split; [left; reflexivity |].
    intros r' _ H. apply scan_exp_none. apply H. reflexivity. }
  destruct r2 as [| c r]; cbn [RefJson.scan_exp].
  - intro H. inversion H; subst. apply Hnil.
  - destruct (RefJson.is_char 101 c || RefJson.is_char 69 c) eqn:E;
      [| intro H; inversion H; subst; apply Hnil].
    assert (Hdot : RefJson.is_char 46 c = false).
    { apply orb_true_iff in E. unfold RefJson.is_char in *.
      destruct E as [E | E]; apply N.eqb_eq in E; rewrite E; reflexivity. }
    destruct r as [| sg r]; [intro H; inversion H; subst; apply Hnil |].
    destruct (RefJson.is_char 43 sg || RefJson.is_char 45 sg) eqn:Es.
    + pose proof (scan_digits_split r) as Hsplit.
      destruct (RefJson.scan_digits r) as [[| d ds] rest];
        cbn [fst snd] in Hsplit; destruct Hsplit as (Hr & Hds & _);
        intro H; inversion H; subst exp r3; [apply Hnil |].
      split; [cbn [app]; rewrite Hr at 1; reflexivity |]. split.
      * right. split; [| split].
        -- cbn [RefJson.head_not]. rewrite (exp_mark_not_digit c E). reflexivity.
        -- cbn [RefJson.head_not]. rewrite Hdot. reflexivity.
        -- apply (ends_nonspace_app [c; sg] (d :: ds)).
           apply digits_end_nonspace; [discriminate | exact Hds].
      * intros r' Hr' _. cbn [app RefJson.scan_exp]. rewrite E, Es.
        change (d :: ds ++ r') with ((d :: ds) ++ r').
        rewrite (scan_digits_app _ _ Hds Hr'). reflexivity.
    + pose proof (scan_digits_split (sg :: r)) as Hsplit.
      destruct (RefJson.scan_digits (sg :: r)) as [[| d ds] rest] eqn:Esc;
        cbn [fst snd] in Hsplit; destruct Hsplit as (Hr & Hds & _);
        intro H; inversion H; subst exp r3; [apply Hnil |].
      assert (Hd : d = sg) by (cbn [app] in Hr; congruence). subst d.
      split; [cbn [app]; rewrite Hr at 1; reflexivity |]. split.
      * right. split; [| split].
        -- cbn [RefJson.head_not]. rewrite (exp_mark_not_digit c E). reflexivity.
        -- cbn [RefJson.head_not]. rewrite Hdot. reflexivity.
        -- apply (ends_nonspace_app [c] (sg :: ds)).
           apply digits_end_nonspace; [discriminate | exact Hds].
      * intros r' Hr' _. cbn [app RefJson.scan_exp]. rewrite E, Es.
        change (sg :: ds ++ r') with ((sg :: ds) ++ r').
        rewrite (scan_digits_app _ _ Hds Hr'). reflexivity.
Qed.

Lemma delimited_heads r :
  RefJson.delimited r = true ->
  RefJson.head_not is_ascii_digit r = true
  /\ RefJson.head_not (RefJson.is_char 46) r = true
  /\ RefJson.head_not RefJson.is_exp_mark r = true.
Proof.
  destruct r as [| d r]; [repeat split |].
  unfold RefJson.delimited, RefJson.head_not, RefJson.is_exp_mark. intro H.
  apply negb_true_iff in H.
  apply orb_false_iff in H. destruct H as [H He2].
  apply orb_false_iff in H. destruct H as [H He1].
  apply orb_false_iff in H. destruct H as [Hd Hdot].
  rewrite Hd, Hdot, He1, He2. repeat split.
Qed.

(** A number ends where its literal ends, as long as what follows cannot
    continue it. *)
Lemma unsigned_number_local negative t v rest :
  RefJson.unsigned_number negative t = Some (v, rest) ->
  RefJson.local (RefJson.unsigned_number negative) RefJson.delimited t v rest.
Proof.
  unfold RefJson.unsigned_number. intro H.
  destruct (RefJson.scan_int t) as [[ip r1] |] eqn:Ei; [| discriminate H].
  destruct (RefJson.scan_frac r1) as [frac r2] eqn:Ef.
  destruct (RefJson.scan_exp r2) as [exp r3] eqn:Ee.
  destruct (scan_int_local _ _ _ Ei) as (Ht & Hip & Hdigits & Hint).
  destruct (scan_frac_local _ _ _ Ef) as (Hr1 & Hfrac & Hfr).
  destruct (scan_exp_local _ _ _ Ee) as (Hr2 & Hexp & Hex).
  assert (Hrest : rest = r3)
    by (destruct frac, exp; inversion H; reflexivity).
  subst rest.
  exists (ip ++ frac ++ exp). split; [| split].
  - rewrite Ht, Hr1, Hr2. rewrite <- !app_assoc. reflexivity.
  - destruct Hexp as [-> | (_ & _ & He)].
    + rewrite app_nil_r. destruct Hfrac as [-> | (_ & He)].
      * rewrite app_nil_r. apply digits_end_nonspace; assumption.
      * apply ends_nonspace_app. exact He.
    + rewrite app_assoc. apply ends_nonspace_app. exact He.
  - intros r' Hr'. destruct (delimited_heads r' Hr') as (Hd & Hdot & Hmark).
    assert (Hexp_d : RefJson.head_not is_ascii_digit (exp ++ r') = true).
    { destruct Hexp as [-> | (He & _ & Hne)]; [exact Hd |].
      rewrite head_not_app by (apply ends_nonspace_nonempty; exact Hne).
      exact He. }
    assert (Hexp_dot : RefJson.head_not (RefJson.is_char 46) (exp ++ r') = true).
    { destruct Hexp as [-> | (_ & He & Hne)]; [exact Hdot |].
      rewrite head_not_app by (apply ends_nonspace_nonempty; exact Hne).
      exact He. }
    assert (Hfrac_d : RefJson.head_not is_ascii_digit (frac ++ exp ++ r') = true).
    { destruct Hfrac as [-> | (Hf & Hne)]; [exact Hexp_d |].
      rewrite head_not_app by (apply ends_nonspace_nonempty; exact Hne).
      exact Hf. }
    rewrite <- !app_assoc.
    rewrite (Hint _ Hfrac_d).
    rewrite (Hfr _ Hexp_d (fun _ => Hexp_dot)).
    rewrite (Hex _ Hd (fun _ => Hmark)).
    destruct frac, exp; inversion H; reflexivity.
Qed.

Lemma digit_or_minus_not_space c :
  RefJson.is_char 45 c = true \/ is_ascii_digit c = true -> isspace c = false.
Proof.
  intros [H | H]; [| apply digit_not_space; exact H].
  apply is_char_eq in H. unfold isspace. rewrite H. reflexivity.
Qed.

Lemma parse_number_local t v rest :
  RefJson.parse_number t = Some (v, rest) ->
  RefJson.local RefJson.parse_number RefJson.delimited t v rest.
Proof.
  destruct t as [| c r]; [discriminate |]. cbn [RefJson.parse_number].
  destruct (RefJson.is_char 45 c) eqn:E; intro H.
  - destruct (unsigned_number_local _ _ _ _ H) as (c1 & Ht & He & Hc).
    exists (c :: c1). split; [cbn [app]; rewrite <- Ht; reflexivity |].
    split; [apply (ends_nonspace_app [c]); exact He |].
    intros r' Hr'. cbn [app RefJson.parse_number]. rewrite E.
    apply Hc. exact Hr'.
  - destruct (unsigned_number_local _ _ _ _ H) as (c1 & Ht & He & Hc).
    exists c1. split; [exact Ht |]. split; [exact He |].
    intros r' Hr'. specialize (Hc r' Hr').
    destruct c1 as [| d c1]; [exfalso; exact (ends_nonspace_nonempty _ He eq_refl) |].
    cbn [app] in Ht. inversion Ht; subst d.
    cbn [app RefJson.parse_number]. rewrite E. exact Hc.
Qed.

(** *** Literal names *)

Lemma ends_nonspace_last c :
  c <> [] -> isspace (last c nl) = false -> RefJson.ends_nonspace c.
Proof.
  intros Hne Hl. destruct (exists_last Hne) as (c0 & d & ->).
  rewrite last_last in Hl. apply ends_nonspace_snoc. exact Hl.
Qed.

Ltac literal_case word H E :=
  let y := fresh "y" in
  let Hy := fresh "Hy" in
  inversion H; subst; clear H;
  destruct (startswith_app_inv _ _ E) as [y Hy]; subst;
  exists (str word);
  split; [reflexivity |];
  split; [apply ends_nonspace_last; [discriminate | reflexivity] |];
  intros r' _; reflexivity.

Lemma parse_literal_local t v rest :
  RefJson.parse_literal RefJson.literals t = Some (v, rest) ->
  RefJson.local (RefJson.parse_literal RefJson.literals) (fun _ => true)
    t v rest.
Proof.
  unfold RefJson.literals. cbn [RefJson.parse_literal]. intro H.
  destruct (startswith (str "null") t) eqn:E1;
    [literal_case "null"%string H E1 |].
  destruct (startswith (str "true") t) eqn:E2;
    [literal_case "true"%string H E2 |].
  destruct (startswith (str "false") t) eqn:E3;
    [literal_case "false"%string H E3 |].
  destruct (startswith (str "NaN") t) eqn:E4;
    [literal_case "NaN"%string H E4 |].
  destruct (startswith (str "Infinity") t) eqn:E5;
    [literal_case "Infinity"%string H E5 |].
  destruct (startswith (str "-Infinity") t) eqn:E6;
    [literal_case "-Infinity"%string H E6 |].
  discriminate H.
Qed.

Lemma literal_none_digit d x :
  is_ascii_digit d = true ->
  RefJson.parse_literal RefJson.literals (d :: x) = None.
Proof.
  destruct d as [[] [] [] [] [] [] [] []]; vm_compute; congruence.
Qed.

Lemma literal_none_minus_digit c d x :
  RefJson.is_char 45 c = true -> is_ascii_digit d = true ->
  RefJson.parse_literal RefJson.literals (c :: d :: x) = None.
Proof.
  intros Hc Hd. apply is_char_eq in Hc.
  assert (Ec : c = chr 45).
  { unfold code in Hc. unfold chr. rewrite <- Hc. symmetry.
    apply ascii_N_embedding. }
  subst c.
  destruct d as [[] [] [] [] [] [] [] []]; vm_compute in Hd;
    try discriminate Hd; reflexivity.
Qed.

Lemma unsigned_number_head negative t v rest :
  RefJson.unsigned_number negative t = Some (v, rest) ->
  exists d t', t = d :: t' /\ is_ascii_digit d = true.
Proof.
  unfold RefJson.unsigned_number.
  destruct (RefJson.scan_int t) as [[ip r1] |] eqn:Ei; [| discriminate].
  intros _. destruct t as [| d t']; [discriminate Ei |].
  exists d, t'. split; [reflexivity |].
  cbn [RefJson.scan_int] in Ei.
  destruct (RefJson.is_char 48 d) eqn:E0; [apply zero_is_digit; exact E0 |].
  destruct (is_ascii_digit d); [reflexivity | discriminate Ei].
Qed.

(** A text that starts a number starts no literal name. *)
Lemma number_not_literal t v rest :
  RefJson.parse_number t = Some (v, rest) ->
  RefJson.parse_literal RefJson.literals t = None.
Proof.
  destruct t as [| c r]; [discriminate |]. cbn [RefJson.parse_number].
  destruct (RefJson.is_char 45 c) eqn:E; intro H.
  - destruct (unsigned_number_head _ _ _ _ H) as (d & t' & -> & Hd).
    apply literal_none_minus_digit; assumption.
  - destruct (unsigned_number_head _ _ _ _ H) as (d & t' & Ht & Hd).
    inversion Ht; subst. apply literal_none_digit. exact Hd.
Qed.

(** *** Values *)

Lemma skip_to_char r d r2 :
  RefJson.skip_ws r = d :: r2 ->
  exists ws,
    r = ws ++ d :: r2 /\ forallb is_json_ws ws = true /\
    is_json_ws d = false /\
    forall y, RefJson.skip_ws (ws ++ d :: y) = d :: y.
Proof.
  intro H. destruct (skip_ws_decomp r) as (ws & Hr & Hws).
  pose proof (skip_ws_head _ _ _ H) as Hd.
  exists ws. rewrite H in Hr. repeat split; try assumption.
  intro y. rewrite (skip_ws_app _ _ Hws). apply skip_ws_nonws. exact Hd.
Qed.

Lemma skip_to_text r c1 rest :
  RefJson.skip_ws r = c1 ++ rest -> c1 <> [] ->
  exists ws,
    r = ws ++ c1 ++ rest /\ forallb is_json_ws ws = true /\
    forall y, RefJson.skip_ws (ws ++ c1 ++ y) = c1 ++ y.
Proof.
  intros H Hne. destruct c1 as [| d c1]; [congruence |].
  cbn [app] in H. destruct (skip_to_char _ _ _ H) as (ws & Hr & Hws & _ & Hs).
  exists ws. split; [exact Hr |]. split; [exact Hws |].
  intro y. cbn [app]. apply Hs.
Qed.

Lemma json_ws_delimited a y : is_json_ws a = true -> RefJson.delimited (a :: y) = true.
Proof.
  unfold is_json_ws. intro H.
  unfold RefJson.delimited, is_ascii_digit, RefJson.is_char.
  repeat (apply orb_true_iff in H; destruct H as [H | H]);
    apply N.eqb_eq in H; rewrite H; reflexivity.
Qed.

Lemma punct_delimited n d y :
  RefJson.is_char n d = true -> (n = 44 \/ n = 93 \/ n = 125)%N ->
  RefJson.delimited (d :: y) = true.
Proof.
  intros H Hn. apply is_char_eq in H.
  unfold RefJson.delimited, is_ascii_digit, RefJson.is_char. rewrite H.
  destruct Hn as [-> | [-> | ->]]; reflexivity.
Qed.

Lemma delimited_after_ws ws d y :
  forallb is_json_ws ws = true -> RefJson.delimited (d :: y) = true ->
  RefJson.delimited (ws ++ d :: y) = true.
Proof.
  destruct ws as [| a ws]; intros Hws Hd; [exact Hd |].
  cbn [forallb] in Hws. apply andb_true_iff in Hws.
  apply json_ws_delimited. tauto.
Qed.

Lemma punct_not_space n d :
  RefJson.is_char n d = true -> (n = 93 \/ n = 125)%N -> isspace d = false.
Proof.
  intros H Hn. apply is_char_eq in H. unfold isspace. rewrite H.
  destruct Hn as [-> | ->]; reflexivity.
Qed.

Lemma local_head parse ok t v rest c0 r :
  RefJson.local parse ok t v rest -> t = c0 :: r ->
  exists c', t = (c0 :: c') ++ rest /\ RefJson.ends_nonspace (c0 :: c') /\
             forall r', ok r' = true -> parse ((c0 :: c') ++ r') = Some (v, r').
Proof.
  intros (c & Ht & He & Hc) Hhead.
  destruct c as [| d c']; [exfalso; exact (ends_nonspace_nonempty _ He eq_refl) |].
  assert (d = c0) by (rewrite Hhead in Ht; cbn [app] in Ht; congruence).
  subst d. exists c'. repeat split; assumption.
Qed.

Lemma parse_value_step f :
  RefJson.elems_local f -> RefJson.members_local f ->
  RefJson.value_local (S f).
Proof.
  intros HE HM t v rest H.
  destruct t as [| c0 r]; [discriminate H |].
  cbn [RefJson.parse_value] in H.
  destruct (RefJson.is_char 34 c0) eqn:E1.
  { destruct (RefJson.scan_str RefJson.Plain r []) as [[x r'] |] eqn:Es;
      [| discriminate H].
    inversion H; subst.
    destruct (scan_str_local _ _ _ _ _ Es) as (c & Hr & He & Hc).
    exists (c0 :: c). split; [cbn [app]; rewrite <- Hr; reflexivity |].
    split; [apply (ends_nonspace_app [c0]); exact He |].
    intros r'' _. cbn [app RefJson.parse_value]. rewrite E1, Hc. reflexivity. }
  destruct (RefJson.is_char 91 c0) eqn:E2.
  { destruct (RefJson.skip_ws r) as [| d r2] eqn:Ek; [discriminate H |].
    destruct (skip_to_char _ _ _ Ek) as (ws & Hr & Hws & Hd & Hskip).
    destruct (RefJson.is_char 93 d) eqn:E3.
    - inversion H; subst.
      exists (c0 :: ws ++ [d]).
      split; [cbn [app]; rewrite <- app_assoc; reflexivity |].
      split.
      { apply (ends_nonspace_app (c0 :: ws) [d]).
        apply (ends_nonspace_snoc [] d).
        apply (punct_not_space 93 d E3). left. reflexivity. }
      intros r'' _. cbn [app RefJson.parse_value]. rewrite E1, E2.
      rewrite <- app_assoc. cbn [app]. rewrite Hskip, E3. reflexivity.
    - destruct (local_head _ _ _ _ _ d r2 (HE _ _ _ _ H) eq_refl)
        as (c' & Ht & He & Hc).
      cbn [app] in Ht. inversion Ht as [Hr2]. subst r.
      exists (c0 :: ws ++ d :: c').
      split; [cbn [app]; rewrite <- app_assoc, Hr2; reflexivity |].
      split; [apply (ends_nonspace_app (c0 :: ws)); exact He |].
      intros r'' _. cbn [app RefJson.parse_value]. rewrite E1, E2.
      rewrite <- app_assoc. cbn [app]. rewrite Hskip, E3.
      apply (Hc r''). reflexivity. }
  destruct (RefJson.is_char 123 c0) eqn:E3.
  { destruct (RefJson.skip_ws r) as [| d r2] eqn:Ek; [discriminate H |].
    destruct (skip_to_char _ _ _ Ek) as (ws & Hr & Hws & Hd & Hskip).
    destruct (RefJson.is_char 125 d) eqn:E4.
    - inversion H; subst.
      exists (c0 :: ws ++ [d]).
      split; [cbn [app]; rewrite <- app_assoc; reflexivity |].
      split.
      { apply (ends_nonspace_app (c0 :: ws) [d]).
        apply (ends_nonspace_snoc [] d).
        apply (punct_not_space 125 d E4). right. reflexivity. }
      intros r'' _. cbn [app RefJson.parse_value]. rewrite E1, E2, E3.
      rewrite <- app_assoc. cbn [app]. rewrite Hskip, E4. reflexivity.
    - destruct (local_head _ _ _ _ _ d r2 (HM _ _ _ _ H) eq_refl)
        as (c' & Ht & He & Hc).
      cbn [app] in Ht. inversion Ht as [Hr2]. subst r.
      exists (c0 :: ws ++ d :: c').
      split; [cbn [app]; rewrite <- app_assoc, Hr2; reflexivity |].
      split; [apply (ends_nonspace_app (c0 :: ws)); exact He |].
      intros r'' _. cbn [app RefJson.parse_value]. rewrite E1, E2, E3.
      rewrite <- app_assoc. cbn [app]. rewrite Hskip, E4.
      apply (Hc r''). reflexivity. }
  destruct (RefJson.parse_literal RefJson.literals (c0 :: r)) as [res |] eqn:El.
  - inversion H; subst res.
    destruct (local_head _ _ _ _ _ c0 r (parse_literal_local _ _ _ El) eq_refl)
      as (c' & Ht & He & Hc).
    exists (c0 :: c'). split; [exact Ht |]. split; [exact He |].
    intros r'' _. cbn [app RefJson.parse_value]. rewrite E1, E2, E3.
    change (c0 :: c' ++ r'') with ((c0 :: c') ++ r'').
    rewrite (Hc r'' eq_refl). reflexivity.
  - destruct (local_head _ _ _ _ _ c0 r (parse_number_local _ _ _ H) eq_refl)
      as (c' & Ht & He & Hc).
    exists (c0 :: c'). split; [exact Ht |]. split; [exact He |].
    intros r'' Hr''. cbn [app RefJson.parse_value]. rewrite E1, E2, E3.
    change (c0 :: c' ++ r'') with ((c0 :: c') ++ r'').
    rewrite (number_not_literal _ _ _ (Hc r'' Hr'')).
    apply Hc. exact Hr''.
Qed.

Ltac reassoc := repeat (first [rewrite <- app_assoc | progress cbn [app]]).

Lemma parse_elems_step f :
  RefJson.value_local f -> RefJson.elems_local f ->
  RefJson.elems_local (S f).
Proof.
  intros HV HE t acc v rest H. cbn [RefJson.parse_elems] in H.
  destruct (RefJson.parse_value f t) as [[v1 r1] |] eqn:Ev; [| discriminate H].
  destruct (HV _ _ _ Ev) as (c1 & Ht & He1 & Hc1).
  destruct (RefJson.skip_ws r1) as [| d r2] eqn:Ek; [discriminate H |].
  destruct (skip_to_char _ _ _ Ek) as (ws & Hr1 & Hws & Hd & Hskip).
  destruct (RefJson.is_char 44 d) eqn:E1.
  - destruct (HE _ _ _ _ H) as (c2 & Hs & He2 & Hc2).
    destruct (skip_to_text _ _ _ Hs (ends_nonspace_nonempty _ He2))
      as (ws2 & Hr2 & Hws2 & Hskip2).
    exists (c1 ++ ws ++ d :: ws2 ++ c2). split; [| split].
    + rewrite Ht, Hr1, Hr2. reassoc. reflexivity.
    + replace (c1 ++ ws ++ d :: ws2 ++ c2)
        with ((c1 ++ ws ++ d :: ws2) ++ c2) by (reassoc; reflexivity).
      apply ends_nonspace_app. exact He2.
    + intros r'' _. cbn [RefJson.parse_elems].
      replace ((c1 ++ ws ++ d :: ws2 ++ c2) ++ r'')
        with (c1 ++ (ws ++ d :: (ws2 ++ c2 ++ r'')))
        by (reassoc; reflexivity).
      rewrite Hc1.
      * rewrite Hskip, E1, Hskip2. apply Hc2. reflexivity.
      * apply delimited_after_ws; [exact Hws |].
        apply (punct_delimited 44 d _ E1). left. reflexivity.
  - destruct (RefJson.is_char 93 d) eqn:E2; [| discriminate H].
    inversion H; subst v rest. clear H.
    exists (c1 ++ ws ++ [d]). split; [| split].
    + rewrite Ht, Hr1. reassoc. reflexivity.
    + replace (c1 ++ ws ++ [d]) with ((c1 ++ ws) ++ [d])
        by (reassoc; reflexivity).
      apply ends_nonspace_snoc.
      apply (punct_not_space 93 d E2). left. reflexivity.
    + intros r'' _. cbn [RefJson.parse_elems].
      replace ((c1 ++ ws ++ [d]) ++ r'') with (c1 ++ (ws ++ d :: r''))
        by (reassoc; reflexivity).
      rewrite Hc1.
      * rewrite Hskip, E1, E2. reflexivity.
      * apply delimited_after_ws; [exact Hws |].
        apply (punct_delimited 93 d _ E2). right. left. reflexivity.
Qed.

Lemma colon_not_ws d : RefJson.is_char 58 d = true -> is_json_ws d = false.
Proof.
  intro H. apply is_char_eq in H. unfold is_json_ws. rewrite H. reflexivity.
Qed.

Lemma parse_members_step f :
  RefJson.value_local f -> RefJson.members_local f ->
  RefJson.members_local (S f).
Proof.
  intros HV HM t acc v rest H.
  destruct t as [| c0 r]; [discriminate H |].
  cbn [RefJson.parse_members] in H.
  destruct (RefJson.is_char 34 c0) eqn:E0; [| discriminate H].
  destruct (RefJson.scan_str RefJson.Plain r []) as [[k r1] |] eqn:Es;
    [| discriminate H].
  destruct (scan_str_local _ _ _ _ _ Es) as (cs & Hr & Hes & Hcs).
  destruct (RefJson.skip_ws r1) as [| d r2] eqn:Ek1; [discriminate H |].
  destruct (skip_to_char _ _ _ Ek1) as (ws1 & Hr1 & Hws1 & Hd & Hskip1).
  destruct (RefJson.is_char 58 d) eqn:E1; [| discriminate H].
  destruct (RefJson.parse_value f (RefJson.skip_ws r2)) as [[v1 r3] |] eqn:Ev;
    [| discriminate H].
  destruct (HV _ _ _ Ev) as (cv & Hsv & Hev & Hcv).
  destruct (skip_to_text _ _ _ Hsv (ends_nonspace_nonempty _ Hev))
    as (ws2 & Hr2 & Hws2 & Hskip2).
  destruct (RefJson.skip_ws r3) as [| e r4] eqn:Ek3; [discriminate H |].
  destruct (skip_to_char _ _ _ Ek3) as (ws3 & Hr3 & Hws3 & He & Hskip3).
  destruct (RefJson.is_char 44 e) eqn:E2.
  - destruct (HM _ _ _ _ H) as (cm & Hsm & Hem & Hcm).
    destruct (skip_to_text _ _ _ Hsm (ends_nonspace_nonempty _ Hem))
      as (ws4 & Hr4 & Hws4 & Hskip4).
    exists (c0 :: cs ++ ws1 ++ d :: ws2 ++ cv ++ ws3 ++ e :: ws4 ++ cm).
    split; [| split].
    + rewrite Hr, Hr1, Hr2, Hr3, Hr4. reassoc. reflexivity.
    + replace (c0 :: cs ++ ws1 ++ d :: ws2 ++ cv ++ ws3 ++ e :: ws4 ++ cm)
        with ((c0 :: cs ++ ws1 ++ d :: ws2 ++ cv ++ ws3 ++ e :: ws4) ++ cm)
        by (reassoc; reflexivity).
      apply ends_nonspace_app. exact Hem.
    + intros r'' _. cbn [app RefJson.parse_members]. rewrite E0.
      replace ((cs ++ ws1 ++ d :: ws2 ++ cv ++ ws3 ++ e :: ws4 ++ cm) ++ r'')
        with (cs ++ (ws1 ++ d :: (ws2 ++ cv ++ (ws3 ++ e :: (ws4 ++ cm ++ r'')))))
        by (reassoc; reflexivity).
      rewrite Hcs, Hskip1, E1, Hskip2.
      rewrite Hcv.
      * rewrite Hskip3, E2, Hskip4. apply Hcm. reflexivity.
      * apply delimited_after_ws; [exact Hws3 |].
        apply (punct_delimited 44 e _ E2). left. reflexivity.
  - destruct (RefJson.is_char 125 e) eqn:E3; [| discriminate H].
    inversion H; subst v rest. clear H.
    exists (c0 :: cs ++ ws1 ++ d :: ws2 ++ cv ++ ws3 ++ [e]).
    split; [| split].
    + rewrite Hr, Hr1, Hr2, Hr3. reassoc. reflexivity.
    + replace (c0 :: cs ++ ws1 ++ d :: ws2 ++ cv ++ ws3 ++ [e])
        with ((c0 :: cs ++ ws1 ++ d :: ws2 ++ cv ++ ws3) ++ [e])
        by (reassoc; reflexivity).
      apply ends_nonspace_snoc.
      apply (punct_not_space 125 e E3). right. reflexivity.
    + intros r'' _. cbn [app RefJson.parse_members]. rewrite E0.
      replace ((cs ++ ws1 ++ d :: ws2 ++ cv ++ ws3 ++ [e]) ++ r'')
        with (cs ++ (ws1 ++ d :: (ws2 ++ cv ++ (ws3 ++ e :: r''))))
        by (reassoc; reflexivity).
      rewrite Hcs, Hskip1, E1, Hskip2.
      rewrite Hcv.
      * rewrite Hskip3, E2, E3. reflexivity.
      * apply delimited_after_ws; [exact Hws3 |].
        apply (punct_delimited 125 e _ E3). right. right. reflexivity.
Qed.

(** Every parser of the decoder reads a prefix that ends in a non-blank
    character and does not look past it, except to see that a number has
    ended. *)
Lemma parse_local f :
  RefJson.value_local f /\ RefJson.elems_local f /\ RefJson.members_local f.
Proof.
  induction f as [| f (HV & HE & HM)].
  - repeat split; intros ? ? ? ?; try intro; discriminate.
  - split; [apply parse_value_step; assumption |].
    split; [apply parse_elems_step; assumption |].
    apply parse_members_step; assumption.
Qed.

(** *** The two laws *)

Lemma value_head_other f c0 r :
  RefJson.is_char 34 c0 = false ->
  RefJson.is_char 91 c0 = false ->
  RefJson.is_char 123 c0 = false ->
  RefJson.parse_literal RefJson.literals (c0 :: r) = None ->
  RefJson.parse_number (c0 :: r) = None ->
  RefJson.parse_value (S f) (c0 :: r) = None.
Proof.
  intros E1 E2 E3 El En. cbn [RefJson.parse_value].
  rewrite E1, E2, E3, El. exact En.
Qed.

Lemma is_char_chr n c : RefJson.is_char n c = true -> c = chr n.
Proof.
  intro H. apply is_char_eq in H. unfold code in H. unfold chr.
  rewrite <- H. symmetry. apply ascii_N_embedding.
Qed.

Lemma space_is_not n c :
  isspace c = true -> isspace (chr n) = false -> RefJson.is_char n c = false.
Proof.
  intros Hc Hn. destruct (RefJson.is_char n c) eqn:E; [| reflexivity].
  apply is_char_chr in E. subst c. rewrite Hc in Hn. discriminate Hn.
Qed.

Lemma literal_none_space c x :
  isspace c = true -> RefJson.parse_literal RefJson.literals (c :: x) = None.
Proof.
  destruct c as [[] [] [] [] [] [] [] []]; vm_compute; congruence.
Qed.

Lemma number_none_space c x :
  isspace c = true -> RefJson.parse_number (c :: x) = None.
Proof.
  intro Hc. cbn [RefJson.parse_number].
  rewrite (space_is_not 45 c Hc eq_refl).
  unfold RefJson.unsigned_number. cbn [RefJson.scan_int].
  rewrite (space_is_not 48 c Hc eq_refl).
  destruct (is_ascii_digit c) eqn:E; [| reflexivity].
  rewrite (digit_not_space c E) in Hc. discriminate Hc.
Qed.

Lemma value_head_not_space f c0 r :
  isspace c0 = true -> RefJson.parse_value (S f) (c0 :: r) = None.
Proof.
  intro Hc. apply value_head_other.
  - exact (space_is_not 34 c0 Hc eq_refl).
  - exact (space_is_not 91 c0 Hc eq_refl).
  - exact (space_is_not 123 c0 Hc eq_refl).
  - exact (literal_none_space c0 r Hc).
  - exact (number_none_space c0 r Hc).
Qed.

Lemma value_head_backtick f r :
  RefJson.parse_value (S f) (backtick :: r) = None.
Proof. apply value_head_other; reflexivity. Qed.

Lemma not_space_not_json_ws c : isspace c = false -> is_json_ws c = false.
Proof.
  intro H. destruct (is_json_ws c) eqn:E; [| reflexivity].
  rewrite (json_ws_isspace c E) in H. discriminate H.
Qed.

(** What the decoder consumed of a document is the document stripped. *)
Lemma loads_consumed fuel s v :
  RefJson.loads fuel s = Some v ->
  RefJson.parse_value fuel (strip s) = Some (v, [])
  /\ RefJson.skip_ws (strip s) = strip s.
Proof.
  unfold RefJson.loads. intro H.
  destruct (RefJson.parse_value fuel (RefJson.skip_ws s)) as [[v' rest] |] eqn:Ev;
    [| discriminate H].
  destruct (RefJson.skip_ws rest) eqn:Er; [| discriminate H].
  inversion H; subst v'. clear H.
  destruct (proj1 (parse_local fuel) _ _ _ Ev) as (c & Ht & He & Hc).
  destruct (skip_ws_decomp s) as (ws0 & Hs & Hws0).
  apply skip_ws_nil_all in Er.
  destruct c as [| c0 c']; [exfalso; exact (ends_nonspace_nonempty _ He eq_refl) |].
  assert (Hc0 : isspace c0 = false).
  { destruct (isspace c0) eqn:E; [| reflexivity].
    destruct fuel as [| f]; [discriminate Ev |].
    rewrite Ht in Ev. cbn [app] in Ev.
    rewrite (value_head_not_space f c0 _ E) in Ev. discriminate Ev. }
  assert (Hstrip : strip s = c0 :: c').
  { unfold strip. rewrite Hs, Ht, lstrip_app.
    assert (Hl : lstrip ws0 = [])
      by (apply lstrip_nil_iff; apply json_ws_all_space; exact Hws0).
    rewrite Hl. cbn [app lstrip]. rewrite Hc0.
    change (c0 :: c' ++ rest) with ((c0 :: c') ++ rest).
    rewrite (rstrip_app_space _ _ (json_ws_all_space _ Er)).
    destruct He as (x & d & -> & Hd). apply rstrip_snoc. exact Hd. }
  rewrite Hstrip. split.
  - rewrite <- (app_nil_r (c0 :: c')). apply Hc. reflexivity.
  - apply skip_ws_nonws. apply not_space_not_json_ws. exact Hc0.
Qed.

Lemma ref_loads_strip fuel s v :
  RefJson.loads fuel s = Some v -> RefJson.loads fuel (strip s) = Some v.
Proof.
  intro H. destruct (loads_consumed fuel s v H) as [Hp Hk].
  unfold RefJson.loads. rewrite Hk, Hp. reflexivity.
Qed.

Lemma ref_loads_unfenced fuel s v :
  RefJson.loads fuel s = Some v -> startswith fence s = false.
Proof.
  intro H. destruct (startswith fence s) eqn:E; [| reflexivity].
  destruct (startswith_app_inv _ _ E) as [y ->].
  unfold RefJson.loads in H.
  change (RefJson.skip_ws (fence ++ y)) with (backtick :: backtick :: backtick :: y) in H.
  destruct fuel as [| f]; [discriminate H |].
  rewrite value_head_backtick in H. discriminate H.
Qed.

Lemma runtime_loads s :
  json_loads (Runtime := RefRuntime.runtime) s = RefJson.loads 1000 s.
Proof. reflexivity. Qed.

Lemma ref_runtime_laws : JsonLaws RefRuntime.runtime.
Proof.
  split; intros s v; rewrite ?runtime_loads.
  - apply ref_loads_strip.
  - apply ref_loads_unfenced.
Qed.

Lemma cleaner_round_trip_witness :
  let s := Examples.parsed_reply in
  let v := Examples.parsed_value in
  let tag := str "json" in
  json_loads (Runtime := RefRuntime.runtime) s = Some v
  /\ one_line tag = true
  /\ cleans_to (R := RefRuntime.runtime) s v
  /\ cleans_to (R := RefRuntime.runtime) (fenced tag s) v
  /\ contains fence s = false
  /\ cleans_to (R := RefRuntime.runtime) (fenced_open tag s) v.
Proof.
  intros s v tag.
  assert (Hs : json_loads (Runtime := RefRuntime.runtime) s = Some v)
    by (rewrite runtime_loads; vm_compute; reflexivity).
  assert (Hno : contains fence s = false) by (vm_compute; reflexivity).
  destruct (cleaner_round_trip (L := ref_runtime_laws) s v tag Hs eq_refl)
    as (H1 & H2 & H3).
  split; [exact Hs |]. split; [reflexivity |]. split; [exact H1 |].
  split; [exact H2 |]. split; [exact Hno | exact (H3 Hno)].
Defined.

(** * Further properties *)

(** ** recipe_cli.py: how a run ends *)

Section RecipeCliRuns.

Context {R : Runtime}.
Variable w : World.

Lemma extract_run url st :
  RecipeCli.extract_recipe_text w url st =
  (match requests_get w url with
   | Ok resp =>
       if ((400 <=? status_code resp) && (status_code resp <? 600))%Z
       then Raise (Exn RequestException (http_error_msg resp))
       else Ok (soup_text_stripped (response_text resp))
   | Raise e => Raise e
   end,
   St (log st ++ [HttpGet url]) (driver st)).
Proof.
  unfold RecipeCli.extract_recipe_text, bind. rewrite http_get_run.
  destruct (requests_get w url) as [resp | e]; [| reflexivity].
  unfold raise_for_status.
  destruct ((400 <=? status_code resp) && (status_code resp <? 600))%Z;
    reflexivity.
Qed.

Lemma call_claude_run prompt st :
  RecipeCli.call_claude w prompt st =
  (match messages_create w (count_events is_model_call (log st))
           (prompt ++ RecipeCli.json_suffix) with
   | Ok reply =>
       match json_loads (RecipeCli.clean reply) with
       | Some v => Ok v
       | None =>
           Raise (Exn JSONDecodeError (json_error_msg (RecipeCli.clean reply)))
       end
   | Raise e => Raise e
   end,
   St (log st ++ [ModelCall (prompt ++ RecipeCli.json_suffix)]) (driver st)).
Proof.
  unfold RecipeCli.call_claude, bind. rewrite model_call_run.
  destruct (messages_create w _ _) as [reply | e]; [| reflexivity].
  unfold loads. destruct (json_loads (RecipeCli.clean reply)); reflexivity.
Qed.

Lemma handler_run e st :
  RecipeCli.handler e st = (Ok (RecipeCli.failure (error_text e)), st).
Proof.
  unfold RecipeCli.handler, error_text.
  destruct (exn_kind_of e); reflexivity.
Qed.

(** The happy path of the [try] block: the page is fetched and both
    replies decode to dicts. *)
Lemma pipeline_happy url servings st resp reply1 parsed reply2 scaled :
  requests_get w url = Ok resp ->
  ((400 <=? status_code resp) && (status_code resp <? 600))%Z = false ->
  let n := count_events is_model_call (log st) in
  let prompt1 :=
    RecipeCli.parse_prompt (soup_text_stripped (response_text resp))
      ++ RecipeCli.json_suffix in
  let prompt2 :=
    RecipeCli.scale_prompt (get_or "original_servings" (JInt 4) parsed)
      servings (JObject parsed) ++ RecipeCli.json_suffix in
  messages_create w n prompt1 = Ok reply1 ->
  json_loads (RecipeCli.clean reply1) = Some (JObject parsed) ->
  messages_create w (S n) prompt2 = Ok reply2 ->
  json_loads (RecipeCli.clean reply2) = Some (JObject scaled) ->
  RecipeCli.pipeline w url servings st =
  (Ok (RecipeCli.success_result url servings parsed scaled),
   St (log st ++ [HttpGet url; ModelCall prompt1; ModelCall prompt2])
      (driver st)).
Proof.
  intros Hget Hst n prompt1 prompt2 Hm1 Hl1 Hm2 Hl2.
  unfold RecipeCli.pipeline.
  erewrite bind_ok by (rewrite extract_run, Hget, Hst; reflexivity).
  erewrite bind_ok.
  2:{ rewrite call_claude_run. cbn [log driver].
      rewrite count_events_snoc. cbn [is_http_get is_model_call].
      fold n. fold prompt1. rewrite Hm1, Hl1. reflexivity. }
  erewrite bind_ok by reflexivity.
  erewrite bind_ok.
  2:{ rewrite call_claude_run. cbn [log driver].
      rewrite !count_events_snoc. cbn [is_http_get is_model_call].
      fold n. cbn [py_get]. fold prompt2.
      rewrite Hm2, Hl2. reflexivity. }
  cbn [log driver]. rewrite <- !app_assoc. reflexivity.
Qed.

(** C5 (recipe_cli.py): [process_recipe] never raises; it always returns a
    result dict.  Without a key that is the failure "ANTHROPIC_API_KEY not
    set", and nothing is called.  With a key it is the success dict when
    the [try] block returns, which it does on the happy path (the page is
    fetched and both replies decode to dicts), and otherwise the failure
    dict with the error string of the exception the block raised. *)
Theorem process_recipe_never_raises url servings st :
  (exists r st',
      RecipeCli.process_recipe w url servings st = (Ok r, st') /\
      match getenv_api_key w with
      | Some (_ :: _) =>
          match RecipeCli.pipeline w url servings st with
          | (Ok res, st1) =>
              r = res /\ st' = st1 /\
              py_get r "success" JNull = Ok (JBool true) /\
              exists parsed scaled,
                r = RecipeCli.success_result url servings parsed scaled
          | (Raise e, st1) =>
              r = RecipeCli.failure (error_text e) /\ st' = st1 /\
              py_get r "success" JNull = Ok (JBool false) /\
              py_get r "error" JNull = Ok (JString (error_text e))
          end
      | _ =>
          r = RecipeCli.failure (str "ANTHROPIC_API_KEY not set") /\ st' = st
      end)
  /\ (forall c k resp reply1 parsed reply2 scaled,
        getenv_api_key w = Some (c :: k) ->
        requests_get w url = Ok resp ->
        ((400 <=? status_code resp) && (status_code resp <? 600))%Z = false ->
        let n := count_events is_model_call (log st) in
        let prompt1 :=
          RecipeCli.parse_prompt (soup_text_stripped (response_text resp))
            ++ RecipeCli.json_suffix in
        let prompt2 :=
          RecipeCli.scale_prompt (get_or "original_servings" (JInt 4) parsed)
            servings (JObject parsed) ++ RecipeCli.json_suffix in
        messages_create w n prompt1 = Ok reply1 ->
        json_loads (RecipeCli.clean reply1) = Some (JObject parsed) ->
        messages_create w (S n) prompt2 = Ok reply2 ->
        json_loads (RecipeCli.clean reply2) = Some (JObject scaled) ->
        RecipeCli.process_recipe w url servings st =
        (Ok (RecipeCli.success_result url servings parsed scaled),
         St (log st ++ [HttpGet url; ModelCall prompt1; ModelCall prompt2])
            (driver st))).
Proof.
  split.
  - unfold RecipeCli.process_recipe.
    destruct (getenv_api_key w) as [[| c k] |].
    + eexists _, _. split; [reflexivity |]. split; reflexivity.
    + unfold try_catch.
      destruct (RecipeCli.pipeline w url servings st) as [[r | e] st1] eqn:E.
      * exists r, st1. split; [reflexivity |].
        apply pipeline_ok_inv in E.
        destruct E as (resp & reply1 & parsed & reply2 & scaled & H).
        cbv zeta in H. destruct H as (_ & _ & _ & _ & _ & -> & _).
        split; [reflexivity |]. split; [reflexivity |].
        split; [reflexivity |]. exists parsed, scaled. reflexivity.
      * exists (RecipeCli.failure (error_text e)), st1.
        split; [apply handler_run |]. repeat split.
    + eexists _, _. split; [reflexivity |]. split; reflexivity.
  - intros c k resp reply1 parsed reply2 scaled Hk Hget Hst n prompt1 prompt2
      Hm1 Hl1 Hm2 Hl2.
    unfold RecipeCli.process_recipe. rewrite Hk. unfold try_catch.
    rewrite (pipeline_happy url servings st resp reply1 parsed reply2 scaled
               Hget Hst Hm1 Hl1 Hm2 Hl2).
    reflexivity.
Qed.

(** The first reply does not decode: the run ends with the parse error
    after one HTTP GET and one model call. *)
Theorem undecodable_first_reply url servings st c k resp reply :
  getenv_api_key w = Some (c :: k) ->
  requests_get w url = Ok resp ->
  ((400 <=? status_code resp) && (status_code resp <? 600))%Z = false ->
  let prompt1 :=
    RecipeCli.parse_prompt (soup_text_stripped (response_text resp))
      ++ RecipeCli.json_suffix in
  messages_create w (count_events is_model_call (log st)) prompt1 = Ok reply ->
  json_loads (RecipeCli.clean reply) = None ->
  RecipeCli.process_recipe w url servings st =
  (Ok (RecipeCli.failure
         (str "Failed to parse Claude response: "
            ++ json_error_msg (RecipeCli.clean reply))),
   St (log st ++ [HttpGet url; ModelCall prompt1]) (driver st)).
Proof.
  intros Hk Hget Hst prompt1 Hm Hl.
  unfold RecipeCli.process_recipe. rewrite Hk.
  unfold try_catch, RecipeCli.pipeline.
  erewrite bind_ok by (rewrite extract_run, Hget, Hst; reflexivity).
  erewrite bind_raise.
  2:{ rewrite call_claude_run. cbn [log driver].
      rewrite count_events_snoc. cbn [is_http_get is_model_call].
      fold prompt1. rewrite Hm, Hl. reflexivity. }
  cbn [RecipeCli.handler exn_kind_of exn_msg ret].
  rewrite <- app_assoc. reflexivity.
Qed.

(** The first reply decodes to something that is no dict: the run ends
    with the text of the [AttributeError], before the scaling call. *)
Theorem first_reply_not_a_dict url servings st c k resp reply v :
  getenv_api_key w = Some (c :: k) ->
  requests_get w url = Ok resp ->
  ((400 <=? status_code resp) && (status_code resp <? 600))%Z = false ->
  let prompt1 :=
    RecipeCli.parse_prompt (soup_text_stripped (response_text resp))
      ++ RecipeCli.json_suffix in
  messages_create w (count_events is_model_call (log st)) prompt1 = Ok reply ->
  json_loads (RecipeCli.clean reply) = Some v ->
  is_dict v = false ->
  RecipeCli.process_recipe w url servings st =
  (Ok (RecipeCli.failure
         (str "'" ++ type_name v ++ str "' object has no attribute 'get'")),
   St (log st ++ [HttpGet url; ModelCall prompt1]) (driver st)).
Proof.
  intros Hk Hget Hst prompt1 Hm Hl Hd.
  unfold RecipeCli.process_recipe. rewrite Hk.
  unfold try_catch, RecipeCli.pipeline.
  erewrite bind_ok by (rewrite extract_run, Hget, Hst; reflexivity).
  erewrite bind_ok.
  2:{ rewrite call_claude_run. cbn [log driver].
      rewrite count_events_snoc. cbn [is_http_get is_model_call].
      fold prompt1. rewrite Hm, Hl. reflexivity. }
  erewrite bind_raise.
  2:{ unfold lift. destruct v; try discriminate Hd; reflexivity. }
  cbn [RecipeCli.handler exn_kind_of exn_msg ret no_attribute].
  rewrite <- app_assoc. reflexivity.
Qed.

Lemma stateless_ret {A} (a : A) : stateless (ret a).
Proof. intro st. reflexivity. Qed.

Lemma stateless_lift {A} (o : outcome A) : stateless (lift o).
Proof. intro st. reflexivity. Qed.

Lemma stateless_bind {A B} (m : M A) (k : A -> M B) :
  stateless m -> (forall a, stateless (k a)) -> stateless (bind m k).
Proof.
  intros Hm Hk st. unfold bind. specialize (Hm st).
  destruct (m st) as [[a | e] st1]; cbn [snd] in *; subst st1.
  - apply Hk.
  - reflexivity.
Qed.

Lemma stateless_handler e : stateless (RecipeCli.handler e).
Proof.
  intro st. unfold RecipeCli.handler. destruct (exn_kind_of e); reflexivity.
Qed.

Lemma try_catch_state {A} (m : M A) (h : exn -> M A) st :
  (forall e, stateless (h e)) ->
  snd (try_catch m h st) = snd (m st).
Proof.
  intro Hh. unfold try_catch. destruct (m st) as [[a | e] st1]; cbn [snd].
  - reflexivity.
  - apply Hh.
Qed.

Lemma extract_state url st :
  snd (RecipeCli.extract_recipe_text w url st)
  = St (log st ++ [HttpGet url]) (driver st).
Proof. rewrite extract_run. reflexivity. Qed.

Lemma call_claude_state prompt st :
  snd (RecipeCli.call_claude w prompt st)
  = St (log st ++ [ModelCall (prompt ++ RecipeCli.json_suffix)]) (driver st).
Proof. rewrite call_claude_run. reflexivity. Qed.

(** The state after the [try] block, however it ended. *)
Lemma pipeline_state url servings st :
  exists evs,
    snd (RecipeCli.pipeline w url servings st)
    = St (log st ++ evs) (driver st)
    /\ cli_calls url evs /\ evs <> [].
Proof.
  unfold RecipeCli.pipeline, bind at 1.
  pose proof (extract_state url st) as H1.
  destruct (RecipeCli.extract_recipe_text w url st) as [[text | e] st1];
    cbn [snd] in H1; subst st1.
  2:{ exists [HttpGet url]. split; [reflexivity |].
      split; [right; left; reflexivity | discriminate]. }
  unfold bind at 1.
  pose proof (call_claude_state (RecipeCli.parse_prompt text)
                (St (log st ++ [HttpGet url]) (driver st))) as H2.
  destruct (RecipeCli.call_claude w (RecipeCli.parse_prompt text) _)
    as [[parsed | e] st2]; cbn [snd log driver] in H2; subst st2.
  2:{ eexists [HttpGet url; ModelCall _]. split.
      - cbn [snd]. rewrite <- app_assoc. reflexivity.
      - split; [right; right; left; eexists; reflexivity | discriminate]. }
  unfold bind at 1. unfold lift at 1.
  destruct (py_get parsed "original_servings" (JInt 4)) as [orig | e].
  2:{ eexists [HttpGet url; ModelCall _]. split.
      - cbn [snd]. rewrite <- app_assoc. reflexivity.
      - split; [right; right; left; eexists; reflexivity | discriminate]. }
  unfold bind at 1.
  pose proof (call_claude_state
                (RecipeCli.scale_prompt orig servings parsed)
                (St ((log st ++ [HttpGet url])
                       ++ [ModelCall (RecipeCli.parse_prompt text
                                        ++ RecipeCli.json_suffix)])
                    (driver st))) as H3.
  destruct (RecipeCli.call_claude w
              (RecipeCli.scale_prompt orig servings parsed) _)
    as [[scaled | e] st3]; cbn [snd log driver] in H3; subst st3.
  2:{ eexists [HttpGet url; ModelCall _; ModelCall _]. split.
      - cbn [snd]. rewrite <- !app_assoc. reflexivity.
      - split; [right; right; right; eexists _, _; reflexivity | discriminate]. }
  eexists [HttpGet url; ModelCall _; ModelCall _]. split.
  - match goal with
    | |- snd (?m ?s) = _ =>
        assert (Hs : stateless m)
    end.
    { repeat (apply stateless_bind; [apply stateless_lift | intro]).
      apply stateless_ret. }
    rewrite Hs. rewrite <- !app_assoc. reflexivity.
  - split; [right; right; right; eexists _, _; reflexivity | discriminate].
Qed.

(** Every run of [process_recipe] makes its external calls in one order:
    at most one HTTP GET, then at most two model calls; the browser is
    never touched. *)
Theorem process_recipe_calls url servings st :
  exists evs,
    snd (RecipeCli.process_recipe w url servings st)
    = St (log st ++ evs) (driver st)
    /\ cli_calls url evs.
Proof.
  unfold RecipeCli.process_recipe.
  destruct (getenv_api_key w) as [[| c k] |].
  - exists []. rewrite app_nil_r. split; [destruct st; reflexivity | left; reflexivity].
  - destruct (pipeline_state url servings st) as (evs & Hs & Hc & _).
    exists evs. split; [| exact Hc].
    rewrite try_catch_state by apply stateless_handler. exact Hs.
  - exists []. rewrite app_nil_r. split; [destruct st; reflexivity | left; reflexivity].
Qed.

End RecipeCliRuns.

(** ** The response cleaners at their edges *)

Lemma lstrip_idempotent s : lstrip (lstrip s) = lstrip s.
Proof.
  induction s as [| c s IH]; [reflexivity |].
  cbn [lstrip]. destruct (isspace c) eqn:E; [exact IH |].
  cbn [lstrip]. rewrite E. reflexivity.
Qed.

Lemma rstrip_idempotent s : rstrip (rstrip s) = rstrip s.
Proof.
  unfold rstrip. rewrite rev_involutive, lstrip_idempotent. reflexivity.
Qed.

Lemma lstrip_head s c u : lstrip s = c :: u -> isspace c = false.
Proof.
  induction s as [| a s IH]; cbn [lstrip]; [discriminate |].
  destruct (isspace a) eqn:E; [exact IH |].
  intro H. inversion H; subst. exact E.
Qed.

Lemma lstrip_strip s : lstrip (strip s) = strip s.
Proof.
  unfold strip. destruct (rstrip_decomp (lstrip s)) as (b & Hdec & _).
  destruct (rstrip (lstrip s)) as [| c u] eqn:E; [reflexivity |].
  cbn [app] in Hdec. apply lstrip_head in Hdec.
  cbn [lstrip]. rewrite Hdec. reflexivity.
Qed.

Lemma strip_idempotent s : strip (strip s) = strip s.
Proof.
  unfold strip at 1. rewrite lstrip_strip. unfold strip.
  apply rstrip_idempotent.
Qed.

Lemma strip_space_app a x : forallb isspace a = true -> strip (a ++ x) = strip x.
Proof.
  intro Ha. unfold strip. rewrite lstrip_app.
  apply lstrip_nil_iff in Ha. rewrite Ha. reflexivity.
Qed.

Lemma split1_nl_one_line s : one_line s = true -> split1_nl s = [s].
Proof.
  unfold one_line. induction s as [| c s IH]; [reflexivity |].
  cbn [forallb split1_nl]. intro H. apply andb_true_iff in H.
  destruct H as [Hc Hs]. apply negb_true_iff in Hc. rewrite Hc.
  rewrite (IH Hs). reflexivity.
Qed.

Lemma strip_fence_line tail : strip (fence ++ tail) = fence ++ rstrip tail.
Proof.
  unfold strip. change (lstrip (fence ++ tail)) with (fence ++ tail).
  rewrite rstrip_app. destruct (rstrip tail); reflexivity.
Qed.

(** What both cleaners hand to [json.loads] has no whitespace around it. *)
Theorem cleaned_text_is_stripped reply :
  strip (RecipeCli.clean reply) = RecipeCli.clean reply
  /\ forall text, Main.clean reply = Ok text -> strip text = text.
Proof.
  split.
  - unfold RecipeCli.clean. apply strip_idempotent.
  - unfold Main.clean. intro text.
    destruct (startswith fence reply).
    + destruct (Main.after_first_line reply) as [t | e]; [| discriminate].
      destruct (endswith fence t); [| destruct (contains fence t)];
        intro H; inversion H; apply strip_idempotent.
    + intro H. inversion H. apply strip_idempotent.
Qed.

(** recipe_cli.py strips the reply first, so whitespace around the reply
    changes nothing. *)
Theorem cli_clean_ignores_outer_space a reply b :
  forallb isspace a = true -> forallb isspace b = true ->
  RecipeCli.clean (a ++ reply ++ b) = RecipeCli.clean reply.
Proof.
  intros Ha Hb. unfold RecipeCli.clean.
  rewrite (strip_space_app a _ Ha), (strip_app_space reply b Hb).
  reflexivity.
Qed.

(** A reply that is a fence line and nothing more: main.py fails with
    [IndexError] on [split(...)[1]], recipe_cli.py hands the empty text
    to [json.loads]. *)
Theorem lone_fence_line tail :
  one_line tail = true ->
  Main.clean (fence ++ tail)
    = Raise (Exn IndexError (str "list index out of range"))
  /\ RecipeCli.clean (fence ++ tail) = [].
Proof.
  intro Ht. split.
  - unfold Main.clean. rewrite startswith_app. unfold Main.after_first_line.
    rewrite (split1_nl_one_line _ (one_line_fence_tag tail Ht)). reflexivity.
  - unfold RecipeCli.clean. rewrite strip_fence_line, startswith_app.
    rewrite split_nl_one_line
      by (apply one_line_fence_tag; apply one_line_rstrip; exact Ht).
    reflexivity.
Qed.

Section CleanerEdges.

Context {R : Runtime} {L : JsonLaws R}.

Lemma fenced_text_does_not_decode x : json_loads (fence ++ x) = None.
Proof.
  destruct (json_loads (fence ++ x)) as [v |] eqn:E; [| reflexivity].
  apply loads_unfenced in E. rewrite startswith_app in E. discriminate E.
Qed.

(** main.py tests for the fence before stripping: with whitespace in
    front of the opening fence the fences stay in the text, which then
    does not decode. *)
Theorem main_clean_keeps_indented_fences a tag s :
  a <> [] -> forallb isspace a = true ->
  Main.clean (a ++ fenced tag s) = Ok (fenced tag s)
  /\ json_loads (fenced tag s) = None.
Proof.
  intros Hne Ha. split.
  - unfold Main.clean.
    assert (Hs : startswith fence (a ++ fenced tag s) = false).
    { destruct a as [| c a]; [congruence |].
      cbn [forallb] in Ha. apply andb_true_iff in Ha. destruct Ha as [Hc _].
      cbn [app fence startswith].
      destruct (ascii_eqb backtick c) eqn:E; [| reflexivity].
      apply ascii_eqb_eq in E. subst c. discriminate Hc. }
    rewrite Hs. rewrite (strip_space_app a _ Ha).
    rewrite (fenced_shape tag s), strip_fenced. reflexivity.
  - unfold fenced. apply fenced_text_does_not_decode.
Qed.

End CleanerEdges.

(** ** main.py: parsing and scaling *)

Section MainRuns.

Context {R : Runtime}.
Variable w : World.
Variable self : Main.RecipeAssistant.

Lemma main_call_claude_run prompt st :
  Main._call_claude w prompt st =
  (main_decoded (messages_create w (count_events is_model_call (log st))
                   (prompt ++ main_json_suffix)),
   St (log st ++ [ModelCall (prompt ++ main_json_suffix)]) (driver st)).
Proof.
  unfold Main._call_claude, bind. rewrite model_call_run.
  fold main_json_suffix.
  destruct (messages_create w _ _) as [reply | e]; [| reflexivity].
  unfold lift, main_decoded. destruct (Main.clean reply) as [text | e];
    [| reflexivity].
  unfold loads. destruct (json_loads text); reflexivity.
Qed.

Lemma parse_recipe_run recipe_text st :
  Main.parse_recipe_with_claude w recipe_text st =
  (Ok (match main_decoded
               (messages_create w (count_events is_model_call (log st))
                  (Main.parse_prompt recipe_text ++ main_json_suffix)) with
       | Ok v => v
       | Raise _ => parse_fallback
       end),
   St (log st ++ [ModelCall (Main.parse_prompt recipe_text
                               ++ main_json_suffix)]) (driver st)).
Proof.
  unfold Main.parse_recipe_with_claude, try_catch.
  rewrite main_call_claude_run.
  match goal with
  | |- context [main_decoded ?x] => destruct (main_decoded x)
  end; reflexivity.
Qed.

(** [parse_recipe_with_claude] never raises: it makes one model call and
    returns the decoded reply, or the empty recipe with zero servings when
    the call, the cleaning or the decoding fails. *)
Theorem parse_recipe_never_raises recipe_text st :
  let prompt := Main.parse_prompt recipe_text ++ main_json_suffix in
  let reply := messages_create w (count_events is_model_call (log st)) prompt in
  Main.parse_recipe_with_claude w recipe_text st =
  (Ok (match main_decoded reply with
       | Ok v => v
       | Raise _ => parse_fallback
       end),
   St (log st ++ [ModelCall prompt]) (driver st)).
Proof. intros prompt reply. apply parse_recipe_run. Qed.

Lemma main_extract_run url st :
  Main.extract_recipe_text w url st =
  (match requests_get w url with
   | Ok resp => Ok (soup_text (response_text resp))
   | Raise e => Raise e
   end,
   St (log st ++ [HttpGet url]) (driver st)).
Proof.
  unfold Main.extract_recipe_text, bind. rewrite http_get_run.
  destruct (requests_get w url); reflexivity.
Qed.

Lemma stateless_tail {A B} (m : M A) (k : A -> M B) st :
  (forall a, stateless (k a)) ->
  snd ((a <- m ;; k a) st) = snd (m st).
Proof.
  intro Hk. unfold bind. destruct (m st) as [[a | e] st1]; [| reflexivity].
  apply Hk.
Qed.

(** A failed parse does not stop [process_recipe_url]: the scaling call
    is still made, on the empty recipe. *)
Theorem failed_parse_still_scales url st resp e :
  Main.debug_walmart_search self = false ->
  requests_get w url = Ok resp ->
  let prompt1 :=
    Main.parse_prompt (soup_text (response_text resp)) ++ main_json_suffix in
  main_decoded
    (messages_create w (count_events is_model_call (log st)) prompt1)
    = Raise e ->
  log (snd (Main.process_recipe_url w self url false st)) =
  log st ++ [HttpGet url; ModelCall prompt1;
             ModelCall (Main.scale_prompt self parse_fallback
                          ++ main_json_suffix)].
Proof.
  intros Hdebug Hget prompt1 Hfail. unfold Main.process_recipe_url.
  rewrite stateless_tail.
  2:{ intro p. apply stateless_bind; [apply stateless_ret | intro].
      apply stateless_ret. }
  unfold Main.prepare. rewrite Hdebug.
  erewrite bind_ok by (rewrite main_extract_run, Hget; reflexivity).
  erewrite bind_ok.
  2:{ rewrite parse_recipe_run. cbn [log driver].
      rewrite count_events_snoc. cbn [is_model_call].
      fold prompt1. rewrite Hfail. reflexivity. }
  erewrite bind_ok by reflexivity.
  erewrite bind_ok by reflexivity.
  unfold bind at 1. unfold Main.scale_recipe.
  rewrite main_call_claude_run. cbn [log driver].
  match goal with
  | |- context [main_decoded ?x] => destruct (main_decoded x) as [scaled | e']
  end.
  - match goal with
    | |- log (snd (?m ?s)) = _ => assert (Hs : stateless m)
    end.
    { repeat (apply stateless_bind; [apply stateless_lift | intro]).
      apply stateless_ret. }
    rewrite Hs. cbn [log]. rewrite <- !app_assoc. reflexivity.
  - cbn [snd log]. rewrite <- !app_assoc. reflexivity.
Qed.

End MainRuns.

(** ** main.py: what the matcher does to the browser *)

Section MatcherRuns.

Context {R : Runtime}.
Variable w : World.

Lemma adds_ret {A} p (a : A) : adds_at_most 0 p (ret a).
Proof.
  intros st o st' H. inversion H; subst. exists [].
  rewrite app_nil_r. repeat split; auto.
Qed.

Lemma adds_lift {A} p (o : outcome A) : adds_at_most 0 p (lift o).
Proof.
  intros st o' st' H. inversion H; subst. exists [].
  rewrite app_nil_r. repeat split; auto.
Qed.

Lemma adds_get_state p : adds_at_most 0 p get_state.
Proof.
  intros st o' st' H. inversion H; subst. exists [].
  rewrite app_nil_r. repeat split; auto.
Qed.

Lemma adds_emit (p : event -> bool) ev : p ev = true -> adds_at_most 1 p (emit ev).
Proof.
  intros Hp st o' st' H. inversion H; subst. exists [ev].
  cbn [log forallb List.length]. rewrite Hp. repeat split; auto.
Qed.

Lemma adds_bind {A B} n1 n2 p (m : M A) (k : A -> M B) :
  adds_at_most n1 p m -> (forall a, adds_at_most n2 p (k a)) ->
  adds_at_most (n1 + n2) p (bind m k).
Proof.
  intros Hm Hk st o st'. unfold bind.
  destruct (m st) as [[a | e] st1] eqn:E; intro H.
  - destruct (Hm _ _ _ E) as (ev1 & Hl1 & Hp1 & Hn1 & Hd1).
    destruct (Hk _ _ _ _ H) as (ev2 & Hl2 & Hp2 & Hn2 & Hd2).
    exists (ev1 ++ ev2). rewrite Hl2, Hl1, <- app_assoc.
    rewrite forallb_app, Hp1, Hp2, length_app.
    repeat split; auto; [lia | congruence].
  - inversion H; subst.
    destruct (Hm _ _ _ E) as (ev1 & Hl1 & Hp1 & Hn1 & Hd1).
    exists ev1. repeat split; auto. lia.
Qed.

Lemma adds_try {A} n1 n2 p (m : M A) (h : exn -> M A) :
  adds_at_most n1 p m -> (forall e, adds_at_most n2 p (h e)) ->
  adds_at_most (n1 + n2) p (try_catch m h).
Proof.
  intros Hm Hh st o st'. unfold try_catch.
  destruct (m st) as [[a | e] st1] eqn:E; intro H.
  - inversion H; subst.
    destruct (Hm _ _ _ E) as (ev1 & Hl1 & Hp1 & Hn1 & Hd1).
    exists ev1. repeat split; auto. lia.
  - destruct (Hm _ _ _ E) as (ev1 & Hl1 & Hp1 & Hn1 & Hd1).
    destruct (Hh _ _ _ _ H) as (ev2 & Hl2 & Hp2 & Hn2 & Hd2).
    exists (ev1 ++ ev2). rewrite Hl2, Hl1, <- app_assoc.
    rewrite forallb_app, Hp1, Hp2, length_app.
    repeat split; auto; [lia | congruence].
Qed.

Lemma adds_driver_get url : adds_at_most 1 is_navigate (Main.driver_get w url).
Proof.
  unfold Main.driver_get.
  apply (adds_bind 0 1); [apply adds_get_state | intro st0].
  apply (adds_bind 1 0); [apply adds_emit; reflexivity | intros _].
  apply (adds_bind 0 0); [apply adds_lift | intros _].
  apply adds_ret.
Qed.

Lemma adds_search_body ingredient :
  adds_at_most 1 is_navigate (Main.search_body w ingredient).
Proof.
  unfold Main.search_body.
  do 5 (apply (adds_bind 0 1); [apply adds_lift | intro]).
  apply (adds_bind 1 0); [apply adds_driver_get | intro].
  do 3 (apply (adds_bind 0 0); [apply adds_lift | intro]).
  apply adds_ret.
Qed.

Lemma adds_search_failed ingredient e :
  adds_at_most 0 is_navigate (Main.search_failed ingredient e).
Proof.
  unfold Main.search_failed.
  do 2 (apply (adds_bind 0 0); [apply adds_lift | intro]).
  apply adds_ret.
Qed.

Lemma ensure_browser_open st :
  driver st = true -> Main._ensure_browser w st = (Ok tt, st).
Proof.
  intro Hd. unfold Main._ensure_browser, bind, get_state. rewrite Hd.
  reflexivity.
Qed.

(** With a browser open, one match returns after at most one
    navigation. *)
Lemma search_product_navs fields st :
  driver st = true ->
  exists r st' navs,
    Main.search_walmart_product w (JObject fields) st = (Ok r, st') /\
    driver st' = true /\
    log st' = log st ++ navs /\ forallb is_navigate navs = true /\
    (List.length navs <= 1)%nat.
Proof.
  intro Hd.
  destruct (search_walmart_product_ok w fields st (or_introl Hd))
    as (name & url & price & qty & st' & Hrun & Hd' & _).
  pose proof Hrun as Hrun2.
  unfold Main.search_walmart_product in Hrun2.
  erewrite bind_ok in Hrun2 by (apply ensure_browser_open; exact Hd).
  destruct (adds_try 1 0 is_navigate _ _
              (adds_search_body (JObject fields))
              (adds_search_failed (JObject fields)) _ _ _ Hrun2)
    as (navs & Hl & Hp & Hn & _).
  eexists _, st', navs. split; [exact Hrun |].
  repeat split; auto.
Qed.

Lemma match_loop_navs : forall items st,
  Forall (fun v => is_dict v = true) items ->
  driver st = true ->
  exists rs st' navs,
    Main.match_loop w items st = (Ok rs, st') /\
    log st' = log st ++ navs /\ forallb is_navigate navs = true /\
    (List.length navs <= List.length items)%nat.
Proof.
  induction items as [| item rest IH]; intros st Hdict Hd.
  - exists [], st, []. rewrite app_nil_r. repeat split; auto.
  - inversion Hdict as [| x l Hitem Hrest]; subst.
    destruct item as [| | | | | | fields]; try discriminate Hitem.
    destruct (search_product_navs fields st Hd)
      as (r & st1 & nav1 & Hrun & Hd1 & Hl1 & Hp1 & Hn1).
    destruct (IH st1 Hrest Hd1) as (rs & st2 & nav2 & Hloop & Hl2 & Hp2 & Hn2).
    exists (r :: rs), st2, (nav1 ++ nav2). cbn [Main.match_loop].
    erewrite bind_ok by reflexivity.
    erewrite bind_ok by exact Hrun.
    erewrite bind_ok by exact Hloop.
    split; [reflexivity |]. rewrite Hl2, Hl1, <- app_assoc.
    rewrite forallb_app, Hp1, Hp2, length_app. cbn [List.length].
    repeat split; auto. lia.
Qed.

(** The matching phase starts the browser at most once, and only when
    none is open, and then navigates at most once per scaled
    ingredient. *)
Theorem match_phase_calls fields items st :
  Main.browser_available w st ->
  get_or "scaled_ingredients" (JArray []) fields = JArray items ->
  Forall (fun v => is_dict v = true) items ->
  exists navs,
    log (snd (Main.match_phase w (JObject fields) st)) =
    log st ++ (if driver st then [] else [BrowserLaunch]) ++ navs
    /\ forallb is_navigate navs = true
    /\ (List.length navs <= List.length items)%nat.
Proof.
  intros Hb Hget Hdict.
  destruct (ensure_browser_ok w st Hb) as (st1 & He & Hd1).
  assert (Hlog : log st1 = log st ++ (if driver st then [] else [BrowserLaunch])).
  { unfold Main._ensure_browser, bind, get_state in He.
    destruct (driver st) eqn:Hd.
    - inversion He; subst. rewrite app_nil_r. reflexivity.
    - unfold emit, lift, set_driver in He. cbn [log driver] in He.
      destruct (chrome_launch w) as [[] | e]; [| discriminate He].
      destruct (maximize_window w) as [[] | e]; [| discriminate He].
      inversion He; subst. reflexivity. }
  destruct (match_loop_navs items st1 Hdict Hd1)
    as (rs & st2 & navs & Hloop & Hl & Hp & Hn).
  exists navs. split; [| split; assumption].
  unfold Main.match_phase.
  erewrite bind_ok by exact He.
  erewrite bind_ok by (unfold lift, py_get; rewrite Hget; reflexivity).
  erewrite bind_ok by reflexivity.
  rewrite Hloop. cbn [snd]. rewrite Hl, Hlog, <- app_assoc. reflexivity.
Qed.

End MatcherRuns.

(** ** main.py: queries, selectors and the validator in detail *)

Section MatcherDetails.

Context {R : Runtime}.
Variable w : World.

Lemma stateless_search_failed ingredient e :
  stateless (Main.search_failed ingredient e).
Proof.
  unfold Main.search_failed.
  do 2 (apply stateless_bind; [apply stateless_lift | intro]).
  apply stateless_ret.
Qed.

Lemma search_query_is_text category name :
  exists q, Main.search_query category (JString name) = JString q.
Proof.
  unfold Main.search_query.
  destruct (pystr_eqb category (str "produce")); [eexists; reflexivity |].
  destruct (pystr_eqb category (str "dairy")); [eexists; reflexivity |].
  destruct (pystr_eqb category (str "meat")); [eexists; reflexivity |].
  destruct (pystr_eqb category (str "spices")); eexists; reflexivity.
Qed.

Lemma driver_get_state url st :
  snd (Main.driver_get w url st) = St (log st ++ [Navigate url]) (driver st).
Proof.
  unfold Main.driver_get, bind, get_state, emit, lift, ret.
  cbn [log driver].
  destruct (navigate (search_results w (count_events is_navigate (log st)) url))
    as [[] | e]; reflexivity.
Qed.

(** With a browser open, a match for an ingredient whose category and
    name are strings navigates exactly once, to the search address of the
    quoted query; the category is compared in lower case. *)
Theorem search_navigates_once fields category name st :
  driver st = true ->
  get_or "category" (JString []) fields = JString category ->
  get_or "name" (JString []) fields = JString name ->
  exists q,
    Main.search_query (lower category) (JString name) = JString q /\
    log (snd (Main.search_walmart_product w (JObject fields) st)) =
    log st ++ [Navigate (search_base ++ url_quote q)].
Proof.
  intros Hd Hc Hn.
  destruct (search_query_is_text (lower category) name) as [q Hq].
  exists q. split; [exact Hq |].
  unfold Main.search_walmart_product.
  erewrite bind_ok by (apply ensure_browser_open; exact Hd).
  rewrite try_catch_state by (intro; apply stateless_search_failed).
  unfold Main.search_body.
  erewrite bind_ok by (unfold lift, py_get; rewrite Hc; reflexivity).
  erewrite bind_ok by reflexivity.
  erewrite bind_ok by (unfold lift, py_get; rewrite Hn; reflexivity).
  erewrite bind_ok by reflexivity.
  erewrite bind_ok by (unfold lift; rewrite Hq; reflexivity).
  fold search_base. unfold bind at 1.
  pose proof (driver_get_state (search_base ++ url_quote q) st) as Hs.
  destruct (Main.driver_get w (search_base ++ url_quote q) st)
    as [[page | e] st1]; cbn [snd] in Hs; subst st1; [| reflexivity].
  match goal with
  | |- log (snd (?m ?s)) = _ => assert (Hst : stateless m)
  end.
  { repeat (apply stateless_bind; [apply stateless_lift | intro]).
    apply stateless_ret. }
  rewrite Hst. reflexivity.
Qed.

(** An ingredient whose category is not a string is given up at once:
    the result holds the failure sentinels and no page is loaded. *)
Theorem non_string_category_fails fields st :
  driver st = true ->
  is_str (get_or "category" (JString []) fields) = false ->
  Main.search_walmart_product w (JObject fields) st =
  (Ok (Main.product_match (JObject fields) (str "Search failed")
         (str "URL not found") (str "Price not found")
         (py_str (get_or "amount" (JString []) fields) ++ str " "
            ++ py_str (get_or "unit" (JString []) fields))), st).
Proof.
  intros Hd Hc. unfold Main.search_walmart_product.
  erewrite bind_ok by (apply ensure_browser_open; exact Hd).
  unfold try_catch, Main.search_body.
  erewrite bind_ok by reflexivity.
  rewrite (bind_raise _ _ st
             (no_attribute (get_or "category" (JString []) fields) "lower")
             st).
  2:{ unfold lift.
      destruct (get_or "category" (JString []) fields);
        try discriminate Hc; reflexivity. }
  apply search_failed_run.
Qed.

(** The address of a product is taken as the primary selector gives it;
    one found by scanning all anchors is never empty and holds the
    product path marker. *)
Theorem extract_url_marker product href :
  Main.extract_url product = Some href ->
  css_href product (str "a[href*='/ip/']") = Ok (Some href)
  \/ ((exists e, css_href product (str "a[href*='/ip/']") = Raise e)
      /\ href <> [] /\ contains (str "/ip/") href = true).
Proof.
  unfold Main.extract_url.
  destruct (css_href product _) as [h | e].
  - intros ->. left. reflexivity.
  - destruct (anchors product) as [links | e']; [| discriminate].
    intro H. right. split; [exists e; reflexivity |].
    induction links as [| link rest IH]; [discriminate H |].
    cbn [Main.scan_links] in H.
    destruct link as [[[| c h] |] | e2];
      try discriminate H; try (apply IH; exact H).
    destruct (contains (str "/ip/") (c :: h)) eqn:E.
    + inversion H; subst. split; [discriminate | exact E].
    + apply IH. exact H.
Qed.

(** No name is found exactly when every name selector fails. *)
Theorem extract_name_none product ingredient selectors :
  Main.extract_name product ingredient selectors None = None <->
  forall selector, In selector selectors ->
                   exists e, css_text product selector = Raise e.
Proof.
  induction selectors as [| sel rest IH]; cbn [Main.extract_name].
  - split; [intros _ s [] | reflexivity].
  - destruct (css_text product sel) as [t | e] eqn:E.
    + split.
      * intro H. exfalso.
        assert (Hsome : forall sels, Main.extract_name product ingredient sels (Some t) <> None).
        { induction sels as [| s sels IHs]; cbn [Main.extract_name];
            [discriminate |].
          destruct (css_text product s) as [t' | e']; [| exact IHs].
          destruct (Main.is_valid_product t' ingredient) as [[|] | e'];
            [discriminate | |].
          - clear IHs. revert t'. induction sels as [| s2 sels IH2];
              intro t'; cbn [Main.extract_name]; [discriminate |].
            destruct (css_text product s2) as [t2 | e2]; [| apply IH2].
            destruct (Main.is_valid_product t2 ingredient) as [[|] | e2];
              [discriminate | apply IH2 | apply IH2].
          - clear IHs. revert t'. induction sels as [| s2 sels IH2];
              intro t'; cbn [Main.extract_name]; [discriminate |].
            destruct (css_text product s2) as [t2 | e2]; [| apply IH2].
            destruct (Main.is_valid_product t2 ingredient) as [[|] | e2];
              [discriminate | apply IH2 | apply IH2]. }
        destruct (Main.is_valid_product t ingredient) as [[|] | e'];
          [discriminate H | exact (Hsome _ H) | exact (Hsome _ H)].
      * intro H. destruct (H sel (or_introl eq_refl)) as [e He].
        rewrite E in He. discriminate He.
    + rewrite IH. split.
      * intros H s [<- | Hin]; [exists e; exact E | apply H; exact Hin].
      * intros H s Hin. apply H. right. exact Hin.
Qed.

(** The first selector whose text passes the validator gives the name,
    whatever the selectors after it hold. *)
Theorem extract_name_first_valid product ingredient before selector after
    text cur :
  (forall s, In s before ->
     forall t, css_text product s = Ok t ->
               Main.is_valid_product t ingredient <> Ok true) ->
  css_text product selector = Ok text ->
  Main.is_valid_product text ingredient = Ok true ->
  Main.extract_name product ingredient (before ++ selector :: after) cur
  = Some text.
Proof.
  intros Hbefore Hsel Hvalid. revert cur.
  induction before as [| s before IH]; intro cur; cbn [app Main.extract_name].
  - rewrite Hsel, Hvalid. reflexivity.
  - assert (IH' := IH (fun s' Hin => Hbefore s' (or_intror Hin))).
    destruct (css_text product s) as [t | e] eqn:E; [| apply IH'].
    pose proof (Hbefore s (or_introl eq_refl) t E) as Hnot.
    destruct (Main.is_valid_product t ingredient) as [[|] | e];
      [congruence | apply IH' | apply IH'].
Qed.

End MatcherDetails.

(** ** main.py: a run without the matching phase *)

Section PrepareRuns.

Context {R : Runtime}.
Variable w : World.
Variable self : Main.RecipeAssistant.

Lemma adds_weaken {A} n n' p (m : M A) :
  (n <= n')%nat -> adds_at_most n p m -> adds_at_most n' p m.
Proof.
  intros Hn Hm st o st' H.
  destruct (Hm _ _ _ H) as (evs & Hl & Hp & Hlen & Hd).
  exists evs. repeat split; auto. lia.
Qed.

Lemma adds_raise {A} p e : adds_at_most 0 p (@raise A e).
Proof.
  intros st o st' H. inversion H; subst. exists [].
  rewrite app_nil_r. repeat split; auto.
Qed.

Lemma adds_http_get url : adds_at_most 1 not_browser (http_get w url).
Proof.
  unfold http_get.
  apply (adds_bind 1 0); [apply adds_emit; reflexivity | intros _].
  apply adds_lift.
Qed.

Lemma adds_model_call content :
  adds_at_most 1 not_browser (model_call w content).
Proof.
  unfold model_call.
  apply (adds_bind 0 1); [apply adds_get_state | intro].
  apply (adds_bind 1 0); [apply adds_emit; reflexivity | intros _].
  apply adds_lift.
Qed.

Lemma adds_loads text : adds_at_most 0 not_browser (loads text).
Proof.
  unfold loads. destruct (json_loads text); [apply adds_ret | apply adds_raise].
Qed.

Lemma adds_main_call_claude prompt :
  adds_at_most 1 not_browser (Main._call_claude w prompt).
Proof.
  unfold Main._call_claude.
  apply (adds_bind 1 0); [apply adds_model_call | intro].
  apply (adds_bind 0 0); [apply adds_lift | intro].
  apply adds_loads.
Qed.

Lemma adds_prepare url : adds_at_most 3 not_browser (Main.prepare w self url).
Proof.
  unfold Main.prepare. destruct (Main.debug_walmart_search self).
  - apply (adds_weaken 1 3); [lia |].
    apply (adds_bind 1 0); [apply adds_emit; reflexivity | intros _].
    apply (adds_bind 0 0); [apply adds_lift | intro].
    apply (adds_bind 0 0); [apply adds_loads | intro].
    do 2 (apply (adds_bind 0 0); [apply adds_lift | intro]).
    apply adds_ret.
  - apply (adds_bind 1 2).
    { unfold Main.extract_recipe_text.
      apply (adds_bind 1 0); [apply adds_http_get | intro]. apply adds_ret. }
    intro. apply (adds_bind 1 1).
    { unfold Main.parse_recipe_with_claude.
      apply (adds_try 1 0); [apply adds_main_call_claude | intro].
      apply adds_ret. }
    intro. do 2 (apply (adds_bind 0 1); [apply adds_lift | intro]).
    apply (adds_bind 1 0); [apply adds_main_call_claude | intro].
    do 6 (apply (adds_bind 0 0); [apply adds_lift | intro]).
    apply adds_ret.
Qed.

(** Called with [search_walmart=False], [process_recipe_url] never
    touches the browser: it adds at most three events to the log, none of
    them a launch or a navigation, leaves [self.driver] as it was, and a
    result it returns has an empty [walmart_products]. *)
Theorem without_search_no_browser url st o st' :
  Main.process_recipe_url w self url false st = (o, st') ->
  driver st' = driver st
  /\ (exists evs,
        log st' = log st ++ evs /\ forallb not_browser evs = true
        /\ (List.length evs <= 3)%nat)
  /\ (forall r, o = Ok r -> py_getitem r "walmart_products" = Ok (JArray [])).
Proof.
  intro H.
  assert (Hadds : adds_at_most 3 not_browser
                    (Main.process_recipe_url w self url false)).
  { unfold Main.process_recipe_url.
    apply (adds_bind 3 0); [apply adds_prepare | intro].
    apply (adds_bind 0 0); [apply adds_ret | intro].
    apply adds_ret. }
  destruct (Hadds _ _ _ H) as (evs & Hl & Hp & Hn & Hd).
  split; [exact Hd |]. split; [exists evs; repeat split; assumption |].
  intros r ->. unfold Main.process_recipe_url in H.
  apply bind_ok_inv in H. destruct H as (pr & st1 & _ & H).
  apply bind_ok_inv in H. destruct H as (products & st2 & Hp2 & H).
  apply ret_ok_inv in Hp2. destruct Hp2 as [-> _].
  apply ret_ok_inv in H. destruct H as [-> _]. reflexivity.
Qed.

End PrepareRuns.

(** ** recipe_cli.py: the command line and the chat message *)

Section CliRuns.

Context {R : Runtime}.
Variable w : World.

(** In JSON mode [main] runs [process_recipe] on its first argument, with
    the serving count read from the second argument when that is a number
    and 7 otherwise, and ends with status 0 in the state that run left. *)
Theorem main_runs_process_recipe (argv : list pystr) st :
  (2 <= List.length argv)%nat ->
  RecipeCli.arg_in "-h" [nth 1 argv []] = false ->
  RecipeCli.arg_in "--help" [nth 1 argv []] = false ->
  RecipeCli.arg_in "--chat" argv = false ->
  RecipeCli.servings_arg_ok argv ->
  exists r st',
    RecipeCli.process_recipe w (nth 1 argv []) (servings_of argv) st
      = (Ok r, st')
    /\ RecipeCli.main w argv st = (Ok 0%Z, st').
Proof.
  intros Hlen Hh Hhelp Hchat Hserv.
  destruct (process_recipe_returns w (nth 1 argv []) (servings_of argv) st)
    as (r & st' & Hr).
  exists r, st'. split; [exact Hr |].
  unfold RecipeCli.main.
  replace (List.length argv <? 2)%nat with false
    by (symmetry; apply Nat.ltb_ge; exact Hlen).
  rewrite Hh, Hhelp, Hchat. cbn [orb].
  assert (Hs : (if (2 <? List.length argv)%nat && isdigit (nth 2 argv [])
                then lift (RecipeCli.py_int (nth 2 argv [])) else ret 7%Z) st
               = (Ok (servings_of argv), st)).
  { unfold servings_of.
    destruct ((2 <? List.length argv)%nat && isdigit (nth 2 argv [])) eqn:E;
      [| reflexivity].
    apply andb_true_iff in E. destruct E as [E1 E2]. apply Nat.ltb_lt in E1.
    destruct Hserv as [Hs | [Hs | [Hs1 Hs2]]]; [lia | congruence |].
    unfold lift. rewrite (py_int_digits _ Hs1 Hs2). reflexivity. }
  erewrite bind_ok by exact Hs.
  erewrite bind_ok by exact Hr. reflexivity.
Qed.

Lemma superscript_not_ascii_digit c :
  is_superscript c = true -> is_ascii_digit c = false.
Proof.
  unfold is_superscript, is_ascii_digit. cbv zeta. intro H.
  apply orb_true_iff in H. destruct H as [H | H];
    [apply orb_true_iff in H; destruct H as [H | H] |];
    apply N.eqb_eq in H; rewrite H; reflexivity.
Qed.

Lemma superscript_not_ascii_digits s :
  existsb is_superscript s = true -> forallb is_ascii_digit s = false.
Proof.
  induction s as [| c s IH]; [discriminate |].
  cbn [existsb forallb]. intro H. apply orb_true_iff in H.
  destruct H as [H | H].
  - rewrite (superscript_not_ascii_digit c H). reflexivity.
  - rewrite (IH H). apply andb_false_r.
Qed.

(** A serving count that [isdigit] accepts and that holds a superscript
    digit makes [int] raise [ValueError]: the process ends with status 1
    before anything is fetched.  Unless more than 4300 decimal digits come
    first, the message names the literal. *)
Theorem superscript_servings_exit_1 (argv : list pystr) st :
  (3 <= List.length argv)%nat ->
  RecipeCli.arg_in "-h" [nth 1 argv []] = false ->
  RecipeCli.arg_in "--help" [nth 1 argv []] = false ->
  isdigit (nth 2 argv []) = true ->
  existsb is_superscript (nth 2 argv []) = true ->
  (exists msg,
      RecipeCli.main w argv st = (Raise (Exn ValueError msg), st)
      /\ ((List.length (RecipeCli.leading_digits (nth 2 argv [])) <= 4300)%nat ->
          msg = str "invalid literal for int() with base 10: "
                  ++ take 200 (str "'" ++ nth 2 argv [] ++ str "'")))
  /\ RecipeCli.exit_status w argv st = 1%Z.
Proof.
  intros Hlen Hh Hhelp Hd Hsup.
  pose proof (superscript_not_ascii_digits _ Hsup) as Ha.
  assert (Hmain : exists msg,
             RecipeCli.main w argv st = (Raise (Exn ValueError msg), st)
             /\ ((List.length (RecipeCli.leading_digits (nth 2 argv []))
                  <= 4300)%nat ->
                 msg = str "invalid literal for int() with base 10: "
                         ++ take 200 (str "'" ++ nth 2 argv [] ++ str "'"))).
  { unfold RecipeCli.main.
    replace (List.length argv <? 2)%nat with false
      by (symmetry; apply Nat.ltb_ge; lia).
    rewrite Hh, Hhelp. cbn [orb].
    replace (2 <? List.length argv)%nat with true
      by (symmetry; apply Nat.ltb_lt; lia).
    rewrite Hd. cbn [andb]. unfold RecipeCli.py_int. rewrite Ha. cbn [negb].
    destruct (4300 <? List.length (RecipeCli.leading_digits (nth 2 argv [])))%nat
      eqn:E.
    - eexists. split; [apply bind_raise; reflexivity |].
      intro Hle. apply Nat.ltb_lt in E. lia.
    - eexists. split; [apply bind_raise; reflexivity |].
      intros _. reflexivity. }
  destruct Hmain as (msg & Hmain & Hmsg).
  split; [exists msg; split; [exact Hmain | exact Hmsg] |].
  unfold RecipeCli.exit_status. rewrite Hmain. reflexivity.
Qed.



Lemma chat_items_raise item : forall items e,
  In item items -> RecipeCli.chat_item item = Raise e ->
  exists e', RecipeCli.chat_items items = Raise e'.
Proof.
  induction items as [| x items IH]; intros e Hin Hitem; [destruct Hin |].
  cbn [RecipeCli.chat_items].
  destruct (RecipeCli.chat_item x) as [line | e0] eqn:E;
    [| exists e0; reflexivity].
  destruct Hin as [-> | Hin]; [congruence |].
  destruct (IH e Hin Hitem) as [e' He']. rewrite He'.
  exists e'. reflexivity.
Qed.

(** A shopping item whose price is a non-empty text cannot be formatted
    with two decimals: the chat message for a successful result raises. *)
Theorem chat_refuses_text_price result items fields c price :
  py_truthy (get_or "success" JNull result) = true ->
  get_or "shopping_list" (JArray []) result = JArray items ->
  In (JObject fields) items ->
  get_or "estimated_price" (JInt 0) fields = JString (c :: price) ->
  exists e, RecipeCli.format_for_chat result = Raise e.
Proof.
  intros Hs Hl Hin Hp. unfold RecipeCli.format_for_chat.
  rewrite Hs. cbn [negb].
  destruct (py_getitem (JObject result) "recipe_name") as [name | e];
    [| exists e; reflexivity].
  destruct (py_getitem (JObject result) "scaled_servings") as [n | e];
    [| exists e; reflexivity].
  rewrite Hl. cbn [py_iter].
  assert (Hitem : exists e, RecipeCli.chat_item (JObject fields) = Raise e).
  { unfold RecipeCli.chat_item. rewrite Hp. cbn [py_truthy py_format_2f].
    eexists. reflexivity. }
  destruct Hitem as [e He].
  destruct (chat_items_raise _ _ _ Hin He) as [e' He'].
  rewrite He'. exists e'. reflexivity.
Qed.

End CliRuns.

Section ChatTips.

Context {R : Runtime}.

Ltac other_key Hagree :=
  unfold get_or; rewrite Hagree by (cbv; discriminate); reflexivity.

(** Only the first five storage tips reach the chat message: two results
    that differ in nothing but later tips are formatted alike. *)
Theorem chat_shows_five_tips r1 r2 tips1 tips2 :
  (forall k, k <> str "storage_tips" -> assoc k r1 = assoc k r2) ->
  assoc (str "storage_tips") r1 = Some (JObject tips1) ->
  assoc (str "storage_tips") r2 = Some (JObject tips2) ->
  firstn 5 tips1 = firstn 5 tips2 ->
  RecipeCli.format_for_chat r1 = RecipeCli.format_for_chat r2.
Proof.
  intros Hagree H1 H2 Hfive.
  assert (Es : get_or "success" JNull r1 = get_or "success" JNull r2)
    by other_key Hagree.
  assert (Ee : get_or "error" (JString (str "Unknown error")) r1
               = get_or "error" (JString (str "Unknown error")) r2)
    by other_key Hagree.
  assert (El : get_or "shopping_list" (JArray []) r1
               = get_or "shopping_list" (JArray []) r2)
    by other_key Hagree.
  assert (Ec : get_or "estimated_cost" (JInt 0) r1
               = get_or "estimated_cost" (JInt 0) r2)
    by other_key Hagree.
  assert (En : py_getitem (JObject r1) "recipe_name"
               = py_getitem (JObject r2) "recipe_name")
    by (unfold py_getitem; rewrite Hagree by (cbv; discriminate); reflexivity).
  assert (Ev : py_getitem (JObject r1) "scaled_servings"
               = py_getitem (JObject r2) "scaled_servings")
    by (unfold py_getitem; rewrite Hagree by (cbv; discriminate); reflexivity).
  assert (Et1 : get_or "storage_tips" JNull r1 = JObject tips1)
    by (unfold get_or; rewrite H1; reflexivity).
  assert (Et2 : get_or "storage_tips" JNull r2 = JObject tips2)
    by (unfold get_or; rewrite H2; reflexivity).
  assert (Eg1 : py_getitem (JObject r1) "storage_tips" = Ok (JObject tips1))
    by (unfold py_getitem; rewrite H1; reflexivity).
  assert (Eg2 : py_getitem (JObject r2) "storage_tips" = Ok (JObject tips2))
    by (unfold py_getitem; rewrite H2; reflexivity).
  assert (Etruth : py_truthy (JObject tips1) = py_truthy (JObject tips2)).
  { destruct tips1, tips2; try reflexivity; discriminate Hfive. }
  unfold RecipeCli.format_for_chat.
  rewrite Es, Ee, En, Ev, El, Ec, Et1, Et2, Eg1, Eg2, Etruth.
  cbn [py_items]. rewrite Hfive. reflexivity.
Qed.

End ChatTips.

(** ** main.py: the validator and letter case *)




(** ** anthro_test.py *)

Section AnthroRuns.

Context {R : Runtime}.
Variable w : World.

Lemma anthro_call_claude_run prompt st :
  AnthroTest._call_claude w prompt st =
  (main_decoded (messages_create w (count_events is_model_call (log st))
                   (prompt ++ main_json_suffix)),
   St (log st ++ [ModelCall (prompt ++ main_json_suffix)]) (driver st)).
Proof. exact (main_call_claude_run w prompt st). Qed.

(** Unlike the parser of main.py, the analysis has no fallback: when its
    reply fails, [process_recipe] raises that failure after the one model
    call, and scaling is not called. *)
Theorem anthro_analysis_failure_raises recipe_text meals st e :
  let prompt1 := AnthroTest.analyze_prompt recipe_text ++ main_json_suffix in
  main_decoded
    (messages_create w (count_events is_model_call (log st)) prompt1)
    = Raise e ->
  AnthroTest.process_recipe w recipe_text meals st =
  (Raise e, St (log st ++ [ModelCall prompt1]) (driver st)).
Proof.
  intros prompt1 Hfail. unfold AnthroTest.process_recipe.
  apply bind_raise. unfold AnthroTest.analyze_recipe.
  rewrite anthro_call_claude_run. fold prompt1. rewrite Hfail. reflexivity.
Qed.

(** A result of [process_recipe] holds the two decoded replies as they
    came, both dicts, and was made with exactly two model calls, the
    second one on the analysis and the requested number of meals. *)
Theorem anthro_process_recipe_result recipe_text meals st r st' :
  AnthroTest.process_recipe w recipe_text meals st = (Ok r, st') ->
  exists data scaled,
    let n := count_events is_model_call (log st) in
    let prompt1 := AnthroTest.analyze_prompt recipe_text ++ main_json_suffix in
    let prompt2 :=
      AnthroTest.scale_prompt (JObject data) meals ++ main_json_suffix in
    main_decoded (messages_create w n prompt1) = Ok (JObject data) /\
    main_decoded (messages_create w (S n) prompt2) = Ok (JObject scaled) /\
    r = JObject [(str "original_recipe", JObject data);
                 (str "scaled_recipe", JObject scaled)] /\
    st' = St (log st ++ [ModelCall prompt1; ModelCall prompt2]) (driver st).
Proof.
  unfold AnthroTest.process_recipe, AnthroTest.analyze_recipe,
    AnthroTest.scale_recipe. intro H.
  inv_bind H. rewrite anthro_call_claude_run in H0.
  inversion H0 as [[Hd1 Hst1]]. clear H0. subst st0.
  inv_bind H. apply lift_ok_inv in H0. destruct H0 as [Hg ->].
  apply py_get_ok_inv in Hg. destruct Hg as (data & -> & _).
  inv_bind H. apply lift_ok_inv in H0. destruct H0 as [_ ->].
  inv_bind H. apply lift_ok_inv in H0. destruct H0 as [_ ->].
  inv_bind H. rewrite anthro_call_claude_run in H0.
  inversion H0 as [[Hd2 Hst2]]. clear H0. subst st0.
  cbn [log driver] in *. rewrite count_events_snoc in Hd2.
  cbn [is_model_call] in Hd2.
  inv_bind H. apply lift_ok_inv in H0. destruct H0 as [Hg ->].
  apply py_get_ok_inv in Hg. destruct Hg as (scaled & -> & _).
  inv_bind H. apply lift_ok_inv in H0. destruct H0 as [_ ->].
  inv_bind H. apply lift_ok_inv in H0. destruct H0 as [_ ->].
  inv_bind H. apply lift_ok_inv in H0. destruct H0 as [_ ->].
  inv_bind H. apply lift_ok_inv in H0. destruct H0 as [_ ->].
  inv_bind H. apply lift_ok_inv in H0. destruct H0 as [_ ->].
  apply ret_ok_inv in H. destruct H as [-> ->].
  exists data, scaled. cbv zeta. repeat split; try assumption.
  rewrite <- app_assoc. reflexivity.
Qed.

End AnthroRuns.

(** ** The further properties at work *)

Lemma pystr_eqb_eq a : forall b, pystr_eqb a b = true -> a = b.
Proof.
  induction a as [| x a IH]; intros [| y b] H; try discriminate H.
  - reflexivity.
  - cbn [pystr_eqb] in H. apply andb_true_iff in H. destruct H as [Hx Hr].
    apply ascii_eqb_eq in Hx. rewrite Hx, (IH b Hr). reflexivity.
Qed.

Lemma process_recipe_never_raises_witness :
  exists parsed scaled,
    Examples.run_cli Examples.happy =
    (Ok (RecipeCli.success_result Examples.url 7 parsed scaled),
     St [HttpGet Examples.url;
         ModelCall (RecipeCli.parse_prompt Examples.soup_page
                      ++ RecipeCli.json_suffix);
         ModelCall (RecipeCli.scale_prompt (R := RefRuntime.runtime)
                      (get_or "original_servings" (JInt 4) parsed) 7
                      (JObject parsed) ++ RecipeCli.json_suffix)] false).
Proof.
  eexists. eexists.
  eapply (proj2 (process_recipe_never_raises (R := RefRuntime.runtime)
                   Examples.happy Examples.url 7 Examples.st0)
            "s"%char (str "k-test") (Response 200 Examples.soup_page)
            Examples.parsed_reply _ Examples.scaled_reply).
  - reflexivity.
  - reflexivity.
  - reflexivity.
  - reflexivity.
  - rewrite runtime_loads. vm_compute. reflexivity.
  - reflexivity.
  - rewrite runtime_loads. vm_compute. reflexivity.
Defined.

Lemma undecodable_first_reply_witness :
  exists msg,
    Examples.run_cli MoreExamples.garbled =
    (Ok (RecipeCli.failure (str "Failed to parse Claude response: " ++ msg)),
     St [HttpGet Examples.url;
         ModelCall (RecipeCli.parse_prompt Examples.soup_page
                      ++ RecipeCli.json_suffix)] false).
Proof.
  eexists.
  apply (undecodable_first_reply (R := RefRuntime.runtime)
           MoreExamples.garbled Examples.url 7 Examples.st0
           "s"%char (str "k-test") (Response 200 Examples.soup_page)
           (str "Sorry, I cannot read this page.")).
  - reflexivity.
  - reflexivity.
  - reflexivity.
  - reflexivity.
  - rewrite runtime_loads. vm_compute. reflexivity.
Defined.

Lemma first_reply_not_a_dict_witness :
  Examples.run_cli MoreExamples.listed =
  (Ok (RecipeCli.failure (str "'list' object has no attribute 'get'")),
   St [HttpGet Examples.url;
       ModelCall (RecipeCli.parse_prompt Examples.soup_page
                    ++ RecipeCli.json_suffix)] false).
Proof.
  apply (first_reply_not_a_dict (R := RefRuntime.runtime)
           MoreExamples.listed Examples.url 7 Examples.st0
           "s"%char (str "k-test") (Response 200 Examples.soup_page)
           (Examples.js "[1, 2]") (JArray [JInt 1; JInt 2])).
  - reflexivity.
  - reflexivity.
  - reflexivity.
  - reflexivity.
  - rewrite runtime_loads. vm_compute. reflexivity.
  - reflexivity.
Defined.

Lemma cli_clean_ignores_outer_space_witness :
  RecipeCli.clean (str "  " ++ Examples.scaled_reply ++ [nl])
  = RecipeCli.clean Examples.scaled_reply.
Proof.
  apply (cli_clean_ignores_outer_space (str "  ") Examples.scaled_reply [nl]);
    reflexivity.
Defined.

Lemma lone_fence_line_witness :
  Main.clean (fence ++ str "json")
    = Raise (Exn IndexError (str "list index out of range"))
  /\ RecipeCli.clean (fence ++ str "json") = [].
Proof. apply (lone_fence_line (str "json")). reflexivity. Defined.

Lemma main_clean_keeps_indented_fences_witness :
  let reply := fenced (str "json") Examples.parsed_reply in
  Main.clean (str " " ++ reply) = Ok reply
  /\ json_loads (Runtime := RefRuntime.runtime) reply = None.
Proof.
  apply (main_clean_keeps_indented_fences (L := ref_runtime_laws)
           (str " ") (str "json") Examples.parsed_reply).
  - discriminate.
  - reflexivity.
Defined.

Lemma failed_parse_still_scales_witness :
  log (snd (Main.process_recipe_url (R := RefRuntime.runtime)
              MoreExamples.failed_parse Examples.assistant Examples.url false
              Examples.st0)) =
  [HttpGet Examples.url;
   ModelCall (Main.parse_prompt Examples.soup_page ++ main_json_suffix);
   ModelCall (Main.scale_prompt (R := RefRuntime.runtime) Examples.assistant
                parse_fallback ++ main_json_suffix)].
Proof.
  eapply (failed_parse_still_scales (R := RefRuntime.runtime)
            MoreExamples.failed_parse Examples.assistant Examples.url
            Examples.st0 (Response 200 Examples.soup_page)).
  - reflexivity.
  - reflexivity.
  - vm_compute. reflexivity.
Defined.

Lemma match_phase_calls_witness :
  exists navs,
    log (snd (Main.match_phase (R := RefRuntime.runtime) Examples.kitchen
                (JObject Examples.kitchen_scaled) Examples.st0)) =
    BrowserLaunch :: navs
    /\ forallb is_navigate navs = true
    /\ (List.length navs <= 2)%nat.
Proof.
  apply (match_phase_calls (R := RefRuntime.runtime) Examples.kitchen
           Examples.kitchen_scaled Examples.kitchen_ingredients Examples.st0).
  - right. split; reflexivity.
  - reflexivity.
  - repeat constructor.
Defined.

Lemma search_navigates_once_witness :
  exists q,
    Main.search_query (R := RefRuntime.runtime) (str "produce")
      (JString (str "garlic")) = JString q /\
    log (snd (Main.search_walmart_product (R := RefRuntime.runtime)
                Examples.kitchen (JObject MoreExamples.garlic_fields)
                MoreExamples.browser_open)) =
    [Navigate (search_base ++ url_quote (Runtime := RefRuntime.runtime) q)].
Proof.
  apply (search_navigates_once (R := RefRuntime.runtime) Examples.kitchen
           MoreExamples.garlic_fields (str "produce") (str "garlic")
           MoreExamples.browser_open); reflexivity.
Defined.

Lemma non_string_category_fails_witness :
  Main.search_walmart_product (R := RefRuntime.runtime) Examples.kitchen
    (JObject MoreExamples.numbered) MoreExamples.browser_open =
  (Ok (Main.product_match (JObject MoreExamples.numbered)
         (str "Search failed") (str "URL not found") (str "Price not found")
         (str "3 whole")), MoreExamples.browser_open).
Proof.
  apply (non_string_category_fails (R := RefRuntime.runtime) Examples.kitchen
           MoreExamples.numbered MoreExamples.browser_open); reflexivity.
Defined.

Lemma extract_url_marker_witness :
  let href := str "https://www.walmart.com/ip/77" in
  Main.extract_url MoreExamples.anchors_only = Some href /\
  (css_href MoreExamples.anchors_only (str "a[href*='/ip/']") = Ok (Some href)
   \/ ((exists e,
          css_href MoreExamples.anchors_only (str "a[href*='/ip/']") = Raise e)
       /\ href <> [] /\ contains (str "/ip/") href = true)).
Proof.
  split; [reflexivity |].
  apply (extract_url_marker MoreExamples.anchors_only). reflexivity.
Defined.

Lemma extract_name_none_witness :
  Main.extract_name MoreExamples.anchors_only Examples.garlic
    Main.name_selectors None = None.
Proof.
  apply (proj2 (extract_name_none MoreExamples.anchors_only Examples.garlic
                  Main.name_selectors)).
  intros selector _. exists MoreExamples.no_element. reflexivity.
Defined.

Lemma extract_name_first_valid_witness :
  Main.extract_name MoreExamples.seeds_first Examples.garlic
    Main.name_selectors None = Some (str "Fresh Garlic Bulb").
Proof.
  apply (extract_name_first_valid MoreExamples.seeds_first Examples.garlic
           [str "span[data-automation-id='product-title']"]
           (str "span.normal") [str "span.f6"]).
  - intros s [<- | []] t Ht. vm_compute in Ht. inversion Ht. subst t.
    vm_compute. discriminate.
  - reflexivity.
  - reflexivity.
Defined.

Lemma without_search_no_browser_witness :
  exists o st',
    Main.process_recipe_url (R := RefRuntime.runtime) Examples.kitchen
      Examples.assistant Examples.url false Examples.st0 = (o, st') /\
    driver st' = false
    /\ (exists evs,
          log st' = evs /\ forallb not_browser evs = true
          /\ (List.length evs <= 3)%nat)
    /\ (forall r, o = Ok r -> py_getitem r "walmart_products" = Ok (JArray [])).
Proof.
  eexists. eexists.
  assert (Hrun : Main.process_recipe_url (R := RefRuntime.runtime)
                   Examples.kitchen Examples.assistant Examples.url false
                   Examples.st0 = (_, _))
    by (vm_compute; reflexivity).
  split; [exact Hrun |].
  exact (without_search_no_browser (R := RefRuntime.runtime) Examples.kitchen
           Examples.assistant Examples.url Examples.st0 _ _ Hrun).
Defined.

Lemma main_runs_process_recipe_witness :
  let argv := [Examples.prog; Examples.url; str "12"] in
  exists r st',
    RecipeCli.process_recipe (R := RefRuntime.runtime) Examples.happy
      Examples.url 12 Examples.st0 = (Ok r, st')
    /\ RecipeCli.main (R := RefRuntime.runtime) Examples.happy argv
         Examples.st0 = (Ok 0%Z, st').
Proof.
  apply (main_runs_process_recipe (R := RefRuntime.runtime) Examples.happy
           [Examples.prog; Examples.url; str "12"] Examples.st0).
  - simpl. lia.
  - reflexivity.
  - reflexivity.
  - reflexivity.
  - right. right. split; [reflexivity | simpl; lia].
Defined.

Lemma superscript_servings_exit_1_witness :
  let argv := [Examples.prog; Examples.url; [chr 49; chr 178]] in
  (exists msg,
      RecipeCli.main (R := RefRuntime.runtime) Examples.happy argv
        Examples.st0 = (Raise (Exn ValueError msg), Examples.st0)
      /\ ((List.length (RecipeCli.leading_digits (nth 2 argv [])) <= 4300)%nat ->
          msg = str "invalid literal for int() with base 10: "
                  ++ take 200 (str "'" ++ nth 2 argv [] ++ str "'")))
  /\ RecipeCli.exit_status (R := RefRuntime.runtime) Examples.happy argv
       Examples.st0 = 1%Z.
Proof.
  apply (superscript_servings_exit_1 (R := RefRuntime.runtime) Examples.happy
           [Examples.prog; Examples.url; [chr 49; chr 178]] Examples.st0).
  - simpl. lia.
  - reflexivity.
  - reflexivity.
  - reflexivity.
  - reflexivity.
Defined.


Lemma chat_refuses_text_price_witness :
  exists e,
    RecipeCli.format_for_chat (R := RefRuntime.runtime)
      MoreExamples.text_price = Raise e.
Proof.
  eapply (chat_refuses_text_price (R := RefRuntime.runtime)
            MoreExamples.text_price).
  - reflexivity.
  - reflexivity.
  - left. reflexivity.
  - reflexivity.
Defined.

Lemma chat_shows_five_tips_witness :
  RecipeCli.format_for_chat (R := RefRuntime.runtime)
    (MoreExamples.with_tips 7)
  = RecipeCli.format_for_chat (R := RefRuntime.runtime)
      (MoreExamples.with_tips 5).
Proof.
  apply (chat_shows_five_tips (R := RefRuntime.runtime)
           (MoreExamples.with_tips 7) (MoreExamples.with_tips 5)
           (MoreExamples.tips 7) (MoreExamples.tips 5)).
  - intros k Hk. unfold MoreExamples.with_tips. cbn [assoc].
    destruct (pystr_eqb k (str "storage_tips")) eqn:E; [| reflexivity].
    elim Hk. exact (pystr_eqb_eq _ _ E).
  - reflexivity.
  - reflexivity.
  - reflexivity.
Defined.


Lemma anthro_analysis_failure_raises_witness :
  exists e,
    MoreExamples.anthro_run MoreExamples.garbled =
    (Raise e,
     St [ModelCall (AnthroTest.analyze_prompt Examples.soup_page
                      ++ main_json_suffix)] false).
Proof.
  eexists.
  eapply (anthro_analysis_failure_raises (R := RefRuntime.runtime)
            MoreExamples.garbled Examples.soup_page 7 Examples.st0).
  vm_compute. reflexivity.
Defined.

Lemma anthro_process_recipe_result_witness :
  exists r st' data scaled,
    MoreExamples.anthro_run Examples.kitchen = (Ok r, st') /\
    r = JObject [(str "original_recipe", JObject data);
                 (str "scaled_recipe", JObject scaled)] /\
    st' = St [ModelCall (AnthroTest.analyze_prompt Examples.soup_page
                           ++ main_json_suffix);
              ModelCall (AnthroTest.scale_prompt (R := RefRuntime.runtime)
                           (JObject data) 7 ++ main_json_suffix)] false.
Proof.
  assert (Hrun : exists r st',
             MoreExamples.anthro_run Examples.kitchen = (Ok r, st'))
    by (eexists; eexists; vm_compute; reflexivity).
  destruct Hrun as (r & st' & Hrun).
  destruct (anthro_process_recipe_result (R := RefRuntime.runtime)
              Examples.kitchen Examples.soup_page 7 Examples.st0 r st' Hrun)
    as (data & scaled & _ & _ & Hr & Hst).
  exists r, st', data, scaled.
  split; [exact Hrun |]. split; [exact Hr | exact Hst].
Defined.
